(** * Criador Mental: editor history, prompt composition and generation

    A shallow embedding of the client-side editor of Criador Mental.
    The source holds two variants of the editor page:

    - the [Home] component that keeps its document in React [useState]
      cells ([Module Home] below), and
    - the reducer-based application ([appReducer], [EditorScreen]) whose
      document lives in an undo/redo history ([Module Editor] below).

    Both variants build the generation prompt with the same inline block
    of [generateMindMap]; that block is embedded once, as [composePrompt].

    Conventions of the embedding:
    - a JavaScript [number] used as an index is a [Z]; [arr[i]] is [js_get];
    - a JavaScript string is a [string]; [undefined]/[null] is [None];
    - a handler is a function of the values its closure captured at render
      time and of the store it updates; an [async] handler stops at its
      single [await] and is resumed with the backend's answer. *)

From Stdlib Require Import ZArith String Ascii List Lia Bool DecimalString.
From Stdlib Require Import DecimalZ DecimalPos.
From stdpp Require Import base list strings sorting relations.

Local Open Scope Z_scope.

(** ** JavaScript values *)

(** [arr[i]] for an integer-valued [number] index: [undefined] out of range. *)
Definition js_get {A : Type} (l : list A) (i : Z) : option A :=
  if decide (0 <= i) then l !! Z.to_nat i else None.

(** [arr.filter((_, i) => i !== k)], the callback's index counted from [n]. *)
Fixpoint filter_index_ne_from {A : Type} (n : nat) (k : Z) (l : list A) : list A :=
  match l with
  | [] => []
  | x :: l' =>
      if bool_decide (Z.of_nat n = k)
      then filter_index_ne_from (S n) k l'
      else x :: filter_index_ne_from (S n) k l'
  end.

Definition filter_index_ne {A : Type} (k : Z) (l : list A) : list A :=
  filter_index_ne_from 0 k l.

(** [arr.map((x, i) => i === k ? f(x) : x)]. *)
Definition map_at {A : Type} (k : Z) (f : A -> A) (l : list A) : list A :=
  imap (fun i x => if bool_decide (Z.of_nat i = k) then f x else x) l.

(** The double quote and the line feed, which a string literal cannot hold. *)
Definition dq : string := String (ascii_of_nat 34) EmptyString.
Definition nl : string := String (ascii_of_nat 10) EmptyString.

(** [arr.join(sep)] on an array of strings. *)
Definition join (l : list string) (sep : string) : string := String.concat sep l.

(** [arr.join(sep)] on an array that may hold [undefined]: it prints as the
    empty string. *)
Definition join_undef (l : list (option string)) (sep : string) : string :=
  join (map (fun o => match o with Some s => s | None => EmptyString end) l) sep.

(** Truthiness of a string: only the empty string is falsy. *)
Definition truthy (s : string) : bool :=
  match s with EmptyString => false | String _ _ => true end.

(** [haystack.includes(needle)] on strings, as a proposition and as a test. *)
Definition is_substring (needle haystack : string) : Prop :=
  exists pre post, haystack = pre +:+ needle +:+ post.

Fixpoint includes (haystack needle : string) : bool :=
  String.prefix needle haystack
  || match haystack with
     | EmptyString => false
     | String _ rest => includes rest needle
     end.

(** ** JSON.stringify *)

Definition hex_digit (n : nat) : ascii :=
  ascii_of_nat (if Nat.ltb n 10 then 48 + n else 87 + n).

(** QuoteJSONString, one code unit at a time. *)
Definition quote_char (c : ascii) : string :=
  let n := nat_of_ascii c in
  if Nat.eqb n 34 then "\" +:+ dq
  else if Nat.eqb n 92 then "\\"
  else if Nat.eqb n 8 then "\b"
  else if Nat.eqb n 12 then "\f"
  else if Nat.eqb n 10 then "\n"
  else if Nat.eqb n 13 then "\r"
  else if Nat.eqb n 9 then "\t"
  else if Nat.ltb n 32
       then "\u00" +:+ String (hex_digit (Nat.div n 16))
                        (String (hex_digit (Nat.modulo n 16)) EmptyString)
  else String c EmptyString.

Fixpoint quote_body (s : string) : string :=
  match s with
  | EmptyString => EmptyString
  | String c rest => quote_char c +:+ quote_body rest
  end.

Definition stringify_string (s : string) : string := dq +:+ quote_body s +:+ dq.

Definition stringify_number (z : Z) : string := NilZero.string_of_int (Z.to_int z).

Definition stringify_array {A : Type} (f : A -> string) (l : list A) : string :=
  "[" +:+ join (map f l) "," +:+ "]".

Definition stringify_nullable {A : Type} (f : A -> string) (o : option A) : string :=
  match o with Some a => f a | None => "null" end.

Definition stringify_member (key value : string) : string :=
  stringify_string key +:+ ":" +:+ value.

Definition stringify_object (members : list string) : string :=
  "{" +:+ join members "," +:+ "}".

(** ** Document model *)

(** A decoded image held by the rendering layer.  It has no own enumerable
    property, so JSON.stringify prints it as an empty object. *)
Record HTMLImageElement := { src : string }.

Record MutableRefObject := { current : option HTMLImageElement }.

Record Page := {
  id : string;
  name : string;
  keywords : list string;
  instructions : list string;
  generatedImage : option string;
  versions : list string;
  contextPageIds : list string;
  backgroundImageRef : MutableRefObject;
}.

(** [Partial<Page>]: an absent key is [None]. *)
Record PartialPage := {
  upd_name : option string;
  upd_keywords : option (list string);
  upd_instructions : option (list string);
  upd_generatedImage : option (option string);
  upd_versions : option (list string);
  upd_contextPageIds : option (list string);
}.

Definition no_update : PartialPage :=
  {| upd_name := None; upd_keywords := None; upd_instructions := None;
     upd_generatedImage := None; upd_versions := None;
     upd_contextPageIds := None |}.

(** [{...page, ...updates}]. *)
Definition spread_page (page : Page) (updates : PartialPage) : Page :=
  {| id := id page;
     name := default (name page) (upd_name updates);
     keywords := default (keywords page) (upd_keywords updates);
     instructions := default (instructions page) (upd_instructions updates);
     generatedImage := default (generatedImage page) (upd_generatedImage updates);
     versions := default (versions page) (upd_versions updates);
     contextPageIds := default (contextPageIds page) (upd_contextPageIds updates);
     backgroundImageRef := backgroundImageRef page |}.

Definition createNewPage (id0 name0 : string) : Page :=
  {| id := id0; name := name0; keywords := []; instructions := [];
     generatedImage := None; versions := []; contextPageIds := [];
     backgroundImageRef := {| current := None |} |}.

Definition is_master (p : Page) : bool := String.eqb (id p) "master".

Definition stringify_ref (r : MutableRefObject) : string :=
  stringify_object
    [stringify_member "current" (stringify_nullable (fun _ => "{}") (current r))].

Definition stringify_page (p : Page) : string :=
  stringify_object
    [stringify_member "id" (stringify_string (id p));
     stringify_member "name" (stringify_string (name p));
     stringify_member "keywords" (stringify_array stringify_string (keywords p));
     stringify_member "instructions"
       (stringify_array stringify_string (instructions p));
     stringify_member "generatedImage"
       (stringify_nullable stringify_string (generatedImage p));
     stringify_member "versions" (stringify_array stringify_string (versions p));
     stringify_member "contextPageIds"
       (stringify_array stringify_string (contextPageIds p));
     stringify_member "backgroundImageRef"
       (stringify_ref (backgroundImageRef p))].

Inductive Mode := evolve | rethink.

Record FocusedItems := {
  focus_keywords : list Z;
  focus_instructions : list Z;
}.

Definition no_focus : FocusedItems :=
  {| focus_keywords := []; focus_instructions := [] |}.

(** ** Prompt composition

    The block of [generateMindMap] between the base-image computation and
    the backend call; the same text in both variants of the editor. *)

Definition nonempty {A : Type} (l : list A) : bool := Nat.ltb 0 (length l).

Definition master_header : string :=
  "YOUR TASK IS TO CREATE A MASTER MIND MAP. Synthesize all concepts from all the user's pages into one single, cohesive drawing. Identify and visualize the connections, overlaps, and high-level themes between them. The final drawing must be a unified "
  +:+ dq +:+ "brain" +:+ dq +:+ " of the entire project.".

Definition master_entry (page : Page) : string :=
  nl +:+ nl +:+ "- On page " +:+ dq +:+ name page +:+ dq
  +:+ ", the core concepts are: " +:+ dq +:+ join (keywords page) ", " +:+ dq
  +:+ ". The instructions were: " +:+ dq +:+ join (instructions page) ". "
  +:+ dq +:+ ".".

Definition master_evolve : string :=
  nl +:+ nl
  +:+ "Evolve the previous master drawing with this complete context. Do not start from scratch.".

Definition golden_rule (activePage : Page) : string :=
  "GOLDEN RULE: YOU MUST REPRESENT 100% OF ALL KEYWORDS AND FOLLOW 100% OF ALL INSTRUCTIONS for the page "
  +:+ dq +:+ name activePage +:+ dq
  +:+ ". No concept can be ignored. Use simple icons, text labels, and arrows. Maintain the hand-drawn, minimalist style unless an instruction says otherwise.".

Definition rule2_evolve (activePage : Page) : string :=
  nl +:+ nl
  +:+ "RULE 2: EVOLVE, DO NOT RESTART. Evolve the provided drawing for page "
  +:+ dq +:+ name activePage +:+ dq
  +:+ ". Integrate all keywords and instructions by modifying, adding to, or refining the existing visual elements.".

Definition rule2_fresh (activePage : Page) : string :=
  nl +:+ nl
  +:+ "RULE 2: START FRESH. Generate a completely new mind map for page "
  +:+ dq +:+ name activePage +:+ dq
  +:+ " from a blank canvas, synthesizing all keywords and instructions.".

Definition focus_header : string :=
  nl +:+ nl
  +:+ "CRITICAL FOCUS FOR THIS UPDATE: The user has specifically highlighted the following items. Give them maximum priority:".

Definition context_header : string :=
  nl +:+ nl
  +:+ "ADDITIONAL CONTEXT: Use the following page(s) as inspiration. Find visual connections and synergies with the current page's concepts.".

Definition context_entry (contextPage : Page) : string :=
  nl +:+ "- From page " +:+ dq +:+ name contextPage +:+ dq
  +:+ ": Core concepts are " +:+ dq +:+ join (keywords contextPage) ", " +:+ dq
  +:+ ". Key instructions were: " +:+ dq
  +:+ join (instructions contextPage) ". " +:+ dq +:+ ".".

(** The [forEach] over the non-master pages, accumulating [masterContext]. *)
Definition master_step (masterContext : string) (page : Page) : string :=
  if nonempty (keywords page)
  then masterContext +:+ master_entry page
  else masterContext.

(** The [forEach] over [contextPageIds], accumulating [contextPrompt]. *)
Definition context_step (pages : list Page) (contextPrompt pageId : string) : string :=
  match List.find (fun p => String.eqb (id p) pageId) pages with
  | Some contextPage => contextPrompt +:+ context_entry contextPage
  | None => contextPrompt
  end.

Definition composePrompt (pages : list Page) (activePage : Page) (mode : Mode)
    (focusedItems : FocusedItems) : string :=
  if String.eqb (id activePage) "master" then
    let masterContext :=
      fold_left master_step
        (List.filter (fun p => negb (String.eqb (id p) "master")) pages)
        master_header in
    let aiPrompt := masterContext in
    match mode with
    | evolve => aiPrompt +:+ master_evolve
    | rethink => aiPrompt
    end
  else
    let allKeywords := join (keywords activePage) ", " in
    let allInstructions := join (instructions activePage) ". " in
    let aiPrompt := golden_rule activePage in
    let aiPrompt :=
      match mode with
      | evolve => aiPrompt +:+ rule2_evolve activePage
      | rethink => aiPrompt +:+ rule2_fresh activePage
      end in
    let focusedKeywords :=
      map (fun i => js_get (keywords activePage) i) (focus_keywords focusedItems) in
    let focusedInstructions :=
      map (fun i => js_get (instructions activePage) i)
        (focus_instructions focusedItems) in
    let aiPrompt :=
      if nonempty focusedKeywords || nonempty focusedInstructions then
        let aiPrompt := aiPrompt +:+ focus_header in
        let aiPrompt :=
          if nonempty focusedKeywords
          then aiPrompt +:+ nl +:+ "- Focused Keywords: " +:+ dq
               +:+ join_undef focusedKeywords (dq +:+ ", " +:+ dq) +:+ dq
          else aiPrompt in
        if nonempty focusedInstructions
        then aiPrompt +:+ nl +:+ "- Focused Instructions: " +:+ dq
             +:+ join_undef focusedInstructions (dq +:+ ", " +:+ dq) +:+ dq
        else aiPrompt
      else aiPrompt in
    let aiPrompt :=
      if nonempty (contextPageIds activePage) then
        let contextPrompt :=
          fold_left (context_step pages) (contextPageIds activePage)
            context_header in
        aiPrompt +:+ contextPrompt
      else aiPrompt in
    let aiPrompt :=
      if truthy allInstructions
      then aiPrompt +:+ nl +:+ nl +:+ "Overall instructions to follow: " +:+ dq
           +:+ allInstructions +:+ dq +:+ "."
      else aiPrompt in
    aiPrompt +:+ nl +:+ nl +:+ "All concepts to include: " +:+ dq
    +:+ allKeywords +:+ dq +:+ ".".

(** ** The image backend and asynchronous handlers *)

(** The argument of [ai.models.generateContent]. *)
Record Request := {
  model : string;
  inline_data : string;
  inline_mimeType : string;
  text : string;
}.

Record Blob := { data : option string; mimeType : option string }.
Record Part := { inlineData : option Blob; part_text : option string }.
Record Content := { parts : option (list Part) }.
Record Candidate := { content : option Content }.
Record GenerateContentResponse := { candidates : option (list Candidate) }.

(** What the awaited promise settles to: a response, or a rejection whose
    error carries a message. *)
Inductive BackendResult :=
| Resolved (response : GenerateContentResponse)
| Rejected (message : string).

(** [response.candidates?.[0]?.content?.parts?.find((p) => p.inlineData)
    ?.inlineData?.data]. *)
Definition imageData_of (response : GenerateContentResponse) : option string :=
  cs ← candidates response;
  c ← cs !! 0%nat;
  ct ← content c;
  ps ← parts ct;
  p ← List.find (fun p => bool_decide (is_Some (inlineData p))) ps;
  b ← inlineData p;
  data b.

(** An [async] handler run up to its first [await] on store [W]: it has
    finished, or an exception escaped it, or it waits for the backend with
    the rest of its body as [resume], which runs on the store as it is when
    the answer arrives. *)
Inductive Pending (W : Type) :=
| Finished (w : W)
| Threw (w : W)
| Awaiting (w : W) (request : Request) (resume : BackendResult -> W -> W).
Arguments Finished {W} w.
Arguments Threw {W} w.
Arguments Awaiting {W} w request resume.

(** The requests a run has sent to the backend. *)
Definition network_calls {W : Type} (p : Pending W) : list Request :=
  match p with
  | Finished _ | Threw _ => []
  | Awaiting _ request _ => [request]
  end.

(** The store when the handler stops before its [await]. *)
Definition store_at_pause {W : Type} (p : Pending W) : W :=
  match p with
  | Finished w | Threw w | Awaiting w _ _ => w
  end.

(** The store when the handler is over, no other event coming in between:
    [backend] answers the request. *)
Definition settle {W : Type} (backend : Request -> BackendResult) (p : Pending W) : W :=
  match p with
  | Finished w | Threw w => w
  | Awaiting w request resume => resume (backend request) w
  end.

(** A synchronous handler run on store [W]: it returned, or an exception
    escaped it; either way the store is as the handler left it. *)
Inductive Completion (W : Type) :=
| Returned (w : W)
| Raised (w : W).
Arguments Returned {W} w.
Arguments Raised {W} w.

Definition store_of {W : Type} (c : Completion W) : W :=
  match c with Returned w | Raised w => w end.

(** The drawing surface: its size and the base64 payload of
    [toDataURL('image/png')]. *)
Record Canvas := { width : Z; height : Z; png_base64 : string }.

Definition validation_message : string :=
  "Por favor, adicione pelo menos uma palavra-chave a esta página antes de gerar o desenho.".

Definition no_image_message : string :=
  "A IA não retornou uma imagem. Por favor, tente novamente.".

Definition unexpected_message : string := "An unexpected error occurred.".

(** [a || b] on strings. *)
Definition or_else (a b : string) : string := if truthy a then a else b.

(** ** The reducer-based application *)

Module Editor.

Record EditorState := {
  pages : list Page;
  activePageIndex : Z;
}.

(** [Partial<EditorState>]: an absent key is [None]. *)
Record PartialEditorState := {
  upd_pages : option (list Page);
  upd_activePageIndex : option Z;
}.

(** [{...present, ...payload}]. *)
Definition spread_state (present : EditorState) (payload : PartialEditorState)
    : EditorState :=
  {| pages := default (pages present) (upd_pages payload);
     activePageIndex :=
       default (activePageIndex present) (upd_activePageIndex payload) |}.

Record EditorHistory := {
  past : list EditorState;
  present : EditorState;
  future : list EditorState;
}.

(** [JSON.stringify] of an editor state. *)
Definition JSON_stringify (s : EditorState) : string :=
  stringify_object
    [stringify_member "pages" (stringify_array stringify_page (pages s));
     stringify_member "activePageIndex" (stringify_number (activePageIndex s))].

(** [Omit<Page, 'backgroundImageRef'>], a page as a project stores it. *)
Record StoredPage := {
  stored_id : string;
  stored_name : string;
  stored_keywords : list string;
  stored_instructions : list string;
  stored_generatedImage : option string;
  stored_versions : list string;
  stored_contextPageIds : list string;
}.

Record Project := {
  project_id : string;
  project_name : string;
  project_pages : list StoredPage;
  project_activePageIndex : option Z;
  createdAt : Z;
  lastModified : Z;
}.

(** [{...page, backgroundImageRef: {current: null}}]. *)
Definition restore_page (page : StoredPage) : Page :=
  {| id := stored_id page; name := stored_name page;
     keywords := stored_keywords page;
     instructions := stored_instructions page;
     generatedImage := stored_generatedImage page;
     versions := stored_versions page;
     contextPageIds := stored_contextPageIds page;
     backgroundImageRef := {| current := None |} |}.

Inductive AppStatus :=
| status_loading | status_auth | status_dashboard | status_editor.

Record AppState := {
  appStatus : AppStatus;
  currentUser : option string;
  projects : list Project;
  activeProjectIndex : option Z;
  editor : EditorHistory;
  isLoading : bool;
  loadingMessage : string;
  errorMessage : option string;
  showOnboarding : bool;
}.

(** The actions whose next state is a function of the state and the action.
    [INITIALIZE_SESSION] and [SAVE_PROJECT_TO_STORE], which read the browser
    storage and the clock, are not embedded; of the others only the next
    state is, not what they write to the browser storage. *)
Inductive AppAction :=
| LOGIN (email : string) (showOnboarding0 : bool)
| LOGOUT
| COMPLETE_ONBOARDING
| LOAD_PROJECTS (payload : list Project)
| CREATE_PROJECT (payload : Project)
| DELETE_PROJECT (payload : Z)
| SELECT_PROJECT (payload : Z)
| EXIT_EDITOR
| SET_EDITOR_STATE (payload : EditorState)
| UPDATE_EDITOR_STATE (payload : PartialEditorState)
| UNDO
| REDO
| SET_LOADING (isLoading0 : bool) (message : option string)
| SET_ERROR (payload : option string).

Definition initialState : AppState :=
  {| appStatus := status_loading;
     currentUser := None;
     projects := [];
     activeProjectIndex := None;
     editor := {| past := [];
                  present := {| pages := []; activePageIndex := 0 |};
                  future := [] |};
     isLoading := false;
     loadingMessage := "";
     errorMessage := None;
     showOnboarding := false |}.

Definition with_editor (state : AppState) (e : EditorHistory) : AppState :=
  {| appStatus := appStatus state; currentUser := currentUser state;
     projects := projects state; activeProjectIndex := activeProjectIndex state;
     editor := e;
     isLoading := isLoading state; loadingMessage := loadingMessage state;
     errorMessage := errorMessage state; showOnboarding := showOnboarding state |}.

Definition appReducer (state : AppState) (action : AppAction) : AppState :=
  match action with
  | LOGIN email showOnboarding0 =>
      {| appStatus := status_dashboard; currentUser := Some email;
         projects := projects state;
         activeProjectIndex := activeProjectIndex state;
         editor := editor state; isLoading := isLoading state;
         loadingMessage := loadingMessage state;
         errorMessage := errorMessage state;
         showOnboarding := showOnboarding0 |}
  | LOGOUT =>
      {| appStatus := status_auth; currentUser := currentUser initialState;
         projects := projects initialState;
         activeProjectIndex := activeProjectIndex initialState;
         editor := editor initialState; isLoading := isLoading initialState;
         loadingMessage := loadingMessage initialState;
         errorMessage := errorMessage initialState;
         showOnboarding := showOnboarding initialState |}
  | COMPLETE_ONBOARDING =>
      {| appStatus := appStatus state; currentUser := currentUser state;
         projects := projects state;
         activeProjectIndex := activeProjectIndex state;
         editor := editor state; isLoading := isLoading state;
         loadingMessage := loadingMessage state;
         errorMessage := errorMessage state;
         showOnboarding := false |}
  | LOAD_PROJECTS payload =>
      {| appStatus := appStatus state; currentUser := currentUser state;
         projects := payload;
         activeProjectIndex := activeProjectIndex state;
         editor := editor state; isLoading := isLoading state;
         loadingMessage := loadingMessage state;
         errorMessage := errorMessage state;
         showOnboarding := showOnboarding state |}
  | CREATE_PROJECT payload =>
      let newProjects := projects state ++ [payload] in
      {| appStatus := status_editor; currentUser := currentUser state;
         projects := newProjects;
         activeProjectIndex := Some (Z.of_nat (length newProjects) - 1);
         editor := editor state; isLoading := isLoading state;
         loadingMessage := loadingMessage state;
         errorMessage := errorMessage state;
         showOnboarding := showOnboarding state |}
  | DELETE_PROJECT payload =>
      let newProjects := filter_index_ne payload (projects state) in
      {| appStatus := appStatus state; currentUser := currentUser state;
         projects := newProjects;
         activeProjectIndex := activeProjectIndex state;
         editor := editor state; isLoading := isLoading state;
         loadingMessage := loadingMessage state;
         errorMessage := errorMessage state;
         showOnboarding := showOnboarding state |}
  | SELECT_PROJECT payload =>
      match js_get (projects state) payload with
      | None => state
      | Some project =>
          let restoredPages := map restore_page (project_pages project) in
          {| appStatus := status_editor; currentUser := currentUser state;
             projects := projects state;
             activeProjectIndex := Some payload;
             editor :=
               {| past := [];
                  present :=
                    {| pages := restoredPages;
                       activePageIndex :=
                         default 0 (project_activePageIndex project) |};
                  future := [] |};
             isLoading := isLoading state;
             loadingMessage := loadingMessage state;
             errorMessage := errorMessage state;
             showOnboarding := showOnboarding state |}
      end
  | EXIT_EDITOR =>
      {| appStatus := status_dashboard; currentUser := currentUser state;
         projects := projects state;
         activeProjectIndex := None;
         editor := editor state; isLoading := isLoading state;
         loadingMessage := loadingMessage state;
         errorMessage := errorMessage state;
         showOnboarding := showOnboarding state |}
  | SET_EDITOR_STATE payload =>
      with_editor state {| past := []; present := payload; future := [] |}
  | UPDATE_EDITOR_STATE payload =>
      let present0 := present (editor state) in
      if String.eqb (JSON_stringify present0)
           (JSON_stringify (spread_state present0 payload))
      then state
      else
        with_editor state
          {| past := past (editor state) ++ [present0];
             present := spread_state present0 payload;
             future := [] |}
  | UNDO =>
      let past0 := past (editor state) in
      let present0 := present (editor state) in
      let future0 := future (editor state) in
      if Nat.eqb (length past0) 0 then state
      else
        match past0 !! (length past0 - 1)%nat with
        | None => state
        | Some previous =>
            let newPast := take (length past0 - 1) past0 in
            with_editor state
              {| past := newPast; present := previous;
                 future := present0 :: future0 |}
        end
  | REDO =>
      let past0 := past (editor state) in
      let present0 := present (editor state) in
      let future0 := future (editor state) in
      if Nat.eqb (length future0) 0 then state
      else
        match future0 !! 0%nat with
        | None => state
        | Some next =>
            let newFuture := drop 1 future0 in
            with_editor state
              {| past := past0 ++ [present0]; present := next;
                 future := newFuture |}
        end
  | SET_LOADING isLoading0 message =>
      {| appStatus := appStatus state; currentUser := currentUser state;
         projects := projects state;
         activeProjectIndex := activeProjectIndex state;
         editor := editor state; isLoading := isLoading0;
         loadingMessage :=
           match message with
           | Some m => or_else m (loadingMessage state)
           | None => loadingMessage state
           end;
         errorMessage := errorMessage state;
         showOnboarding := showOnboarding state |}
  | SET_ERROR payload =>
      {| appStatus := appStatus state; currentUser := currentUser state;
         projects := projects state;
         activeProjectIndex := activeProjectIndex state;
         editor := editor state; isLoading := isLoading state;
         loadingMessage := loadingMessage state;
         errorMessage := payload;
         showOnboarding := showOnboarding state |}
  end.

(** *** App and DashboardScreen *)

(** [({backgroundImageRef, ...rest}) => rest]. *)
Definition export_page (p : Page) : StoredPage :=
  {| stored_id := id p; stored_name := name p;
     stored_keywords := keywords p;
     stored_instructions := instructions p;
     stored_generatedImage := generatedImage p;
     stored_versions := versions p;
     stored_contextPageIds := contextPageIds p |}.


Definition confirm_delete_project_text (project_name0 : string) : string :=
  "Tem certeza que deseja apagar o projeto " +:+ dq +:+ project_name0 +:+ dq
  +:+ "? Esta ação não pode ser desfeita.".

(** [handleDeleteProject] of a dashboard rendered from [r], dispatching on
    [w]; [confirm] is the user's answer to [window.confirm]. *)
Definition handleDeleteProject (confirm : string -> bool) (r : AppState)
    (index : Z) (w : AppState) : Completion AppState :=
  match js_get (projects r) index with
  | None => Raised w
  | Some project =>
      if negb (confirm (confirm_delete_project_text (project_name project)))
      then Returned w
      else Returned (appReducer w (DELETE_PROJECT index))
  end.

(** One step of a stable sort with the comparator
    [(a, b) => b.lastModified - a.lastModified]: [a], which comes before
    every element of the sorted [l], goes in front of the first element
    that was not modified later than it. *)
Fixpoint insert_by_lastModified (a : Project) (l : list Project) : list Project :=
  match l with
  | [] => [a]
  | b :: l' =>
      if Z.leb (lastModified b - lastModified a) 0
      then a :: b :: l'
      else b :: insert_by_lastModified a l'
  end.

(** [[...projects].sort((a, b) => b.lastModified - a.lastModified)]; the
    sort of an array is stable, which leaves one result only. *)
Definition sortedProjects (projects0 : list Project) : list Project :=
  fold_right insert_by_lastModified [] projects0.

(** [arr.findIndex(f)], the index counted from [n]. *)
Fixpoint findIndex_from {A : Type} (f : A -> bool) (n : nat) (l : list A) : Z :=
  match l with
  | [] => -1
  | x :: l' => if f x then Z.of_nat n else findIndex_from f (S n) l'
  end.

Definition findIndex {A : Type} (f : A -> bool) (l : list A) : Z :=
  findIndex_from f 0 l.

(** The index a project card hands to [SELECT_PROJECT] and
    [handleDeleteProject]. *)
Definition originalIndex (projects0 : list Project) (project : Project) : Z :=
  findIndex (fun p => String.eqb (project_id p) (project_id project)) projects0.

(** *** EditorScreen *)

(** What a render of [EditorScreen] hands to its handlers: the application
    state it was rendered from, its local focus and model cells, and the
    canvas the ref points to. *)
Record Render := {
  state : AppState;
  focusedItems : FocusedItems;
  selectedModel : string;
  canvas : option Canvas;
}.

(** What the handlers write to: the reducer's state and the focus cell. *)
Record Store := {
  app : AppState;
  focus : FocusedItems;
}.

Definition dispatch (action : AppAction) (w : Store) : Store :=
  {| app := appReducer (app w) action; focus := focus w |}.

Definition setFocusedItems (f : FocusedItems) (w : Store) : Store :=
  {| app := app w; focus := f |}.

Definition render_pages (r : Render) : list Page :=
  pages (present (editor (state r))).

Definition render_activePageIndex (r : Render) : Z :=
  activePageIndex (present (editor (state r))).

Definition activePage (r : Render) : option Page :=
  js_get (render_pages r) (render_activePageIndex r).

Definition updatePage (r : Render) (updates : PartialPage) (w : Store) : Store :=
  let newPages :=
    map_at (render_activePageIndex r) (fun page => spread_page page updates)
      (render_pages r) in
  dispatch
    (UPDATE_EDITOR_STATE {| upd_pages := Some newPages; upd_activePageIndex := None |})
    w.

Definition loadingMessages : list string :=
  ["A IA está desenhando...";
   "Sintetizando conceitos...";
   "Buscando conexões visuais...";
   "Polindo os detalhes...";
   "Dando vida às ideias...";
   "Organizando o caos criativo..."].

Section GenerateMindMap.

(** [parseError], which digs a message out of an error envelope with a
    regular expression and [JSON.parse]; any function of the message. *)
Variable parseError : string -> string.

(** The base64 payload of a white canvas of the given size. *)
Variable blank_png : Z -> Z -> string.

(** [random] is [Math.floor(Math.random() * loadingMessages.length)];
    [context2d] tells whether [getContext('2d')] gives a context. *)
Definition generateMindMap (r : Render) (random : nat) (context2d : bool)
    (mode : Mode) (w : Store) : Pending Store :=
  match activePage r with
  | None => Threw w
  | Some activePage0 =>
      if negb (String.eqb (id activePage0) "master")
         && Nat.eqb (length (keywords activePage0)) 0
      then Finished (dispatch (SET_ERROR (Some validation_message)) w)
      else
        let w := dispatch (SET_LOADING true (loadingMessages !! random)) w in
        let w := setFocusedItems no_focus w in
        let finally := dispatch (SET_LOADING false None) in
        let drawingData : option string :=
          match mode, generatedImage activePage0, canvas r with
          | evolve, Some (String _ _), Some c => Some (png_base64 c)
          | _, _, _ =>
              let w0 := match canvas r with
                        | Some c => if Z.eqb (width c) 0 then 960 else width c
                        | None => 960
                        end in
              let h0 := match canvas r with
                        | Some c => if Z.eqb (height c) 0 then 540 else height c
                        | None => 540
                        end in
              if context2d then Some (blank_png w0 h0) else None
          end in
        match drawingData with
        | None => Finished (finally (dispatch (SET_LOADING false None) w))
        | Some drawingData0 =>
            let aiPrompt :=
              composePrompt (render_pages r) activePage0 mode (focusedItems r) in
            let contents :=
              {| model := selectedModel r; inline_data := drawingData0;
                 inline_mimeType := "image/png"; text := aiPrompt |} in
            Awaiting w contents (fun result w =>
              finally
                match result with
                | Resolved response =>
                    match imageData_of response with
                    | Some (String c d) =>
                        let imageUrl := "data:image/png;base64," +:+ String c d in
                        updatePage r
                          {| upd_name := None; upd_keywords := None;
                             upd_instructions := None;
                             upd_generatedImage := Some (Some imageUrl);
                             upd_versions := None;
                             upd_contextPageIds := None |} w
                    | _ => dispatch (SET_ERROR (Some no_image_message)) w
                    end
                | Rejected message =>
                    dispatch
                      (SET_ERROR
                         (Some (or_else (parseError message) unexpected_message)))
                      w
                end)
        end
  end.

End GenerateMindMap.

End Editor.

(** ** The [useState]-based editor *)

Module Home.

(** The state cells of [Home] that the embedded handlers read or write. *)
Record HomeState := {
  pages : list Page;
  activePageIndex : Z;
  isLoading : bool;
  showErrorModal : bool;
  errorMessage : string;
  selectedModel : string;
  focusedItems : FocusedItems;
}.

Definition setPages (f : list Page -> list Page) (w : HomeState) : HomeState :=
  {| pages := f (pages w); activePageIndex := activePageIndex w;
     isLoading := isLoading w; showErrorModal := showErrorModal w;
     errorMessage := errorMessage w; selectedModel := selectedModel w;
     focusedItems := focusedItems w |}.

Definition setActivePageIndex (i : Z) (w : HomeState) : HomeState :=
  {| pages := pages w; activePageIndex := i;
     isLoading := isLoading w; showErrorModal := showErrorModal w;
     errorMessage := errorMessage w; selectedModel := selectedModel w;
     focusedItems := focusedItems w |}.

Definition setIsLoading (b : bool) (w : HomeState) : HomeState :=
  {| pages := pages w; activePageIndex := activePageIndex w;
     isLoading := b; showErrorModal := showErrorModal w;
     errorMessage := errorMessage w; selectedModel := selectedModel w;
     focusedItems := focusedItems w |}.

Definition setShowErrorModal (b : bool) (w : HomeState) : HomeState :=
  {| pages := pages w; activePageIndex := activePageIndex w;
     isLoading := isLoading w; showErrorModal := b;
     errorMessage := errorMessage w; selectedModel := selectedModel w;
     focusedItems := focusedItems w |}.

Definition setErrorMessage (m : string) (w : HomeState) : HomeState :=
  {| pages := pages w; activePageIndex := activePageIndex w;
     isLoading := isLoading w; showErrorModal := showErrorModal w;
     errorMessage := m; selectedModel := selectedModel w;
     focusedItems := focusedItems w |}.

Definition setFocusedItems (f : FocusedItems) (w : HomeState) : HomeState :=
  {| pages := pages w; activePageIndex := activePageIndex w;
     isLoading := isLoading w; showErrorModal := showErrorModal w;
     errorMessage := errorMessage w; selectedModel := selectedModel w;
     focusedItems := f |}.

(** [pages[activePageIndex]] of the render [r]. *)
Definition activePage (r : HomeState) : option Page :=
  js_get (pages r) (activePageIndex r).

(** In every handler below [r] is the state the component was rendered
    from, whose values the handler's closure holds, and [w] the store its
    setters act on.  A handler fired from the screen has [w = r]. *)

Definition updateActivePage (r : HomeState) (updates : PartialPage)
    (w : HomeState) : HomeState :=
  setPages (map_at (activePageIndex r) (fun page => spread_page page updates)) w.

Definition confirm_delete_text (page_name : string) : string :=
  "Tem certeza que deseja excluir a página " +:+ dq +:+ page_name +:+ dq
  +:+ "? Esta ação não pode ser desfeita.".

(** [confirm] is the user's answer to [window.confirm]. *)
Definition handleDeletePage (confirm : string -> bool) (r : HomeState)
    (indexToDelete : Z) (w : HomeState) : Completion HomeState :=
  if Z.eqb indexToDelete 0 then Returned w
  else
    match js_get (pages r) indexToDelete with
    | None => Raised w
    | Some page =>
        if negb (confirm (confirm_delete_text (name page))) then Returned w
        else
          let newActiveIndex := activePageIndex r in
          let newActiveIndex :=
            if Z.eqb indexToDelete (activePageIndex r)
            then Z.max 0 (indexToDelete - 1)
            else if Z.ltb indexToDelete (activePageIndex r)
                 then activePageIndex r - 1
                 else newActiveIndex in
          Returned
            (setPages (filter_index_ne indexToDelete)
               (setActivePageIndex newActiveIndex w))
    end.

(** [versions.includes(image)]. *)
Definition versions_include (l : list string) (image : string) : bool :=
  existsb (String.eqb image) l.

Definition handleSaveVersion (r : HomeState) (w : HomeState) : HomeState :=
  match activePage r with
  | None => w
  | Some activePage0 =>
      match generatedImage activePage0 with
      | None | Some EmptyString => w
      | Some image =>
          if versions_include (versions activePage0) image then w
          else
            let newVersions := versions activePage0 ++ [image] in
            updateActivePage r
              {| upd_name := None; upd_keywords := None;
                 upd_instructions := None; upd_generatedImage := None;
                 upd_versions := Some newVersions;
                 upd_contextPageIds := None |} w
      end
  end.

(** [arr.includes(x)] on an array of strings. *)
Definition array_includes (l : list string) (x : string) : bool :=
  existsb (String.eqb x) l.

(** The updates the handlers pass to [updateActivePage]. *)
Definition only_keywords (l : list string) : PartialPage :=
  {| upd_name := None; upd_keywords := Some l; upd_instructions := None;
     upd_generatedImage := None; upd_versions := None;
     upd_contextPageIds := None |}.

Definition only_instructions (l : list string) : PartialPage :=
  {| upd_name := None; upd_keywords := None; upd_instructions := Some l;
     upd_generatedImage := None; upd_versions := None;
     upd_contextPageIds := None |}.

Definition only_generatedImage (image : option string) : PartialPage :=
  {| upd_name := None; upd_keywords := None; upd_instructions := None;
     upd_generatedImage := Some image; upd_versions := None;
     upd_contextPageIds := None |}.

Definition only_versions (l : list string) : PartialPage :=
  {| upd_name := None; upd_keywords := None; upd_instructions := None;
     upd_generatedImage := None; upd_versions := Some l;
     upd_contextPageIds := None |}.

Definition only_contextPageIds (l : list string) : PartialPage :=
  {| upd_name := None; upd_keywords := None; upd_instructions := None;
     upd_generatedImage := None; upd_versions := None;
     upd_contextPageIds := Some l |}.

Definition clearProject (w : HomeState) : HomeState :=
  let newPages := [createNewPage "master" "Master"] in
  setFocusedItems no_focus
    (setActivePageIndex 0 (setPages (fun _ => newPages) w)).

Definition handleDeleteKeyword (r : HomeState) (indexToDelete : Z)
    (w : HomeState) : Completion HomeState :=
  match activePage r with
  | None => Raised w
  | Some activePage0 =>
      Returned
        (updateActivePage r
           (only_keywords (filter_index_ne indexToDelete (keywords activePage0)))
           w)
  end.

Definition handleDeleteInstruction (r : HomeState) (indexToDelete : Z)
    (w : HomeState) : Completion HomeState :=
  match activePage r with
  | None => Raised w
  | Some activePage0 =>
      Returned
        (updateActivePage r
           (only_instructions
              (filter_index_ne indexToDelete (instructions activePage0)))
           w)
  end.

Inductive FocusType := keyword | instruction.

(** The new list of one key of [focusedItems]: the index leaves the list
    if it is in it, and joins it at the end otherwise. *)
Definition toggle_index (currentItems : list Z) (index : Z) : list Z :=
  if existsb (Z.eqb index) currentItems
  then List.filter (fun i => negb (Z.eqb i index)) currentItems
  else currentItems ++ [index].

Definition handleToggleFocus (type : FocusType) (index : Z) (w : HomeState)
    : HomeState :=
  let prev := focusedItems w in
  setFocusedItems
    match type with
    | keyword =>
        {| focus_keywords := toggle_index (focus_keywords prev) index;
           focus_instructions := focus_instructions prev |}
    | instruction =>
        {| focus_keywords := focus_keywords prev;
           focus_instructions := toggle_index (focus_instructions prev) index |}
    end
    w.

Definition handleDeleteVersion (r : HomeState) (indexToDelete : Z)
    (w : HomeState) : Completion HomeState :=
  match activePage r with
  | None => Raised w
  | Some activePage0 =>
      let newVersions := filter_index_ne indexToDelete (versions activePage0) in
      Returned (updateActivePage r (only_versions newVersions) w)
  end.

Definition handleRestoreVersion (r : HomeState) (versionIndex : Z)
    (w : HomeState) : HomeState :=
  match activePage r with
  | None => w
  | Some activePage0 =>
      match js_get (versions activePage0) versionIndex with
      | None | Some EmptyString => w
      | Some versionToRestore =>
          updateActivePage r (only_generatedImage (Some versionToRestore)) w
      end
  end.

Definition handleAddContext (r : HomeState) (pageId : string) (w : HomeState)
    : Completion HomeState :=
  if negb (truthy pageId) then Returned w
  else
    match activePage r with
    | None => Raised w
    | Some activePage0 =>
        if array_includes (contextPageIds activePage0) pageId then Returned w
        else
          let newContextIds := contextPageIds activePage0 ++ [pageId] in
          Returned (updateActivePage r (only_contextPageIds newContextIds) w)
    end.

Definition handleRemoveContext (r : HomeState) (pageId : string) (w : HomeState)
    : Completion HomeState :=
  match activePage r with
  | None => Raised w
  | Some activePage0 =>
      let newContextIds :=
        List.filter (fun id0 => negb (String.eqb id0 pageId))
          (contextPageIds activePage0) in
      Returned (updateActivePage r (only_contextPageIds newContextIds) w)
  end.

(** The pages offered by the selector that calls [handleAddContext]. *)
Definition context_options (r : HomeState) (activePage0 : Page) : list Page :=
  List.filter
    (fun p =>
       negb (String.eqb (id p) (id activePage0))
       && negb (String.eqb (id p) "master")
       && negb (array_includes (contextPageIds activePage0) (id p)))
    (pages r).

(** [s.substring(n)]. *)
Fixpoint substring_from (n : nat) (s : string) : string :=
  match n, s with
  | O, _ => s
  | S _, EmptyString => EmptyString
  | S n', String _ rest => substring_from n' rest
  end.

(** [s.split(sep)] for a separator of one character. *)
Fixpoint split (sep : ascii) (s : string) : list string :=
  match s with
  | EmptyString => [EmptyString]
  | String c rest =>
      match split sep rest with
      | [] => []
      | first :: others =>
          if Ascii.eqb c sep then EmptyString :: first :: others
          else String c first :: others
      end
  end.

(** [Home] with the two text fields and the dialog flag that the form
    handlers read and write. *)
Record HomeForm := {
  home : HomeState;
  prompt : string;
  newPageName : string;
  isPageModalOpen : bool;
}.

Definition with_home (f : HomeState -> HomeState) (w : HomeForm) : HomeForm :=
  {| home := f (home w); prompt := prompt w; newPageName := newPageName w;
     isPageModalOpen := isPageModalOpen w |}.

Definition setPrompt (value : string) (w : HomeForm) : HomeForm :=
  {| home := home w; prompt := value; newPageName := newPageName w;
     isPageModalOpen := isPageModalOpen w |}.

Definition setNewPageName (value : string) (w : HomeForm) : HomeForm :=
  {| home := home w; prompt := prompt w; newPageName := value;
     isPageModalOpen := isPageModalOpen w |}.

Definition setIsPageModalOpen (b : bool) (w : HomeForm) : HomeForm :=
  {| home := home w; prompt := prompt w; newPageName := newPageName w;
     isPageModalOpen := b |}.

Section Forms.

(** [String.prototype.trim] and [String.prototype.toLowerCase], any
    functions on strings. *)
Variable trim : string -> string.
Variable toLowerCase : string -> string.

(** [now] is the value of [Date.now()]. *)
Definition handleAddNewPage (now : Z) (r : HomeForm) (w : HomeForm) : HomeForm :=
  let name0 := trim (newPageName r) in
  if negb (truthy name0) then w
  else
    let newPage := createNewPage ("page-" +:+ stringify_number now) name0 in
    let w := with_home (setPages (fun _ => pages (home r) ++ [newPage])) w in
    let w :=
      with_home (setActivePageIndex (Z.of_nat (length (pages (home r))))) w in
    let w := setNewPageName "" w in
    setIsPageModalOpen false w.

Definition handlePromptSubmit (r : HomeForm) (w : HomeForm)
    : Completion HomeForm :=
  match activePage (home r) with
  | None => Raised w
  | Some activePage0 =>
      if String.eqb (id activePage0) "master" then Returned w
      else
        let value := trim (prompt r) in
        if negb (truthy value) then Returned w
        else
          let w :=
            if String.prefix "i:" (toLowerCase value) then
              let instruction0 := trim (substring_from 2 value) in
              if truthy instruction0
              then
                with_home
                  (updateActivePage (home r)
                     (only_instructions
                        (instructions activePage0 ++ [instruction0])))
                  w
              else w
            else
              let newKeywords :=
                List.filter truthy (map trim (split ";" value)) in
              if nonempty newKeywords
              then
                with_home
                  (updateActivePage (home r)
                     (only_keywords (keywords activePage0 ++ newKeywords)))
                  w
              else w in
          Returned (setPrompt "" w)
  end.

End Forms.

Section GenerateMindMap.

Variable parseError : string -> string.
Variable blank_png : Z -> Z -> string.

(** The message of the TypeError raised by [tempCtx.fillStyle = ...] when
    [getContext('2d')] gave [null]. *)
Variable null_context_message : string.

Definition generateMindMap (r : HomeState) (canvas : option Canvas)
    (context2d : bool) (mode : Mode) (w : HomeState) : Pending HomeState :=
  match activePage r with
  | None => Threw w
  | Some activePage0 =>
      if negb (String.eqb (id activePage0) "master")
         && Nat.eqb (length (keywords activePage0)) 0
      then
        Finished (setShowErrorModal true (setErrorMessage validation_message w))
      else
        let w := setIsLoading true w in
        let w := setFocusedItems no_focus w in
        let catch message w :=
          setShowErrorModal true
            (setErrorMessage (or_else (parseError message) unexpected_message) w) in
        let finally := setIsLoading false in
        let drawingData : option string :=
          match mode, generatedImage activePage0, canvas with
          | evolve, Some (String _ _), Some c => Some (png_base64 c)
          | _, _, _ =>
              let w0 := match canvas with
                        | Some c => if Z.eqb (width c) 0 then 960 else width c
                        | None => 960
                        end in
              let h0 := match canvas with
                        | Some c => if Z.eqb (height c) 0 then 540 else height c
                        | None => 540
                        end in
              if context2d then Some (blank_png w0 h0) else None
          end in
        match drawingData with
        | None => Finished (finally (catch null_context_message w))
        | Some drawingData0 =>
            let aiPrompt :=
              composePrompt (pages r) activePage0 mode (focusedItems r) in
            let contents :=
              {| model := selectedModel r; inline_data := drawingData0;
                 inline_mimeType := "image/png"; text := aiPrompt |} in
            Awaiting w contents (fun result w =>
              finally
                match result with
                | Resolved response =>
                    match imageData_of response with
                    | Some (String c d) =>
                        let imageUrl := "data:image/png;base64," +:+ String c d in
                        setPages
                          (map_at (activePageIndex r)
                             (fun page =>
                                spread_page page
                                  {| upd_name := None; upd_keywords := None;
                                     upd_instructions := None;
                                     upd_generatedImage := Some (Some imageUrl);
                                     upd_versions := None;
                                     upd_contextPageIds := None |}))
                          w
                    | _ =>
                        setShowErrorModal true
                          (setErrorMessage no_image_message w)
                    end
                | Rejected message => catch message w
                end)
        end
  end.

End GenerateMindMap.

Definition setSelectedModel (m : string) (w : HomeState) : HomeState :=
  {| pages := pages w; activePageIndex := activePageIndex w;
     isLoading := isLoading w; showErrorModal := showErrorModal w;
     errorMessage := errorMessage w; selectedModel := m;
     focusedItems := focusedItems w |}.

(** [page.backgroundImageRef.current = img], the assignment made by the
    [onload] callback of the redraw effect, as it shows on the page. *)
Definition set_current (img : HTMLImageElement) (page : Page) : Page :=
  {| id := id page; name := name page; keywords := keywords page;
     instructions := instructions page; generatedImage := generatedImage page;
     versions := versions page; contextPageIds := contextPageIds page;
     backgroundImageRef := {| current := Some img |} |}.

(** The file picked in the image input: [file.type] and [file.name]. *)
Record File := { file_type : string; file_name : string }.

(** [s.endsWith(suffix)]. *)
Definition endsWith (s suffix : string) : bool :=
  Nat.leb (String.length suffix) (String.length s)
  && String.eqb
       (substring_from (String.length s - String.length suffix) s) suffix.

(** What the [try] block of [handleImageInputChange] gets from the outside:
    the value of [parsed.keywords || []], read at its declared type
    [string[]], when [fileToBase64] and the backend call resolve and
    [JSON.parse] accepts the text of the response; or an exception out of
    one of the three. *)
Inductive Analysis :=
| Extracted (extractedKeywords : list string)
| Failed.

(** [handleImageInputChange] run up to its first [await]: it has returned,
    or an exception escaped it, or it waits with the MIME type it settled
    on and the rest of its body. *)
Inductive ImageInput :=
| InputReturned
| InputThrew
| InputAwaiting (mimeType : string) (resume : Analysis -> HomeState -> HomeState).

Section ImageInputChange.

Variable toLowerCase : string -> string.

(** Of the cells the handler writes, [pages] is the only one of
    [HomeState]; the chat history, the busy flag of the image analysis and
    the value of the file input are not.  The handler writes [pages] after
    its two awaits, through [updateActivePage], and nothing of [HomeState]
    before or between them. *)
Definition handleImageInputChange (r : HomeState) (file : option File)
    : ImageInput :=
  match file with
  | None => InputReturned
  | Some file0 =>
      match activePage r with
      | None => InputThrew
      | Some activePage0 =>
          if String.eqb (id activePage0) "master" then InputReturned
          else
            let mimeType0 :=
              if truthy (file_type file0) then Some (file_type file0)
              else
                let fileName := toLowerCase (file_name file0) in
                if endsWith fileName ".png" then Some "image/png"
                else if endsWith fileName ".jpg" || endsWith fileName ".jpeg"
                     then Some "image/jpeg"
                else if endsWith fileName ".webp" then Some "image/webp"
                else if endsWith fileName ".gif" then Some "image/gif"
                else None in
            match mimeType0 with
            | None => InputReturned
            | Some mimeType1 =>
                InputAwaiting mimeType1 (fun analysis w =>
                  match analysis with
                  | Extracted extractedKeywords =>
                      if nonempty extractedKeywords
                      then
                        updateActivePage r
                          (only_keywords
                             (keywords activePage0 ++ extractedKeywords))
                          w
                      else w
                  | Failed => w
                  end)
            end
      end
  end.

End ImageInputChange.

End Home.

(** ** Vocabulary of the properties *)

Import Editor.

(** The guard of [UPDATE_EDITOR_STATE]: the merged state prints differently
    from [present], so the commit takes effect. *)
Definition commit_changes (st : AppState) (payload : PartialEditorState) : bool :=
  negb (String.eqb (JSON_stringify (present (editor st)))
          (JSON_stringify (spread_state (present (editor st)) payload))).

(** Actions dispatched one after the other. *)
Definition dispatch_all (st : AppState) (actions : list AppAction) : AppState :=
  fold_left appReducer actions st.

(** Every commit of the sequence takes effect on the state it meets. *)
Fixpoint commits_succeed (st : AppState) (payloads : list PartialEditorState) : bool :=
  match payloads with
  | [] => true
  | payload :: rest =>
      commit_changes st payload
      && commits_succeed (appReducer st (UPDATE_EDITOR_STATE payload)) rest
  end.

(** The clauses of the prompt of a regular page, each as the source
    writes it. *)
Definition when (b : bool) (clause : string) : string :=
  if b then clause else EmptyString.

Definition coverage_clause (activePage : Page) : string := golden_rule activePage.

Definition mode_clause (activePage : Page) (mode : Mode) : string :=
  match mode with
  | evolve => rule2_evolve activePage
  | rethink => rule2_fresh activePage
  end.

Definition has_focus (focusedItems : FocusedItems) : bool :=
  nonempty (focus_keywords focusedItems)
  || nonempty (focus_instructions focusedItems).

Definition focus_clause (activePage : Page) (focusedItems : FocusedItems) : string :=
  focus_header
  +:+ when (nonempty (focus_keywords focusedItems))
        (nl +:+ "- Focused Keywords: " +:+ dq
         +:+ join_undef
               (map (fun i => js_get (keywords activePage) i)
                  (focus_keywords focusedItems))
               (dq +:+ ", " +:+ dq)
         +:+ dq)
  +:+ when (nonempty (focus_instructions focusedItems))
        (nl +:+ "- Focused Instructions: " +:+ dq
         +:+ join_undef
               (map (fun i => js_get (instructions activePage) i)
                  (focus_instructions focusedItems))
               (dq +:+ ", " +:+ dq)
         +:+ dq).

Definition context_clause (pages : list Page) (activePage : Page) : string :=
  fold_left (context_step pages) (contextPageIds activePage) context_header.

Definition instruction_summary (activePage : Page) : string :=
  nl +:+ nl +:+ "Overall instructions to follow: " +:+ dq
  +:+ join (instructions activePage) ". " +:+ dq +:+ ".".

Definition keyword_summary (activePage : Page) : string :=
  nl +:+ nl +:+ "All concepts to include: " +:+ dq
  +:+ join (keywords activePage) ", " +:+ dq +:+ ".".

(** The order of clauses with every summary always present. *)
Definition layout_with_both_summaries (pages : list Page) (activePage : Page)
    (mode : Mode) (focusedItems : FocusedItems) : string :=
  coverage_clause activePage
  +:+ mode_clause activePage mode
  +:+ when (has_focus focusedItems) (focus_clause activePage focusedItems)
  +:+ when (nonempty (contextPageIds activePage)) (context_clause pages activePage)
  +:+ instruction_summary activePage
  +:+ keyword_summary activePage.

(** The order of clauses, the instruction summary present only when the
    joined instructions are a non-empty text. *)
Definition layout (pages : list Page) (activePage : Page)
    (mode : Mode) (focusedItems : FocusedItems) : string :=
  coverage_clause activePage
  +:+ mode_clause activePage mode
  +:+ when (has_focus focusedItems) (focus_clause activePage focusedItems)
  +:+ when (nonempty (contextPageIds activePage)) (context_clause pages activePage)
  +:+ when (truthy (join (instructions activePage) ". "))
        (instruction_summary activePage)
  +:+ keyword_summary activePage.

(** The pages the master prompt speaks of. *)
Definition in_master_prompt (p : Page) : bool :=
  negb (String.eqb (id p) "master") && nonempty (keywords p).

Definition concat_strings (l : list string) : string :=
  fold_right String.append EmptyString l.

(** ** Sample documents *)

Definition ex_master : Page := createNewPage "master" "Master".

Definition ex_ideas : Page :=
  {| id := "page-1"; name := "Ideas"; keywords := ["Brain"; "Light"];
     instructions := []; generatedImage := None; versions := [];
     contextPageIds := []; backgroundImageRef := {| current := None |} |}.

(** A page with an instruction and no keyword yet. *)
Definition ex_notes : Page :=
  {| id := "page-2"; name := "Notes"; keywords := [];
     instructions := ["draw big"]; generatedImage := None; versions := [];
     contextPageIds := ["page-1"];
     backgroundImageRef := {| current := None |} |}.

Definition ex_pages : list Page := [ex_master; ex_ideas; ex_notes].

(** The editor just opened on [ex_pages], the master page active. *)
Definition ex_app : AppState :=
  appReducer initialState
    (SET_EDITOR_STATE {| pages := ex_pages; activePageIndex := 0 |}).

Definition select_page (i : Z) : PartialEditorState :=
  {| upd_pages := None; upd_activePageIndex := Some i |}.

(** [ex_app] after selecting page 1 and undoing it: page 0 is active again
    and the selection of page 1 waits in [future]. *)
Definition ex_undone : AppState :=
  dispatch_all ex_app [UPDATE_EDITOR_STATE (select_page 1); UNDO].

(** The first instruction of the active page under focus. *)
Definition ex_focus : FocusedItems :=
  {| focus_keywords := []; focus_instructions := [0] |}.

(** A response carries no image when the data dug out of it is missing
    or is the empty string. *)
Definition no_image_payload (response : GenerateContentResponse) : Prop :=
  imageData_of response = None \/ imageData_of response = Some EmptyString.

(** A response with a text part only. *)
Definition ex_text_response : GenerateContentResponse :=
  {| candidates :=
       Some [{| content :=
                  Some {| parts :=
                            Some [{| inlineData := None;
                                     part_text := Some "sorry" |}] |} |}] |}.

(** [EditorScreen] rendered on [ex_pages] with page "Notes" active, which
    has no keyword, and its first instruction under focus. *)
Definition ex_render : Render :=
  {| state :=
       appReducer initialState
         (SET_EDITOR_STATE {| pages := ex_pages; activePageIndex := 2 |});
     focusedItems := ex_focus;
     selectedModel := "gemini-2.5-flash-image";
     canvas := Some {| width := 960; height := 540; png_base64 := "iVBORw0KGgo=" |} |}.

Definition ex_store : Store :=
  {| app := state ex_render; focus := focusedItems ex_render |}.

(** The same render with page "Ideas" active. *)
Definition ex_render_ideas : Render :=
  {| state :=
       appReducer initialState
         (SET_EDITOR_STATE {| pages := ex_pages; activePageIndex := 1 |});
     focusedItems := ex_focus;
     selectedModel := "gemini-2.5-flash-image";
     canvas := Some {| width := 960; height := 540; png_base64 := "iVBORw0KGgo=" |} |}.

Definition ex_store_ideas : Store :=
  {| app := state ex_render_ideas; focus := focusedItems ex_render_ideas |}.

(** [Home] on [ex_pages], page "Notes" active, same focus. *)
Definition ex_home : Home.HomeState :=
  {| Home.pages := ex_pages; Home.activePageIndex := 2;
     Home.isLoading := false; Home.showErrorModal := false;
     Home.errorMessage := ""; Home.selectedModel := "gemini-2.5-flash-image";
     Home.focusedItems := ex_focus |}.

Definition ex_home_ideas : Home.HomeState :=
  {| Home.pages := ex_pages; Home.activePageIndex := 1;
     Home.isLoading := false; Home.showErrorModal := false;
     Home.errorMessage := ""; Home.selectedModel := "gemini-2.5-flash-image";
     Home.focusedItems := ex_focus |}.

Definition ex_canvas : option Canvas :=
  Some {| width := 960; height := 540; png_base64 := "iVBORw0KGgo=" |}.

(** Stand-ins for the message parser and the canvas encoder. *)
Definition ex_parseError (error : string) : string := error.
Definition ex_blank_png (w h : Z) : string := "iVBORw0KGgo=".

(** A backend that answers every request with a text-only response. *)
Definition ex_backend (request : Request) : BackendResult :=
  Resolved ex_text_response.

(** [Home] on a page whose current image is not yet among its versions. *)
Definition ex_drawn : Page :=
  {| id := "page-1"; name := "Ideas"; keywords := ["Brain"; "Light"];
     instructions := []; generatedImage := Some "data:image/png;base64,AAAA";
     versions := ["data:image/png;base64,BBBB"]; contextPageIds := [];
     backgroundImageRef := {| current := None |} |}.

Definition ex_home_drawn : Home.HomeState :=
  {| Home.pages := [ex_master; ex_drawn; ex_notes]; Home.activePageIndex := 1;
     Home.isLoading := false; Home.showErrorModal := false;
     Home.errorMessage := ""; Home.selectedModel := "gemini-2.5-flash-image";
     Home.focusedItems := no_focus |}.

(** The user who confirms every deletion. *)
Definition ex_confirm (question : string) : bool := true.

(** The snapshots of a history, oldest first. *)
Definition timeline (e : EditorHistory) : list EditorState :=
  past e ++ present e :: future e.

(** [ex_app] after three page selections, the last one undone. *)
Definition ex_midway : AppState :=
  dispatch_all ex_app
    [UPDATE_EDITOR_STATE (select_page 1); UPDATE_EDITOR_STATE (select_page 2);
     UPDATE_EDITOR_STATE (select_page 1); UNDO].

(** How toggling [index] turns the focus list [l] into [l']. *)
Definition toggled (index : Z) (l l' : list Z) : Prop :=
  (In index l' <-> ~ In index l)
  /\ (forall j, j <> index -> (In j l' <-> In j l))
  /\ (NoDup l -> NoDup l').

(** [Home] with the first two keywords of page "Ideas" under focus. *)
Definition ex_home_focused : Home.HomeState :=
  {| Home.pages := ex_pages; Home.activePageIndex := 1;
     Home.isLoading := false; Home.showErrorModal := false;
     Home.errorMessage := ""; Home.selectedModel := "gemini-2.5-flash-image";
     Home.focusedItems := {| focus_keywords := [0; 1]; focus_instructions := [] |} |}.

(** [l'] is [l] without its element at index [k], if it has one: the
    elements before [k] keep their index and those after move down by one. *)
Definition removed_at {A : Type} (k : Z) (l l' : list A) : Prop :=
  if decide (0 <= k < Z.of_nat (length l))
  then Z.of_nat (length l') = Z.of_nat (length l) - 1
       /\ forall i, js_get l' i = if Z.ltb i k then js_get l i else js_get l (i + 1)
  else l' = l.

(** The context list of a page names no page twice, nor the page itself,
    nor the master page. *)
Definition context_ok (p : Page) : Prop :=
  NoDup (contextPageIds p)
  /\ ~ In (id p) (contextPageIds p)
  /\ ~ In "master" (contextPageIds p).

(** [p'] is [p] with the given keywords and instructions added at the end
    of its lists. *)
Definition grown (p p' : Page) (added_keywords added_instructions : list string)
    : Prop :=
  p' = {| id := id p; name := name p;
          keywords := keywords p ++ added_keywords;
          instructions := instructions p ++ added_instructions;
          generatedImage := generatedImage p; versions := versions p;
          contextPageIds := contextPageIds p;
          backgroundImageRef := backgroundImageRef p |}.

(** [Home] on page "Ideas" with text typed in both fields. *)
Definition ex_form : Home.HomeForm :=
  {| Home.home := ex_home_ideas; Home.prompt := "Sun;;Moon";
     Home.newPageName := "Plans"; Home.isPageModalOpen := true |}.

(** A stand-in for [trim] and [toLowerCase] on texts that need neither. *)
Definition ex_same (s : string) : string := s.

(** The pages that the ids of a context list designate, in the order of
    the list; an id that designates no page gives none. *)
Definition resolve_context (pages : list Page) (ids : list string) : list Page :=
  omap (fun pageId => List.find (fun p => String.eqb (id p) pageId) pages) ids.

(** A page whose only context id designates no page of [ex_pages]. *)
Definition ex_orphan : Page :=
  {| id := "page-3"; name := "Orphan"; keywords := ["Tree"]; instructions := [];
     generatedImage := None; versions := []; contextPageIds := ["page-9"];
     backgroundImageRef := {| current := None |} |}.

(** Three stored projects, the second modified last. *)
Definition ex_project (n : string) (modified : Z) : Project :=
  {| project_id := "project-" +:+ n; project_name := "Project " +:+ n;
     project_pages := [export_page ex_master; export_page ex_ideas];
     project_activePageIndex := Some 1;
     createdAt := 1700000000000; lastModified := modified |}.

Definition ex_projects : list Project :=
  [ex_project "1" 1700000000100; ex_project "2" 1700000000300;
   ex_project "3" 1700000000200].

(** The dashboard of a user with [ex_projects]. *)
Definition ex_dashboard : AppState :=
  appReducer (appReducer initialState (LOAD_PROJECTS ex_projects))
    (LOGIN "ana@example.com" false).


(** A response with a text part followed by an image part. *)
Definition ex_image_response : GenerateContentResponse :=
  {| candidates :=
       Some [{| content :=
                  Some {| parts :=
                            Some [{| inlineData := None;
                                     part_text := Some "here it is" |};
                                  {| inlineData :=
                                       Some {| data := Some "QUJD";
                                               mimeType := Some "image/png" |};
                                     part_text := None |}] |} |}] |}.

(** ** Reading JSON.stringify back *)

Definition hex_value (c : ascii) : nat :=
  let n := nat_of_ascii c in
  if Nat.leb 97 n then (n - 87)%nat else (n - 48)%nat.

(** Reads back one character written by [quote_char]. *)
Definition unquote_char (s : string) : option (ascii * string) :=
  match s with
  | EmptyString => None
  | String c rest =>
      if Nat.eqb (nat_of_ascii c) 34 then None
      else if Nat.eqb (nat_of_ascii c) 92 then
        match rest with
        | EmptyString => None
        | String x rest' =>
            let n := nat_of_ascii x in
            if Nat.eqb n 34 then Some (ascii_of_nat 34, rest')
            else if Nat.eqb n 92 then Some (ascii_of_nat 92, rest')
            else if Nat.eqb n 98 then Some (ascii_of_nat 8, rest')
            else if Nat.eqb n 102 then Some (ascii_of_nat 12, rest')
            else if Nat.eqb n 110 then Some (ascii_of_nat 10, rest')
            else if Nat.eqb n 114 then Some (ascii_of_nat 13, rest')
            else if Nat.eqb n 116 then Some (ascii_of_nat 9, rest')
            else
              match rest' with
              | String _ (String _ (String h1 (String h2 rest''))) =>
                  Some (ascii_of_nat (hex_value h1 * 16 + hex_value h2), rest'')
              | _ => None
              end
        end
      else Some (c, rest)
  end.

(** An encoder after which any text can follow: what was encoded and the
    text that follows can both be read back. *)
Definition self_delimiting {A : Type} (enc : A -> string) : Prop :=
  forall a b r1 r2, enc a +:+ r1 = enc b +:+ r2 -> a = b /\ r1 = r2.

(** The elements of an array after the first, each behind its comma, and
    the closing bracket. *)
Fixpoint array_rest {A : Type} (enc : A -> string) (l : list A) (r : string) : string :=
  match l with
  | [] => "]" +:+ r
  | x :: l' => "," +:+ enc x +:+ array_rest enc l' r
  end.

(** What [JSON.stringify] shows of a page: its stored fields and whether
    its ref holds a decoded image. *)
Definition page_content (p : Page) : StoredPage * bool :=
  (export_page p,
   match current (backgroundImageRef p) with Some _ => true | None => false end).

Definition stringify_content (c : StoredPage * bool) : string :=
  stringify_object
    [stringify_member "id" (stringify_string (stored_id (fst c)));
     stringify_member "name" (stringify_string (stored_name (fst c)));
     stringify_member "keywords"
       (stringify_array stringify_string (stored_keywords (fst c)));
     stringify_member "instructions"
       (stringify_array stringify_string (stored_instructions (fst c)));
     stringify_member "generatedImage"
       (stringify_nullable stringify_string (stored_generatedImage (fst c)));
     stringify_member "versions"
       (stringify_array stringify_string (stored_versions (fst c)));
     stringify_member "contextPageIds"
       (stringify_array stringify_string (stored_contextPageIds (fst c)));
     stringify_member "backgroundImageRef"
       (stringify_object
          [stringify_member "current" (if snd c then "{}" else "null")])].

(** ** The screen of the [useState]-based editor as a transition system *)

(** The values the state cells of [Home] start with. *)
Definition initial_home : Home.HomeForm :=
  {| Home.home :=
       {| Home.pages := [createNewPage "master" "Master"];
          Home.activePageIndex := 0;
          Home.isLoading := false; Home.showErrorModal := false;
          Home.errorMessage := "";
          Home.selectedModel := "gemini-2.5-flash-image";
          Home.focusedItems := no_focus |};
     Home.prompt := ""; Home.newPageName := ""; Home.isPageModalOpen := false |}.

(** The pages are those of a well-formed document: the first page has the
    master id and neither keywords nor instructions, and no other page has
    the master id. *)
Definition document_ok (pages : list Page) : Prop :=
  (exists m,
     pages !! 0%nat = Some m
     /\ id m = "master" /\ keywords m = [] /\ instructions m = [])
  /\ forall i q, pages !! i = Some q -> id q = "master" -> i = 0%nat.

Definition well_formed (s : Home.HomeState) : Prop :=
  document_ok (Home.pages s)
  /\ 0 <= Home.activePageIndex s < Z.of_nat (length (Home.pages s)).

(** A request in flight: the rest of the handler that awaits it, which
    runs on the store as it is when the answer arrives. *)
Inductive HomeTask :=
| generation (resume : BackendResult -> Home.HomeState -> Home.HomeState)
| image_analysis (resume : Home.Analysis -> Home.HomeState -> Home.HomeState).

(** What the rest of a handler does to the store, for one of the answers
    it can get. *)
Definition answers (task : HomeTask)
    (k : Home.HomeState -> Home.HomeState) : Prop :=
  match task with
  | generation resume => exists result, k = resume result
  | image_analysis resume => exists analysis, k = resume analysis
  end.

(** The screen: its cells and the requests in flight. *)
Record HomeScreen := {
  cells : Home.HomeForm;
  in_flight : list HomeTask;
}.

Definition initial_screen : HomeScreen :=
  {| cells := initial_home; in_flight := [] |}.

(** The request a run of [generateMindMap] leaves in flight. *)
Definition generation_task (run : Pending Home.HomeState) : list HomeTask :=
  match run with
  | Awaiting _ _ resume => [generation resume]
  | Finished _ | Threw _ => []
  end.

Definition analysis_task (run : Home.ImageInput) : list HomeTask :=
  match run with
  | Home.InputAwaiting _ resume => [image_analysis resume]
  | Home.InputReturned | Home.InputThrew => []
  end.

(** Every request in flight keeps a well-formed document well formed,
    whatever its answer and whenever it comes. *)
Definition task_ok (task : HomeTask) : Prop :=
  forall k, answers task k -> forall w, well_formed w -> well_formed (k w).

(** The cells are well formed and so is what every request in flight will
    do to them. *)
Definition screen_ok (s : HomeScreen) : Prop :=
  well_formed (Home.home (cells s)) /\ Forall task_ok (in_flight s).

Section HomeScreen.

Variable trim : string -> string.
Variable toLowerCase : string -> string.
Variable parseError : string -> string.
Variable blank_png : Z -> Z -> string.
Variable null_context_message : string.

(** What one synchronous event of the screen does to the cells of
    [HomeState].  The handler is fired from a render of the state it acts
    on and gets any argument; the last event is the [onload] callback of
    the redraw effect. *)
Inductive home_event (s : Home.HomeState) : Home.HomeState -> Prop :=
| event_select_tab (index : nat) :
    (index < length (Home.pages s))%nat ->
    home_event s (Home.setActivePageIndex (Z.of_nat index) s)
| event_delete_page (confirm : string -> bool) (index : Z) :
    home_event s (store_of (Home.handleDeletePage confirm s index s))
| event_delete_keyword (index : Z) :
    home_event s (store_of (Home.handleDeleteKeyword s index s))
| event_delete_instruction (index : Z) :
    home_event s (store_of (Home.handleDeleteInstruction s index s))
| event_toggle_focus (type : Home.FocusType) (index : Z) :
    home_event s (Home.handleToggleFocus type index s)
| event_save_version :
    home_event s (Home.handleSaveVersion s s)
| event_restore_version (index : Z) :
    home_event s (Home.handleRestoreVersion s index s)
| event_delete_version (index : Z) :
    home_event s (store_of (Home.handleDeleteVersion s index s))
| event_add_context (pageId : string) :
    home_event s (store_of (Home.handleAddContext s pageId s))
| event_remove_context (pageId : string) :
    home_event s (store_of (Home.handleRemoveContext s pageId s))
| event_clear_project :
    home_event s (Home.clearProject s)
| event_close_error :
    home_event s (Home.setShowErrorModal false s)
| event_select_model (value : string) :
    home_event s (Home.setSelectedModel value s)
| event_image_loaded (index : Z) (img : HTMLImageElement) :
    home_event s (Home.setPages (map_at index (Home.set_current img)) s).

(** The same for the screen with its two text fields and its dialog. *)
Inductive home_step (s : Home.HomeForm) : Home.HomeForm -> Prop :=
| step_event (h : Home.HomeState) :
    home_event (Home.home s) h -> home_step s (Home.with_home (fun _ => h) s)
| step_type_prompt (value : string) :
    home_step s (Home.setPrompt value s)
| step_type_page_name (value : string) :
    home_step s (Home.setNewPageName value s)
| step_toggle_dialog (open : bool) :
    home_step s (Home.setIsPageModalOpen open s)
| step_add_page (now : Z) :
    home_step s (Home.handleAddNewPage trim now s s)
| step_submit_prompt :
    home_step s (store_of (Home.handlePromptSubmit trim toLowerCase s s)).

(** One step of the screen.  A synchronous event leaves the requests in
    flight as they are.  A generation and an image analysis run up to
    their [await] and leave their request in flight.  Any request in
    flight can be answered at any later moment, with any answer, in any
    order; the rest of the handler then runs on the cells as they are at
    that moment.  Every control can fire in every state: the system does
    not look at the flags that disable a control or hide it, so the screen
    has no behaviour that is not a path of the system. *)
Inductive screen_step (s : HomeScreen) : HomeScreen -> Prop :=
| step_sync (f : Home.HomeForm) :
    home_step (cells s) f ->
    screen_step s {| cells := f; in_flight := in_flight s |}
| step_generate (canvas : option Canvas) (context2d : bool) (mode : Mode)
    (run : Pending Home.HomeState) :
    run = Home.generateMindMap parseError blank_png null_context_message
            (Home.home (cells s)) canvas context2d mode (Home.home (cells s)) ->
    screen_step s
      {| cells := Home.with_home (fun _ => store_at_pause run) (cells s);
         in_flight := in_flight s ++ generation_task run |}
| step_image_input (file : option Home.File) (run : Home.ImageInput) :
    run = Home.handleImageInputChange toLowerCase (Home.home (cells s)) file ->
    screen_step s
      {| cells := cells s; in_flight := in_flight s ++ analysis_task run |}
| step_answer (before after : list HomeTask) (task : HomeTask)
    (k : Home.HomeState -> Home.HomeState) :
    in_flight s = before ++ task :: after ->
    answers task k ->
    screen_step s
      {| cells := Home.with_home k (cells s); in_flight := before ++ after |}.

End HomeScreen.

(** A path of the screen: a page "Ideas" is added and gets the keyword
    "Sun", a generation is started, and while its request is in flight the
    keyword is put under focus. *)
Definition ex_typed : HomeScreen :=
  {| cells := Home.setNewPageName "Ideas" initial_home; in_flight := [] |}.

Definition ex_added : HomeScreen :=
  {| cells := Home.handleAddNewPage ex_same 1700000000000 (cells ex_typed)
                (cells ex_typed);
     in_flight := [] |}.

Definition ex_prompted : HomeScreen :=
  {| cells := Home.setPrompt "Sun" (cells ex_added); in_flight := [] |}.

Definition ex_submitted : HomeScreen :=
  {| cells := store_of (Home.handlePromptSubmit ex_same ex_same
                          (cells ex_prompted) (cells ex_prompted));
     in_flight := [] |}.

Definition ex_run : Pending Home.HomeState :=
  Home.generateMindMap ex_parseError ex_blank_png "null"
    (Home.home (cells ex_submitted)) ex_canvas true rethink
    (Home.home (cells ex_submitted)).

Definition ex_generating : HomeScreen :=
  {| cells := Home.with_home (fun _ => store_at_pause ex_run) (cells ex_submitted);
     in_flight := in_flight ex_submitted ++ generation_task ex_run |}.

Definition ex_clicked : HomeScreen :=
  {| cells :=
       Home.with_home
         (fun _ => Home.handleToggleFocus Home.keyword 0
                     (Home.home (cells ex_generating)))
         (cells ex_generating);
     in_flight := in_flight ex_generating |}.


(* ================================================================== *)
(** * Properties *)

(** ** Lists and strings *)

Lemma js_get_Some {A : Type} (l : list A) (i : Z) (x : A) :
  js_get l i = Some x -> 0 <= i < Z.of_nat (length l).
Proof.
  unfold js_get. destruct (decide (0 <= i)) as [Hi|]; [|discriminate].
  intros H. apply lookup_lt_Some in H. lia.
Qed.


Lemma js_get_map_at_same {A : Type} (f : A -> A) (l : list A) (k : Z) (x : A) :
  js_get l k = Some x -> js_get (map_at k f l) k = Some (f x).
Proof.
  unfold js_get, map_at. destruct (decide (0 <= k)) as [Hk|]; [|discriminate].
  intros H. rewrite list_lookup_imap, H. simpl.
  rewrite bool_decide_eq_true_2 by lia. reflexivity.
Qed.


(** ** The edit history *)

Lemma with_editor_same (st : AppState) : with_editor st (editor st) = st.
Proof. destruct st; reflexivity. Qed.


Lemma with_editor_twice (st : AppState) (e1 e2 : EditorHistory) :
  with_editor (with_editor st e1) e2 = with_editor st e2.
Proof. reflexivity. Qed.

(** Undo on a history whose [past] ends with [previous]. *)
Lemma undo_snoc (st : AppState) (older : list EditorState) (previous : EditorState) :
  past (editor st) = older ++ [previous] ->
  appReducer st UNDO =
    with_editor st
      {| past := older; present := previous;
         future := present (editor st) :: future (editor st) |}.
Proof.
  intros Hp. cbn [appReducer]. rewrite Hp.
  rewrite length_app. cbn [length].
  replace (length older + 1 - 1)%nat with (length older) by lia.
  replace (Nat.eqb (length older + 1) 0) with false
    by (symmetry; apply Nat.eqb_neq; lia).
  rewrite take_app_length.
  rewrite lookup_app_r by lia. rewrite Nat.sub_diag. reflexivity.
Qed.

(** Redo on a history whose [future] starts with [next]. *)
Lemma redo_cons (st : AppState) (next : EditorState) (later : list EditorState) :
  future (editor st) = next :: later ->
  appReducer st REDO =
    with_editor st
      {| past := past (editor st) ++ [present (editor st)]; present := next;
         future := later |}.
Proof. intros Hf. cbn [appReducer]. rewrite Hf. reflexivity. Qed.

(** One Redo takes back one Undo. *)
Lemma redo_undo (st : AppState) :
  past (editor st) <> [] -> appReducer (appReducer st UNDO) REDO = st.
Proof.
  intros Hne.
  destruct (exists_last Hne) as [older [previous Hp]].
  rewrite (undo_snoc st older previous Hp).
  erewrite redo_cons by reflexivity.
  cbn [editor with_editor past present future]. rewrite with_editor_twice.
  rewrite <- Hp. destruct st as [? ? ? ? [? ? ?] ? ? ? ?]; reflexivity.
Qed.

Lemma undo_past_length (st : AppState) :
  length (past (editor (appReducer st UNDO))) = (length (past (editor st)) - 1)%nat.
Proof.
  destruct (past (editor st)) as [|x l] eqn:Hp.
  - cbn [appReducer]. rewrite Hp. cbn. rewrite Hp. reflexivity.
  - assert (Hne : past (editor st) <> []) by (rewrite Hp; discriminate).
    destruct (exists_last Hne) as [older [previous Hp']].
    rewrite (undo_snoc st older previous Hp'). cbn [editor with_editor past].
    rewrite Hp in Hp'. rewrite Hp', length_app. cbn [length]. lia.
Qed.

(** [n] Undos then [n] Redos, [n] not above the depth of [past]. *)
Lemma undo_redo_n (n : nat) (st : AppState) :
  (n <= length (past (editor st)))%nat ->
  dispatch_all st (repeat UNDO n ++ repeat REDO n) = st.
Proof.
  revert st. induction n as [|n IH]; intros st Hn; [reflexivity|].
  assert (Hl : repeat UNDO (S n) ++ repeat REDO (S n) =
               UNDO :: (repeat UNDO n ++ repeat REDO n) ++ [REDO]).
  { cbn [repeat app]. f_equal. rewrite (repeat_cons n REDO).
    apply app_assoc. }
  rewrite Hl. unfold dispatch_all in *. cbn [fold_left]. rewrite fold_left_app.
  rewrite IH by (rewrite undo_past_length; lia).
  cbn [fold_left]. apply redo_undo.
  destruct (past (editor st)); [cbn in Hn; lia | discriminate].
Qed.

Lemma commit_effective (st : AppState) (payload : PartialEditorState) :
  commit_changes st payload = true ->
  appReducer st (UPDATE_EDITOR_STATE payload) =
    with_editor st
      {| past := past (editor st) ++ [present (editor st)];
         present := spread_state (present (editor st)) payload;
         future := [] |}.
Proof.
  unfold commit_changes. intros H. apply negb_true_iff in H.
  cbn [appReducer]. rewrite H. reflexivity.
Qed.

Lemma commit_idle (st : AppState) (payload : PartialEditorState) :
  commit_changes st payload = false ->
  appReducer st (UPDATE_EDITOR_STATE payload) = st.
Proof.
  unfold commit_changes. intros H. apply negb_false_iff in H.
  cbn [appReducer]. rewrite H. reflexivity.
Qed.

Lemma commits_past_length (payloads : list PartialEditorState) (st : AppState) :
  commits_succeed st payloads = true ->
  length (past (editor (dispatch_all st (map UPDATE_EDITOR_STATE payloads)))) =
    (length (past (editor st)) + length payloads)%nat.
Proof.
  revert st. induction payloads as [|payload rest IH]; intros st H.
  - cbn. lia.
  - cbn [commits_succeed] in H. apply andb_true_iff in H as [Hc Hr].
    unfold dispatch_all in *. cbn [map fold_left]. rewrite (IH _ Hr).
    rewrite (commit_effective _ _ Hc). cbn [editor with_editor past].
    rewrite length_app. cbn [length]. lia.
Qed.

(** C1. After [n] commits that each took effect, [n] Undos followed by [n]
    Redos, no commit in between, give back the state the Undos started
    from: the [present] snapshot is the same, and so are [past] and
    [future]. *)
Theorem undo_redo_restores_present
    (st : AppState) (payloads : list PartialEditorState) :
  commits_succeed st payloads = true ->
  let committed := dispatch_all st (map UPDATE_EDITOR_STATE payloads) in
  let n := length payloads in
  let final := dispatch_all committed (repeat UNDO n ++ repeat REDO n) in
  present (editor final) = present (editor committed) /\ final = committed.
Proof.
  intros H committed n final.
  assert (Hfinal : final = committed).
  { apply undo_redo_n. unfold committed, n.
    rewrite (commits_past_length _ _ H). lia. }
  rewrite Hfinal. split; reflexivity.
Qed.

Lemma undo_redo_restores_present_witness :
  commits_succeed ex_app [select_page 1; select_page 0] = true /\
  dispatch_all
    (dispatch_all ex_app (map UPDATE_EDITOR_STATE [select_page 1; select_page 0]))
    (repeat UNDO 2 ++ repeat REDO 2) =
  dispatch_all ex_app (map UPDATE_EDITOR_STATE [select_page 1; select_page 0]).
Proof.
  split; [vm_compute; reflexivity|].
  apply (undo_redo_restores_present ex_app [select_page 1; select_page 0]).
  vm_compute; reflexivity.
Defined.

(** C2. A commit whose payload, merged into [present], is equal to
    [present] changes nothing: the state is the one given, so [past] keeps
    its length and [future] its contents. *)
Theorem commit_equal_is_noop (st : AppState) (payload : PartialEditorState) :
  spread_state (present (editor st)) payload = present (editor st) ->
  let st' := appReducer st (UPDATE_EDITOR_STATE payload) in
  st' = st
  /\ length (past (editor st')) = length (past (editor st))
  /\ future (editor st') = future (editor st).
Proof.
  intros Heq st'.
  assert (Hst : st' = st).
  { apply commit_idle. unfold commit_changes.
    rewrite Heq, String.eqb_refl. reflexivity. }
  rewrite Hst. repeat split; reflexivity.
Qed.

Lemma commit_equal_is_noop_witness :
  spread_state (present (editor ex_undone)) (select_page 0) =
    present (editor ex_undone)
  /\ appReducer ex_undone (UPDATE_EDITOR_STATE (select_page 0)) = ex_undone.
Proof.
  split; [vm_compute; reflexivity|].
  apply (commit_equal_is_noop ex_undone (select_page 0)).
  vm_compute; reflexivity.
Defined.

(** C8, as stated, fails: a commit that changes nothing keeps the [future]
    it finds.  With the selection of page 1 undone, selecting page 0 again
    leaves that selection in [future]. *)
Lemma commit_keeps_future_counterexample :
  future (editor (appReducer ex_undone (UPDATE_EDITOR_STATE (select_page 0)))) <> [].
Proof. vm_compute. discriminate. Qed.

(** C8, amended. After a commit that takes effect (the merged state prints
    differently from [present]) [future] is empty; after any other commit
    [future] is what it was. *)
Theorem commit_future (st : AppState) (payload : PartialEditorState) :
  future (editor (appReducer st (UPDATE_EDITOR_STATE payload))) =
    if commit_changes st payload then [] else future (editor st).
Proof.
  destruct (commit_changes st payload) eqn:Hc.
  - rewrite (commit_effective _ _ Hc). reflexivity.
  - rewrite (commit_idle _ _ Hc). reflexivity.
Qed.

(** ** Strings *)

Lemma append_nil_l (a : string) : EmptyString +:+ a = a.
Proof. reflexivity. Qed.

Lemma append_cons (x : ascii) (a b : string) :
  String x a +:+ b = String x (a +:+ b).
Proof. reflexivity. Qed.

Lemma append_assoc (a b c : string) : (a +:+ b) +:+ c = a +:+ b +:+ c.
Proof.
  induction a as [|x a IH]; [reflexivity|].
  rewrite !append_cons. f_equal. exact IH.
Qed.

Lemma append_nil_r (a : string) : a +:+ EmptyString = a.
Proof.
  induction a as [|x a IH]; [reflexivity|].
  rewrite append_cons. f_equal. exact IH.
Qed.

Lemma append_eq_nil (a b : string) :
  a +:+ b = EmptyString -> a = EmptyString /\ b = EmptyString.
Proof.
  destruct a; [rewrite append_nil_l; auto | rewrite append_cons; discriminate].
Qed.

Lemma is_substring_refl (s : string) : is_substring s s.
Proof.
  exists EmptyString, EmptyString. now rewrite append_nil_l, append_nil_r.
Qed.

Lemma is_substring_nil (t : string) : is_substring EmptyString t.
Proof. exists EmptyString, t. reflexivity. Qed.

Lemma is_substring_app_l (s t u : string) :
  is_substring s t -> is_substring s (t +:+ u).
Proof.
  intros [pre [post ->]]. exists pre, (post +:+ u).
  now rewrite !append_assoc.
Qed.

Lemma is_substring_app_r (s t u : string) :
  is_substring s u -> is_substring s (t +:+ u).
Proof.
  intros [pre [post ->]]. exists (t +:+ pre), post.
  now rewrite !append_assoc.
Qed.

Lemma join_cons2 (x y : string) (l : list string) (sep : string) :
  join (x :: y :: l) sep = x +:+ sep +:+ join (y :: l) sep.
Proof. reflexivity. Qed.

(** Every element of an array is a piece of its [join]. *)
Lemma is_substring_join (s sep : string) (l : list string) :
  In s l -> is_substring s (join l sep).
Proof.
  induction l as [|x l IH]; [intros []|].
  intros [->|Hin].
  - destruct l as [|y l]; [apply is_substring_refl|].
    rewrite join_cons2. exists EmptyString, (sep +:+ join (y :: l) sep).
    reflexivity.
  - destruct l as [|y l]; [destruct Hin|].
    rewrite join_cons2. do 2 apply is_substring_app_r. apply IH, Hin.
Qed.

Lemma prefix_append (n post : string) : String.prefix n (n +:+ post) = true.
Proof.
  induction n as [|c n IH]; [rewrite append_nil_l; destruct post; reflexivity|].
  rewrite append_cons. cbn [String.prefix].
  destruct (ascii_dec c c); [exact IH | congruence].
Qed.

(** [includes] finds every occurrence. *)
Lemma includes_complete (needle haystack : string) :
  is_substring needle haystack -> includes haystack needle = true.
Proof.
  intros [pre [post ->]]. induction pre as [|c pre IH].
  - rewrite append_nil_l.
    assert (H : String.prefix needle (needle +:+ post) = true)
      by apply prefix_append.
    destruct (needle +:+ post); cbn [includes]; rewrite H; reflexivity.
  - rewrite append_cons. cbn [includes]. rewrite IH. apply orb_true_r.
Qed.

(** ** The prompt *)

Lemma nonempty_map {A B : Type} (f : A -> B) (l : list A) :
  nonempty (map f l) = nonempty l.
Proof. unfold nonempty. now rewrite length_map. Qed.


(** The accumulation over the pages, as one concatenation. *)
Lemma fold_master_step (l : list Page) (masterContext : string) :
  fold_left master_step l masterContext =
    masterContext
    +:+ concat_strings
          (map master_entry (List.filter (fun p => nonempty (keywords p)) l)).
Proof.
  revert masterContext. induction l as [|p l IH]; intros acc.
  - cbn. now rewrite append_nil_r.
  - cbn [fold_left List.filter]. rewrite IH. unfold master_step.
    destruct (nonempty (keywords p)); [|reflexivity].
    cbn [map concat_strings fold_right]. apply append_assoc.
Qed.

Lemma filter_filter {A : Type} (f g : A -> bool) (l : list A) :
  List.filter g (List.filter f l) = List.filter (fun x => f x && g x) l.
Proof.
  induction l as [|x l IH]; [reflexivity|].
  cbn [List.filter]. destruct (f x); cbn [List.filter andb]; rewrite IH; reflexivity.
Qed.

(** The master prompt: the header, one entry for each page that is not the
    master page and has a keyword, in document order, and the closing
    sentence of the evolve mode. *)
Lemma master_prompt_layout (pages : list Page) (activePage : Page) (mode : Mode)
    (focusedItems : FocusedItems) :
  String.eqb (id activePage) "master" = true ->
  composePrompt pages activePage mode focusedItems =
    master_header
    +:+ concat_strings (map master_entry (List.filter in_master_prompt pages))
    +:+ when (match mode with evolve => true | rethink => false end) master_evolve.
Proof.
  intros Hm. unfold composePrompt. rewrite Hm. cbv zeta.
  rewrite fold_master_step, filter_filter.
  destruct mode; cbn [when].
  - now rewrite append_assoc.
  - now rewrite append_nil_r.
Qed.

(** The prompt of a regular page, clause after clause. *)
Lemma page_prompt_layout (pages : list Page) (activePage : Page) (mode : Mode)
    (focusedItems : FocusedItems) :
  String.eqb (id activePage) "master" = false ->
  composePrompt pages activePage mode focusedItems =
    layout pages activePage mode focusedItems.
Proof.
  intros Hm. unfold composePrompt. rewrite Hm. cbv zeta.
  unfold layout, coverage_clause, mode_clause, has_focus, focus_clause,
    context_clause, instruction_summary, keyword_summary.
  rewrite !nonempty_map.
  destruct mode;
    destruct (nonempty (focus_keywords focusedItems));
    destruct (nonempty (focus_instructions focusedItems));
    destruct (nonempty (contextPageIds activePage));
    destruct (truthy (join (instructions activePage) ". "));
    cbn [orb when];
    rewrite ?append_assoc, ?append_nil_l, ?append_nil_r; reflexivity.
Qed.

Lemma join_falsy_elements (l : list string) (sep s : string) :
  truthy (join l sep) = false -> In s l -> s = EmptyString.
Proof.
  intros Hf Hin.
  assert (Hj : join l sep = EmptyString) by (destruct (join l sep); [reflexivity | discriminate]).
  destruct (is_substring_join s sep l Hin) as [pre [post Hs]].
  rewrite Hj in Hs. symmetry in Hs.
  apply append_eq_nil in Hs as [_ Hs]. apply append_eq_nil in Hs as [Hs _].
  exact Hs.
Qed.

Lemma keyword_in_summary (activePage : Page) (s : string) :
  In s (keywords activePage) -> is_substring s (keyword_summary activePage).
Proof.
  intros Hin. unfold keyword_summary.
  do 4 apply is_substring_app_r. apply is_substring_app_l.
  apply is_substring_join, Hin.
Qed.

Lemma instruction_in_summary (activePage : Page) (s : string) :
  In s (instructions activePage) -> is_substring s (instruction_summary activePage).
Proof.
  intros Hin. unfold instruction_summary.
  do 4 apply is_substring_app_r. apply is_substring_app_l.
  apply is_substring_join, Hin.
Qed.

(** C4. On the master page a page without keywords is left out of the
    prompt: the prompt is the header followed by the entries of the pages
    that are not the master page and have a keyword, so taking a page
    without keywords out of the document does not change it.  On any other
    page the prompt holds, as they are written, every keyword and every
    instruction of that page. *)
Theorem prompt_contents :
  (forall pages activePage mode focusedItems,
     String.eqb (id activePage) "master" = true ->
     composePrompt pages activePage mode focusedItems =
       master_header
       +:+ concat_strings (map master_entry (List.filter in_master_prompt pages))
       +:+ when (match mode with evolve => true | rethink => false end)
             master_evolve)
  /\ (forall before p after activePage mode focusedItems,
        String.eqb (id activePage) "master" = true ->
        keywords p = [] ->
        composePrompt (before ++ p :: after) activePage mode focusedItems =
          composePrompt (before ++ after) activePage mode focusedItems)
  /\ (forall pages activePage mode focusedItems s,
        String.eqb (id activePage) "master" = false ->
        In s (keywords activePage) \/ In s (instructions activePage) ->
        is_substring s (composePrompt pages activePage mode focusedItems)).
Proof.
  split; [exact master_prompt_layout|]. split.
  - intros before p after activePage mode focusedItems Hm Hk.
    rewrite !master_prompt_layout by exact Hm.
    rewrite !List.filter_app. cbn [List.filter].
    unfold in_master_prompt at 2. rewrite Hk. cbn [nonempty length Nat.ltb Nat.leb].
    rewrite andb_false_r. reflexivity.
  - intros pages activePage mode focusedItems s Hm [Hin|Hin].
    + rewrite page_prompt_layout by exact Hm. unfold layout.
      do 5 apply is_substring_app_r. apply keyword_in_summary, Hin.
    + rewrite page_prompt_layout by exact Hm. unfold layout.
      destruct (truthy (join (instructions activePage) ". ")) eqn:Ht.
      * do 4 apply is_substring_app_r. apply is_substring_app_l.
        cbn [when]. apply instruction_in_summary, Hin.
      * rewrite (join_falsy_elements _ _ _ Ht Hin). apply is_substring_nil.
Qed.

Lemma prompt_contents_witness :
  (String.eqb (id ex_master) "master" = true /\ keywords ex_notes = [])
  /\ composePrompt ([ex_master; ex_ideas] ++ ex_notes :: []) ex_master evolve no_focus =
       composePrompt ([ex_master; ex_ideas] ++ []) ex_master evolve no_focus
  /\ (String.eqb (id ex_ideas) "master" = false
       /\ (In "Light" (keywords ex_ideas) \/ In "Light" (instructions ex_ideas)))
  /\ is_substring "Light" (composePrompt ex_pages ex_ideas rethink no_focus).
Proof.
  assert (Hin : In "Light" (keywords ex_ideas) \/ In "Light" (instructions ex_ideas))
    by (left; simpl; auto).
  split; [split; reflexivity|]. split.
  - apply (proj1 (proj2 prompt_contents)); reflexivity.
  - split; [split; [reflexivity | exact Hin]|].
    apply (proj2 (proj2 prompt_contents)); [reflexivity | exact Hin].
Defined.

(** C5, as stated, fails: the instruction summary is not always there.  The
    page "Ideas" has keywords and no instruction; its prompt goes from the
    mode clause straight to the keyword summary and nowhere holds the
    words that open the instruction summary. *)
Lemma clause_order_counterexample :
  composePrompt ex_pages ex_ideas rethink no_focus <>
    layout_with_both_summaries ex_pages ex_ideas rethink no_focus
  /\ ~ is_substring "Overall instructions to follow"
        (composePrompt ex_pages ex_ideas rethink no_focus).
Proof.
  split.
  - apply String.eqb_neq. vm_compute. reflexivity.
  - intros H. apply includes_complete in H. vm_compute in H. discriminate.
Qed.

(** C5, amended. The prompt of a regular page is made of its clauses in
    this order: the coverage clause, the mode clause, the focus clause
    (only when a focus set is non-empty), the context clause (only when
    [contextPageIds] is non-empty), the instruction summary (only when the
    joined instructions are a non-empty text), the keyword summary. *)
Theorem clause_order (pages : list Page) (activePage : Page) (mode : Mode)
    (focusedItems : FocusedItems) :
  String.eqb (id activePage) "master" = false ->
  composePrompt pages activePage mode focusedItems =
    coverage_clause activePage
    +:+ mode_clause activePage mode
    +:+ when (nonempty (focus_keywords focusedItems)
              || nonempty (focus_instructions focusedItems))
          (focus_clause activePage focusedItems)
    +:+ when (nonempty (contextPageIds activePage))
          (context_clause pages activePage)
    +:+ when (truthy (join (instructions activePage) ". "))
          (instruction_summary activePage)
    +:+ keyword_summary activePage.
Proof. intros Hm. rewrite page_prompt_layout by exact Hm. reflexivity. Qed.

Lemma clause_order_witness :
  String.eqb (id ex_notes) "master" = false
  /\ composePrompt ex_pages ex_notes evolve ex_focus =
       coverage_clause ex_notes
       +:+ mode_clause ex_notes evolve
       +:+ focus_clause ex_notes ex_focus
       +:+ context_clause ex_pages ex_notes
       +:+ instruction_summary ex_notes
       +:+ keyword_summary ex_notes.
Proof.
  split; [reflexivity|].
  exact (clause_order ex_pages ex_notes evolve ex_focus eq_refl).
Defined.

(** ** Generation *)



(** The guard of [generateMindMap] on a regular page without keywords. *)
Lemma validation_guard (p : Page) :
  String.eqb (id p) "master" = false -> keywords p = [] ->
  negb (String.eqb (id p) "master") && Nat.eqb (length (keywords p)) 0 = true.
Proof. intros -> ->. reflexivity. Qed.

Lemma validation_passes (p : Page) :
  String.eqb (id p) "master" = true \/ keywords p <> [] ->
  negb (String.eqb (id p) "master") && Nat.eqb (length (keywords p)) 0 = false.
Proof.
  intros [->|Hk]; [reflexivity|].
  destruct (keywords p); [congruence|]. apply andb_false_r.
Qed.

(** C3. On a regular page without keywords [generateMindMap], in either
    mode and in both variants of the editor, reports the validation
    message and is over before its [await]: it sends nothing to the
    backend and leaves the document as it was. *)
Theorem empty_keywords_abort :
  (forall parseError blank_png r random context2d mode w p,
     Editor.activePage r = Some p ->
     String.eqb (id p) "master" = false ->
     keywords p = [] ->
     let run := Editor.generateMindMap parseError blank_png r random context2d mode w in
     run = Finished (dispatch (SET_ERROR (Some validation_message)) w)
     /\ network_calls run = []
     /\ forall backend,
          editor (app (settle backend run)) = editor (app w)
          /\ errorMessage (app (settle backend run)) = Some validation_message)
  /\ (forall parseError blank_png null_context_message r canvas context2d mode w p,
        Home.activePage r = Some p ->
        String.eqb (id p) "master" = false ->
        keywords p = [] ->
        let run :=
          Home.generateMindMap parseError blank_png null_context_message
            r canvas context2d mode w in
        run = Finished
                (Home.setShowErrorModal true
                   (Home.setErrorMessage validation_message w))
        /\ network_calls run = []
        /\ forall backend,
             Home.pages (settle backend run) = Home.pages w
             /\ Home.activePageIndex (settle backend run) = Home.activePageIndex w
             /\ Home.errorMessage (settle backend run) = validation_message
             /\ Home.showErrorModal (settle backend run) = true).
Proof.
  split.
  - intros parseError blank_png r random context2d mode w p Hp Hm Hk run.
    assert (Hrun : run = Finished (dispatch (SET_ERROR (Some validation_message)) w)).
    { unfold run, Editor.generateMindMap. rewrite Hp.
      rewrite (validation_guard p Hm Hk). reflexivity. }
    rewrite Hrun. repeat split.
  - intros parseError blank_png null_context_message r canvas context2d mode w p
      Hp Hm Hk run.
    assert (Hrun : run = Finished (Home.setShowErrorModal true
                                     (Home.setErrorMessage validation_message w))).
    { unfold run, Home.generateMindMap. rewrite Hp.
      rewrite (validation_guard p Hm Hk). reflexivity. }
    rewrite Hrun. repeat split.
Qed.

Lemma empty_keywords_abort_witness :
  (Editor.activePage ex_render = Some ex_notes
   /\ String.eqb (id ex_notes) "master" = false
   /\ keywords ex_notes = [])
  /\ network_calls
       (Editor.generateMindMap ex_parseError ex_blank_png ex_render 0 true
          evolve ex_store) = []
  /\ (Home.activePage ex_home = Some ex_notes)
  /\ network_calls
       (Home.generateMindMap ex_parseError ex_blank_png "null" ex_home ex_canvas
          true rethink ex_home) = [].
Proof.
  split; [repeat split|]. split.
  - apply (proj1 empty_keywords_abort ex_parseError ex_blank_png ex_render 0%nat
             true evolve ex_store ex_notes); reflexivity.
  - split; [reflexivity|].
    apply (proj2 empty_keywords_abort ex_parseError ex_blank_png "null" ex_home
             ex_canvas true rethink ex_home ex_notes); reflexivity.
Defined.

(** Splits on the base image of a run: [None] when no 2D context is to be
    had, else the payload sent to the backend. *)
Ltac split_drawing_data :=
  match goal with
  | |- context [match (match ?mode with evolve => _ | rethink => _ end) with
                | Some _ => _ | None => _ end] =>
      let d := fresh "drawingData" in
      let E := fresh "HdrawingData" in
      destruct (match mode with evolve => _ | rethink => _ end) as [d|] eqn:E
  | H : context [match (match ?mode with evolve => _ | rethink => _ end) with
                 | Some _ => _ | None => _ end] |- _ =>
      let d := fresh "drawingData" in
      let E := fresh "HdrawingData" in
      destruct (match mode with evolve => _ | rethink => _ end) as [d|] eqn:E
  end.

Lemma messages_distinct :
  no_image_message <> validation_message
  /\ no_image_message <> unexpected_message.
Proof. split; apply String.eqb_neq; vm_compute; reflexivity. Qed.

(** C6. When the backend answers and its response carries no image, the
    edit history, and with it the target page's [generatedImage], is after
    the call what it was before, and the message reported is the no-image
    message, which is neither the validation message nor the generic one.
    The rest of the handler leaves the history alone on whatever store it
    is resumed. *)
Theorem no_image_leaves_document
    (parseError : string -> string) (blank_png : Z -> Z -> string)
    (r : Render) (random : nat) (context2d : bool) (mode : Mode) (w : Store)
    (w1 : Store) (request : Request) (resume : BackendResult -> Store -> Store)
    (response : GenerateContentResponse) :
  Editor.generateMindMap parseError blank_png r random context2d mode w =
    Awaiting w1 request resume ->
  no_image_payload response ->
  (forall backend,
     backend request = Resolved response ->
     let final :=
       settle backend
         (Editor.generateMindMap parseError blank_png r random context2d mode w) in
     editor (app final) = editor (app w)
     /\ errorMessage (app final) = Some no_image_message)
  /\ (forall w',
        editor (app (resume (Resolved response) w')) = editor (app w')
        /\ errorMessage (app (resume (Resolved response) w')) =
             Some no_image_message)
  /\ no_image_message <> validation_message
  /\ no_image_message <> unexpected_message.
Proof.
  intros Hrun Hno.
  assert (Hresume : forall w',
             editor (app (resume (Resolved response) w')) = editor (app w')
             /\ errorMessage (app (resume (Resolved response) w')) =
                  Some no_image_message).
  { unfold Editor.generateMindMap in Hrun.
    destruct (Editor.activePage r) as [p|]; [|discriminate].
    destruct (negb (String.eqb (id p) "master") && Nat.eqb (length (keywords p)) 0);
      [discriminate|].
    cbv zeta in Hrun. split_drawing_data; [|discriminate].
    injection Hrun as _ _ <-. intros w'.
    destruct Hno as [-> | ->]; split; reflexivity. }
  assert (Hpause : editor (app w1) = editor (app w)).
  { unfold Editor.generateMindMap in Hrun.
    destruct (Editor.activePage r) as [p|]; [|discriminate].
    destruct (negb (String.eqb (id p) "master") && Nat.eqb (length (keywords p)) 0);
      [discriminate|].
    cbv zeta in Hrun. split_drawing_data; [|discriminate].
    injection Hrun as <- _ _. reflexivity. }
  split; [|split; [exact Hresume | exact messages_distinct]].
  intros backend Hb final. unfold final. rewrite Hrun. cbn [settle].
  rewrite Hb. destruct (Hresume w1) as [He Hm]. rewrite He, Hm, Hpause.
  split; reflexivity.
Qed.

Lemma no_image_leaves_document_witness :
  (exists w1 request resume,
     Editor.generateMindMap ex_parseError ex_blank_png ex_render_ideas 0 true
       rethink ex_store_ideas = Awaiting w1 request resume)
  /\ no_image_payload ex_text_response
  /\ editor
       (app (settle ex_backend
               (Editor.generateMindMap ex_parseError ex_blank_png ex_render_ideas
                  0 true rethink ex_store_ideas))) =
     editor (app ex_store_ideas).
Proof.
  split; [do 3 eexists; reflexivity|].
  split; [left; reflexivity|].
  eapply (no_image_leaves_document ex_parseError ex_blank_png ex_render_ideas
            0%nat true rethink ex_store_ideas _ _ _ ex_text_response).
  - reflexivity.
  - left; reflexivity.
  - reflexivity.
Defined.








(** ** Versions and pages of the [useState]-based editor *)

Lemma versions_include_In (l : list string) (image : string) :
  Home.versions_include l image = true <-> In image l.
Proof.
  unfold Home.versions_include. rewrite existsb_exists. split.
  - intros [x [Hin Heq]]. apply String.eqb_eq in Heq. now subst.
  - intros Hin. exists image. split; [exact Hin | apply String.eqb_refl].
Qed.

Lemma versions_include_snoc (l : list string) (image : string) :
  Home.versions_include (l ++ [image]) image = true.
Proof. apply versions_include_In, in_or_app. right. left. reflexivity. Qed.

(** A save on a page whose image is new: the page gets the image as its
    last version. *)
Lemma save_new_version (s : Home.HomeState) (p : Page) (c : ascii) (d : string) :
  Home.activePage s = Some p ->
  generatedImage p = Some (String c d) ->
  Home.versions_include (versions p) (String c d) = false ->
  Home.activePage (Home.handleSaveVersion s s) =
    Some (spread_page p
            {| upd_name := None; upd_keywords := None; upd_instructions := None;
               upd_generatedImage := None;
               upd_versions := Some (versions p ++ [String c d]);
               upd_contextPageIds := None |}).
Proof.
  intros Hp Hg Hv. unfold Home.handleSaveVersion. rewrite Hp, Hg, Hv.
  unfold Home.updateActivePage, Home.activePage, Home.setPages.
  cbn [Home.pages Home.activePageIndex].
  exact (js_get_map_at_same _ _ _ _ Hp).
Qed.

(** C9. Saving a version is idempotent. When the current image of the
    active page is already among its versions the handler changes
    nothing; a save that follows a save changes nothing; and the one save
    that does something appends the image to a list that did not hold it. *)
Theorem save_version_idempotent :
  (forall s p image,
     Home.activePage s = Some p ->
     generatedImage p = Some image ->
     In image (versions p) ->
     Home.handleSaveVersion s s = s)
  /\ (forall s,
        let s' := Home.handleSaveVersion s s in
        Home.handleSaveVersion s' s' = s')
  /\ (forall s p image,
        Home.activePage s = Some p ->
        generatedImage p = Some image ->
        image <> EmptyString ->
        ~ In image (versions p) ->
        exists p',
          Home.activePage (Home.handleSaveVersion s s) = Some p'
          /\ versions p' = versions p ++ [image]
          /\ generatedImage p' = Some image).
Proof.
  split; [|split].
  - intros s p image Hp Hg Hin. unfold Home.handleSaveVersion.
    rewrite Hp, Hg. destruct image as [|c d]; [reflexivity|].
    apply versions_include_In in Hin. rewrite Hin. reflexivity.
  - intros s s'. subst s'.
    destruct (Home.activePage s) as [p|] eqn:Hp.
    2:{ unfold Home.handleSaveVersion. rewrite Hp. rewrite Hp. reflexivity. }
    destruct (generatedImage p) as [[|c d]|] eqn:Hg.
    + unfold Home.handleSaveVersion. rewrite Hp, Hg. rewrite Hp, Hg. reflexivity.
    + destruct (Home.versions_include (versions p) (String c d)) eqn:Hv.
      * unfold Home.handleSaveVersion. rewrite Hp, Hg, Hv. rewrite Hp, Hg, Hv.
        reflexivity.
      * pose proof (save_new_version s p c d Hp Hg Hv) as Hp'.
        set (s' := Home.handleSaveVersion s s) in *.
        unfold Home.handleSaveVersion at 1. rewrite Hp'.
        cbn [spread_page generatedImage versions default upd_generatedImage
             upd_versions]. unfold Datatypes.id.
        rewrite Hg, versions_include_snoc. reflexivity.
    + unfold Home.handleSaveVersion. rewrite Hp, Hg. rewrite Hp, Hg. reflexivity.
  - intros s p image Hp Hg Hne Hnin.
    destruct image as [|c d]; [congruence|].
    assert (Hv : Home.versions_include (versions p) (String c d) = false).
    { destruct (Home.versions_include (versions p) (String c d)) eqn:Hv;
        [|reflexivity]. apply versions_include_In in Hv. contradiction. }
    eexists. split; [apply (save_new_version s p c d Hp Hg Hv)|].
    split; [reflexivity | exact Hg].
Qed.

Lemma save_version_idempotent_witness :
  (Home.activePage (Home.handleSaveVersion ex_home_drawn ex_home_drawn) =
     Some (spread_page ex_drawn
             {| upd_name := None; upd_keywords := None; upd_instructions := None;
                upd_generatedImage := None;
                upd_versions :=
                  Some ["data:image/png;base64,BBBB"; "data:image/png;base64,AAAA"];
                upd_contextPageIds := None |})
   /\ In "data:image/png;base64,AAAA"
        ["data:image/png;base64,BBBB"; "data:image/png;base64,AAAA"])
  /\ Home.handleSaveVersion
       (Home.handleSaveVersion ex_home_drawn ex_home_drawn)
       (Home.handleSaveVersion ex_home_drawn ex_home_drawn) =
     Home.handleSaveVersion ex_home_drawn ex_home_drawn.
Proof.
  split; [split; [reflexivity | right; left; reflexivity]|].
  eapply (proj1 save_version_idempotent
            (Home.handleSaveVersion ex_home_drawn ex_home_drawn) _
            "data:image/png;base64,AAAA").
  - reflexivity.
  - reflexivity.
  - right; left; reflexivity.
Defined.

(** The index filter leaves a list alone when the index is not one of its
    positions. *)
Lemma filter_index_ne_from_out {A : Type} (l : list A) (n : nat) (k : Z) :
  k < Z.of_nat n \/ Z.of_nat n + Z.of_nat (length l) <= k ->
  filter_index_ne_from n k l = l.
Proof.
  revert n. induction l as [|x l IH]; intros n Hk; [reflexivity|].
  cbn [filter_index_ne_from]. cbn [length] in Hk.
  rewrite bool_decide_eq_false_2 by lia.
  f_equal. apply IH. lia.
Qed.

(** Otherwise it takes out the element at that position. *)
Lemma filter_index_ne_from_in {A : Type} (l : list A) (n : nat) (k : Z) :
  Z.of_nat n <= k < Z.of_nat n + Z.of_nat (length l) ->
  filter_index_ne_from n k l = delete (Z.to_nat k - n)%nat l.
Proof.
  revert n. induction l as [|x l IH]; intros n Hk; [cbn in Hk; lia|].
  cbn [filter_index_ne_from]. cbn [length] in Hk.
  destruct (decide (Z.of_nat n = k)) as [Heq|Hne].
  - rewrite bool_decide_eq_true_2 by exact Heq.
    replace (Z.to_nat k - n)%nat with 0%nat by lia.
    cbn. apply filter_index_ne_from_out. lia.
  - rewrite bool_decide_eq_false_2 by exact Hne.
    replace (Z.to_nat k - n)%nat with (S (Z.to_nat k - S n)) by lia.
    cbn. f_equal. apply IH. lia.
Qed.

Lemma filter_index_ne_delete {A : Type} (l : list A) (k : Z) :
  0 <= k < Z.of_nat (length l) ->
  filter_index_ne k l = delete (Z.to_nat k) l.
Proof.
  intros Hk. unfold filter_index_ne.
  rewrite filter_index_ne_from_in by lia. f_equal. lia.
Qed.

(** What a confirmed deletion of a page other than the first does. *)
Lemma delete_page_effect (confirm : string -> bool) (s : Home.HomeState)
    (indexToDelete : Z) (page : Page) :
  indexToDelete <> 0 ->
  js_get (Home.pages s) indexToDelete = Some page ->
  confirm (Home.confirm_delete_text (name page)) = true ->
  Home.handleDeletePage confirm s indexToDelete s =
    Returned
      (Home.setPages (fun _ => delete (Z.to_nat indexToDelete) (Home.pages s))
         (Home.setActivePageIndex
            (if Z.eqb indexToDelete (Home.activePageIndex s)
             then Z.max 0 (indexToDelete - 1)
             else if Z.ltb indexToDelete (Home.activePageIndex s)
                  then Home.activePageIndex s - 1
                  else Home.activePageIndex s) s)).
Proof.
  intros Hne Hpage Hyes. unfold Home.handleDeletePage.
  rewrite (proj2 (Z.eqb_neq _ _) Hne), Hpage, Hyes. cbn [negb]. cbv zeta.
  unfold Home.setPages. cbn [Home.pages Home.setActivePageIndex].
  rewrite filter_index_ne_delete by (apply js_get_Some in Hpage; exact Hpage).
  reflexivity.
Qed.

(** C10. Deleting a page keeps [activePageIndex] a valid index of [pages]:
    if it is one before [handleDeletePage], it is one after, whatever the
    index asked for and whatever the user answers; and unless the deleted
    page was the active one, the active page is the page it was.  A
    confirmed deletion of an existing page other than the first does take
    that page out. *)
Theorem delete_page_keeps_active_index
    (confirm : string -> bool) (s : Home.HomeState) (indexToDelete : Z) :
  0 <= Home.activePageIndex s < Z.of_nat (length (Home.pages s)) ->
  let s' := store_of (Home.handleDeletePage confirm s indexToDelete s) in
  0 <= Home.activePageIndex s' < Z.of_nat (length (Home.pages s'))
  /\ (indexToDelete <> Home.activePageIndex s ->
      Home.activePage s' = Home.activePage s)
  /\ (forall page,
        indexToDelete <> 0 ->
        js_get (Home.pages s) indexToDelete = Some page ->
        confirm (Home.confirm_delete_text (name page)) = true ->
        Home.handleDeletePage confirm s indexToDelete s = Returned s'
        /\ Home.pages s' = delete (Z.to_nat indexToDelete) (Home.pages s)
        /\ Z.of_nat (length (Home.pages s')) =
             Z.of_nat (length (Home.pages s)) - 1).
Proof.
  intros Hvalid s'.
  destruct (Z.eq_dec indexToDelete 0) as [H0|H0].
  { subst s'. unfold Home.handleDeletePage.
    rewrite (proj2 (Z.eqb_eq _ _) H0). cbn [store_of].
    split; [exact Hvalid|]. split; [reflexivity|]. intros; contradiction. }
  destruct (js_get (Home.pages s) indexToDelete) as [page|] eqn:Hpage.
  2:{ subst s'. unfold Home.handleDeletePage.
      rewrite (proj2 (Z.eqb_neq _ _) H0), Hpage. cbn [store_of].
      split; [exact Hvalid|]. split; [reflexivity|]. intros; discriminate. }
  destruct (confirm (Home.confirm_delete_text (name page))) eqn:Hyes.
  2:{ subst s'. unfold Home.handleDeletePage.
      rewrite (proj2 (Z.eqb_neq _ _) H0), Hpage, Hyes. cbn [negb store_of].
      split; [exact Hvalid|]. split; [reflexivity|].
      intros page' _ Hpage' Hyes'. congruence. }
  pose proof (js_get_Some _ _ _ Hpage) as Hrange.
  assert (Hsome : is_Some (Home.pages s !! Z.to_nat indexToDelete)).
  { apply lookup_lt_is_Some. lia. }
  pose proof (length_delete (Home.pages s) (Z.to_nat indexToDelete) Hsome) as Hlen.
  subst s'. rewrite (delete_page_effect confirm s indexToDelete page H0 Hpage Hyes).
  cbn [store_of]. unfold Home.activePage, Home.setPages.
  cbn [Home.pages Home.activePageIndex Home.setActivePageIndex].
  split; [|split].
  - rewrite Hlen.
    destruct (Z.eqb_spec indexToDelete (Home.activePageIndex s)); [lia|].
    destruct (Z.ltb_spec indexToDelete (Home.activePageIndex s)); lia.
  - intros Hother.
    destruct (Z.eqb_spec indexToDelete (Home.activePageIndex s)); [contradiction|].
    unfold js_get.
    destruct (Z.ltb_spec indexToDelete (Home.activePageIndex s)).
    + destruct (decide (0 <= Home.activePageIndex s - 1)); [|lia].
      destruct (decide (0 <= Home.activePageIndex s)); [|lia].
      rewrite list_lookup_delete_ge by lia. f_equal. lia.
    + destruct (decide (0 <= Home.activePageIndex s)); [|lia].
      rewrite list_lookup_delete_lt by lia. reflexivity.
  - intros page' _ _ _. split; [reflexivity|]. split; [reflexivity|].
    rewrite Hlen. lia.
Qed.

Lemma delete_page_keeps_active_index_witness :
  0 <= Home.activePageIndex ex_home < Z.of_nat (length (Home.pages ex_home))
  /\ Home.activePage
       (store_of (Home.handleDeletePage ex_confirm ex_home 1 ex_home)) =
     Home.activePage ex_home.
Proof.
  split; [cbn; lia|].
  apply (delete_page_keeps_active_index ex_confirm ex_home 1).
  - cbn; lia.
  - cbn; lia.
Defined.

(** The [useState]-based editor treats a response without image the same
    way: the pages and the active index are, after the rest of the handler,
    what they were when it was resumed. *)
Lemma home_no_image_leaves_pages
    (parseError : string -> string) (blank_png : Z -> Z -> string)
    (null_context_message : string) (r : Home.HomeState) (canvas : option Canvas)
    (context2d : bool) (mode : Mode) (w w1 : Home.HomeState) (request : Request)
    (resume : BackendResult -> Home.HomeState -> Home.HomeState)
    (response : GenerateContentResponse) :
  Home.generateMindMap parseError blank_png null_context_message r canvas
    context2d mode w = Awaiting w1 request resume ->
  no_image_payload response ->
  forall w',
    Home.pages (resume (Resolved response) w') = Home.pages w'
    /\ Home.activePageIndex (resume (Resolved response) w') =
         Home.activePageIndex w'
    /\ Home.errorMessage (resume (Resolved response) w') = no_image_message.
Proof.
  intros Hrun Hno. unfold Home.generateMindMap in Hrun.
  destruct (Home.activePage r) as [p|]; [|discriminate].
  destruct (negb (String.eqb (id p) "master") && Nat.eqb (length (keywords p)) 0);
    [discriminate|].
  cbv zeta in Hrun. split_drawing_data; [|discriminate].
  injection Hrun as _ _ <-. intros w'.
  destruct Hno as [-> | ->]; repeat split.
Qed.

(** ** More on the edit history *)

Lemma undo_timeline (st : AppState) :
  timeline (editor (appReducer st UNDO)) = timeline (editor st)
  /\ with_editor st (editor (appReducer st UNDO)) = appReducer st UNDO.
Proof.
  destruct (past (editor st)) as [|x l] eqn:Hp.
  - assert (H : appReducer st UNDO = st)
      by (cbn [appReducer]; rewrite Hp; reflexivity).
    rewrite H. split; [reflexivity | apply with_editor_same].
  - assert (Hne : past (editor st) <> []) by (rewrite Hp; discriminate).
    destruct (exists_last Hne) as [older [previous Hp']].
    rewrite (undo_snoc st older previous Hp').
    cbn [editor with_editor]. split; [|reflexivity].
    unfold timeline. cbn [past present future]. rewrite Hp'.
    rewrite <- app_assoc. reflexivity.
Qed.

Lemma redo_timeline (st : AppState) :
  timeline (editor (appReducer st REDO)) = timeline (editor st)
  /\ with_editor st (editor (appReducer st REDO)) = appReducer st REDO.
Proof.
  destruct (future (editor st)) as [|next later] eqn:Hf.
  - assert (H : appReducer st REDO = st)
      by (cbn [appReducer]; rewrite Hf; reflexivity).
    rewrite H. split; [reflexivity | apply with_editor_same].
  - rewrite (redo_cons st next later Hf).
    cbn [editor with_editor]. split; [|reflexivity].
    unfold timeline. cbn [past present future]. rewrite Hf.
    rewrite <- app_assoc. reflexivity.
Qed.

(** X1. Undo and Redo move the cursor along the timeline and do nothing else:
    the snapshots and their order stay, and so does the rest of the state. *)
Theorem undo_redo_keep_timeline (st : AppState) :
  (timeline (editor (appReducer st UNDO)) = timeline (editor st)
   /\ with_editor st (editor (appReducer st UNDO)) = appReducer st UNDO)
  /\ (timeline (editor (appReducer st REDO)) = timeline (editor st)
      /\ with_editor st (editor (appReducer st REDO)) = appReducer st REDO).
Proof. split; [apply undo_timeline | apply redo_timeline]. Qed.

(** X2. One Undo takes back one Redo. *)
Theorem undo_after_redo (st : AppState) :
  future (editor st) <> [] -> appReducer (appReducer st REDO) UNDO = st.
Proof.
  intros Hne. destruct (future (editor st)) as [|next later] eqn:Hf;
    [contradiction|].
  rewrite (redo_cons st next later Hf).
  erewrite undo_snoc by reflexivity.
  cbn [editor with_editor past present future]. rewrite with_editor_twice.
  rewrite <- Hf. destruct st as [? ? ? ? [? ? ?] ? ? ? ?]; reflexivity.
Qed.

Lemma undo_after_redo_witness :
  future (editor ex_midway) <> []
  /\ appReducer (appReducer ex_midway REDO) UNDO = ex_midway.
Proof.
  assert (H : future (editor ex_midway) <> []) by (vm_compute; discriminate).
  split; [exact H | exact (undo_after_redo ex_midway H)].
Defined.

Lemma undo_all (n : nat) (st : AppState) :
  (length (past (editor st)) <= n)%nat ->
  past (editor (dispatch_all st (repeat UNDO n))) = []
  /\ present (editor (dispatch_all st (repeat UNDO n)))
       :: future (editor (dispatch_all st (repeat UNDO n))) =
     timeline (editor st).
Proof.
  revert st. induction n as [|n IH]; intros st Hn.
  - cbn [repeat dispatch_all fold_left].
    destruct (past (editor st)) eqn:Hp; [|cbn in Hn; lia].
    unfold timeline. rewrite Hp. split; reflexivity.
  - cbn [repeat]. unfold dispatch_all in *. cbn [fold_left].
    destruct (IH (appReducer st UNDO)) as [H1 H2];
      [rewrite undo_past_length; lia|].
    rewrite H1, H2. split; [reflexivity|].
    apply (undo_timeline st).
Qed.

Lemma redo_future_length (st : AppState) :
  length (future (editor (appReducer st REDO))) =
    (length (future (editor st)) - 1)%nat.
Proof.
  destruct (future (editor st)) as [|next later] eqn:Hf.
  - cbn [appReducer]. rewrite Hf. cbn. rewrite Hf. reflexivity.
  - rewrite (redo_cons st next later Hf). cbn [editor with_editor future length].
    lia.
Qed.

Lemma redo_all (n : nat) (st : AppState) :
  (length (future (editor st)) <= n)%nat ->
  future (editor (dispatch_all st (repeat REDO n))) = []
  /\ past (editor (dispatch_all st (repeat REDO n)))
       ++ [present (editor (dispatch_all st (repeat REDO n)))] =
     timeline (editor st).
Proof.
  revert st. induction n as [|n IH]; intros st Hn.
  - cbn [repeat dispatch_all fold_left].
    destruct (future (editor st)) eqn:Hf; [|cbn in Hn; lia].
    unfold timeline. rewrite Hf. split; reflexivity.
  - cbn [repeat]. unfold dispatch_all in *. cbn [fold_left].
    destruct (IH (appReducer st REDO)) as [H1 H2];
      [rewrite redo_future_length; lia|].
    rewrite H1, H2. split; [reflexivity|].
    apply (redo_timeline st).
Qed.

(** X3. Undo and Redo stop at the ends of the timeline.  As many Undos as
    [past] is long, or more, lead to the oldest snapshot with everything
    else in [future]; as many Redos as [future] is long, or more, lead to
    the newest snapshot with everything else in [past]. *)
Theorem undo_redo_saturate (n : nat) (st : AppState) :
  ((length (past (editor st)) <= n)%nat ->
   let st' := dispatch_all st (repeat UNDO n) in
   past (editor st') = []
   /\ present (editor st') :: future (editor st') = timeline (editor st))
  /\ ((length (future (editor st)) <= n)%nat ->
      let st' := dispatch_all st (repeat REDO n) in
      future (editor st') = []
      /\ past (editor st') ++ [present (editor st')] = timeline (editor st)).
Proof. split; intros Hn; [apply undo_all | apply redo_all]; exact Hn. Qed.

Lemma undo_redo_saturate_witness :
  (length (past (editor ex_midway)) <= 5)%nat
  /\ past (editor (dispatch_all ex_midway (repeat UNDO 5))) = []
  /\ (length (future (editor ex_midway)) <= 5)%nat
  /\ future (editor (dispatch_all ex_midway (repeat REDO 5))) = [].
Proof.
  assert (H1 : (length (past (editor ex_midway)) <= 5)%nat) by (vm_compute; lia).
  assert (H2 : (length (future (editor ex_midway)) <= 5)%nat) by (vm_compute; lia).
  split; [exact H1|]. split.
  - exact (proj1 (proj1 (undo_redo_saturate 5 ex_midway) H1)).
  - split; [exact H2|].
    exact (proj1 (proj2 (undo_redo_saturate 5 ex_midway) H2)).
Defined.

(** X4. A commit that takes effect forgets the redo branch for good: the Undo
    that follows gives back [present] and [past] as they were, and
    [future] holds the committed snapshot alone, whatever it held before. *)
Theorem commit_then_undo (st : AppState) (payload : PartialEditorState) :
  commit_changes st payload = true ->
  appReducer (appReducer st (UPDATE_EDITOR_STATE payload)) UNDO =
    with_editor st
      {| past := past (editor st); present := present (editor st);
         future := [spread_state (present (editor st)) payload] |}.
Proof.
  intros Hc. rewrite (commit_effective st payload Hc).
  erewrite undo_snoc by reflexivity. reflexivity.
Qed.

Lemma commit_then_undo_witness :
  commit_changes ex_midway (select_page 0) = true
  /\ future
       (editor
          (appReducer (appReducer ex_midway (UPDATE_EDITOR_STATE (select_page 0)))
             UNDO)) =
     [spread_state (present (editor ex_midway)) (select_page 0)].
Proof.
  assert (H : commit_changes ex_midway (select_page 0) = true)
    by (vm_compute; reflexivity).
  split; [exact H|].
  rewrite (commit_then_undo ex_midway (select_page 0) H). reflexivity.
Defined.

(** ** Handlers of the [useState]-based editor *)

Lemma js_get_map_at_other {A : Type} (f : A -> A) (l : list A) (k j : Z) :
  j <> k -> js_get (map_at k f l) j = js_get l j.
Proof.
  intros Hne. unfold js_get, map_at. destruct (decide (0 <= j)); [|reflexivity].
  rewrite list_lookup_imap. destruct (l !! Z.to_nat j); [|reflexivity].
  cbn. rewrite bool_decide_eq_false_2 by lia. reflexivity.
Qed.

Lemma map_at_length {A : Type} (f : A -> A) (l : list A) (k : Z) :
  length (map_at k f l) = length l.
Proof. unfold map_at. apply length_imap. Qed.

(** What [updateActivePage] does when fired from the screen: the active
    page takes the update. *)
Lemma update_active_page (s : Home.HomeState) (p : Page) (u : PartialPage) :
  Home.activePage s = Some p ->
  Home.activePage (Home.updateActivePage s u s) = Some (spread_page p u).
Proof.
  intros Hp. unfold Home.updateActivePage, Home.activePage, Home.setPages.
  cbn [Home.pages Home.activePageIndex].
  exact (js_get_map_at_same _ _ _ _ Hp).
Qed.

Lemma toggle_index_In (l : list Z) (index j : Z) :
  In j (Home.toggle_index l index) <->
  (if Z.eqb j index then ~ In index l else In j l).
Proof.
  unfold Home.toggle_index.
  destruct (existsb (Z.eqb index) l) eqn:He.
  - assert (Hin : In index l).
    { apply existsb_exists in He as [x [Hx Heq]].
      apply Z.eqb_eq in Heq. now subst. }
    rewrite filter_In. destruct (Z.eqb_spec j index) as [->|Hne].
    + cbn. split; [intros [_ H]; discriminate | tauto].
    + cbn. tauto.
  - assert (Hnin : ~ In index l).
    { intros Hin. assert (existsb (Z.eqb index) l = true); [|congruence].
      apply existsb_exists. exists index. split; [exact Hin | apply Z.eqb_refl]. }
    rewrite in_app_iff. cbn [In]. destruct (Z.eqb_spec j index) as [->|Hne].
    + tauto.
    + split; [intros [H|[H|[]]]; [exact H | congruence] | tauto].
Qed.

Lemma toggle_index_NoDup (l : list Z) (index : Z) :
  NoDup l -> NoDup (Home.toggle_index l index).
Proof.
  intros Hnd. unfold Home.toggle_index.
  destruct (existsb (Z.eqb index) l) eqn:He.
  - apply NoDup_ListNoDup, List.NoDup_filter, NoDup_ListNoDup, Hnd.
  - apply NoDup_app. split; [exact Hnd|]. split.
    + intros x Hx Hx'. apply list_elem_of_In in Hx'. destruct Hx' as [Heq|[]].
      subst x. assert (existsb (Z.eqb index) l = true); [|congruence].
      apply existsb_exists. exists index. split; [|apply Z.eqb_refl].
      now apply list_elem_of_In.
    + apply NoDup_singleton.
Qed.

Lemma toggle_index_toggled (l : list Z) (index : Z) :
  toggled index l (Home.toggle_index l index).
Proof.
  split; [|split].
  - rewrite toggle_index_In, Z.eqb_refl. tauto.
  - intros j Hne. rewrite toggle_index_In.
    rewrite (proj2 (Z.eqb_neq _ _) Hne). tauto.
  - apply toggle_index_NoDup.
Qed.

Lemma toggle_index_twice (l : list Z) (index : Z) :
  ~ In index l ->
  Home.toggle_index (Home.toggle_index l index) index = l.
Proof.
  intros Hnin.
  assert (He : existsb (Z.eqb index) l = false).
  { destruct (existsb (Z.eqb index) l) eqn:He; [|reflexivity].
    apply existsb_exists in He as [x [Hx Heq]].
    apply Z.eqb_eq in Heq. now subst. }
  unfold Home.toggle_index at 2. rewrite He.
  unfold Home.toggle_index. rewrite existsb_app. cbn [existsb].
  rewrite Z.eqb_refl, orb_true_r. rewrite List.filter_app. cbn [List.filter].
  rewrite Z.eqb_refl. cbn [negb]. rewrite app_nil_r.
  apply forallb_filter_id. apply forallb_forall. intros x Hx.
  apply negb_true_iff, Z.eqb_neq. intros ->. contradiction.
Qed.

(** X5. A click on a keyword or an instruction flips its focus and nothing
    else: the index is under focus afterwards exactly when it was not
    before, every other index keeps its status, a list without repetition
    stays so, the other kind of focus and the document are untouched, and
    two clicks on an item that was not under focus give the list back. *)
Theorem toggle_focus_flips (type : Home.FocusType) (index : Z) (w : Home.HomeState) :
  let w' := Home.handleToggleFocus type index w in
  Home.pages w' = Home.pages w
  /\ Home.activePageIndex w' = Home.activePageIndex w
  /\ match type with
     | Home.keyword =>
         focus_instructions (Home.focusedItems w') =
           focus_instructions (Home.focusedItems w)
         /\ toggled index (focus_keywords (Home.focusedItems w))
              (focus_keywords (Home.focusedItems w'))
         /\ (~ In index (focus_keywords (Home.focusedItems w)) ->
             Home.focusedItems (Home.handleToggleFocus type index w') =
               Home.focusedItems w)
     | Home.instruction =>
         focus_keywords (Home.focusedItems w') =
           focus_keywords (Home.focusedItems w)
         /\ toggled index (focus_instructions (Home.focusedItems w))
              (focus_instructions (Home.focusedItems w'))
         /\ (~ In index (focus_instructions (Home.focusedItems w)) ->
             Home.focusedItems (Home.handleToggleFocus type index w') =
               Home.focusedItems w)
     end.
Proof.
  intros w'. subst w'. split; [reflexivity|]. split; [reflexivity|].
  destruct type; cbn [Home.handleToggleFocus Home.setFocusedItems
                        Home.focusedItems focus_keywords focus_instructions].
  - split; [reflexivity|]. split; [apply toggle_index_toggled|].
    intros Hnin. rewrite (toggle_index_twice _ _ Hnin).
    destruct (Home.focusedItems w); reflexivity.
  - split; [reflexivity|]. split; [apply toggle_index_toggled|].
    intros Hnin. rewrite (toggle_index_twice _ _ Hnin).
    destruct (Home.focusedItems w); reflexivity.
Qed.

Lemma toggle_focus_flips_witness :
  ~ In 2 (focus_keywords (Home.focusedItems ex_home_focused))
  /\ Home.focusedItems
       (Home.handleToggleFocus Home.keyword 2
          (Home.handleToggleFocus Home.keyword 2 ex_home_focused)) =
     Home.focusedItems ex_home_focused.
Proof.
  assert (H : ~ In 2 (focus_keywords (Home.focusedItems ex_home_focused))).
  { cbn. intros [H|[H|[]]]; discriminate. }
  split; [exact H|].
  exact (proj2 (proj2 (proj2 (proj2
           (toggle_focus_flips Home.keyword 2 ex_home_focused)))) H).
Defined.

Lemma filter_index_ne_removed_at {A : Type} (k : Z) (l : list A) :
  removed_at k l (filter_index_ne k l).
Proof.
  unfold removed_at. destruct (decide (0 <= k < Z.of_nat (length l))) as [Hk|Hk].
  - rewrite filter_index_ne_delete by exact Hk. split.
    + rewrite length_delete by (apply lookup_lt_is_Some; lia). lia.
    + intros i. unfold js_get. destruct (Z.ltb_spec i k).
      * destruct (decide (0 <= i)); [|reflexivity].
        apply list_lookup_delete_lt. lia.
      * destruct (decide (0 <= i)); [|lia].
        destruct (decide (0 <= i + 1)); [|lia].
        rewrite list_lookup_delete_ge by lia. f_equal. lia.
  - unfold filter_index_ne. apply filter_index_ne_from_out.
    cbn [Z.of_nat]. lia.
Qed.

(** X6. Deleting a keyword or an instruction leaves the focus sets as they
    are.  The page loses the item at that index, if it has one, and the
    items after it move down by one index, so an index under focus at or
    after the deleted one now designates the item that followed. *)
Theorem delete_item_keeps_focus (s : Home.HomeState) (indexToDelete : Z) (p : Page) :
  Home.activePage s = Some p ->
  (let s' := store_of (Home.handleDeleteKeyword s indexToDelete s) in
   Home.focusedItems s' = Home.focusedItems s
   /\ exists p',
        Home.activePage s' = Some p'
        /\ removed_at indexToDelete (keywords p) (keywords p')
        /\ instructions p' = instructions p)
  /\ (let s' := store_of (Home.handleDeleteInstruction s indexToDelete s) in
      Home.focusedItems s' = Home.focusedItems s
      /\ exists p',
           Home.activePage s' = Some p'
           /\ removed_at indexToDelete (instructions p) (instructions p')
           /\ keywords p' = keywords p).
Proof.
  intros Hp. split.
  - unfold Home.handleDeleteKeyword. rewrite Hp. cbn [store_of].
    split; [reflexivity|]. eexists. split; [apply (update_active_page s p _ Hp)|].
    split; [apply filter_index_ne_removed_at | reflexivity].
  - unfold Home.handleDeleteInstruction. rewrite Hp. cbn [store_of].
    split; [reflexivity|]. eexists. split; [apply (update_active_page s p _ Hp)|].
    split; [apply filter_index_ne_removed_at | reflexivity].
Qed.

Lemma delete_item_keeps_focus_witness :
  Home.activePage ex_home_focused = Some ex_ideas
  /\ Home.focusedItems
       (store_of (Home.handleDeleteKeyword ex_home_focused 0 ex_home_focused)) =
     Home.focusedItems ex_home_focused.
Proof.
  split; [reflexivity|].
  exact (proj1 (proj1 (delete_item_keeps_focus ex_home_focused 0 ex_ideas eq_refl))).
Defined.

(** X7. Restoring a version makes it the current image and leaves the list of
    versions alone, so the save that follows has nothing to add; an index
    that designates no version restores nothing. *)
Theorem restore_then_save (s : Home.HomeState) (versionIndex : Z) (p : Page) :
  Home.activePage s = Some p ->
  let s1 := Home.handleRestoreVersion s versionIndex s in
  (js_get (versions p) versionIndex = None -> s1 = s)
  /\ (forall v,
        js_get (versions p) versionIndex = Some v -> v <> EmptyString ->
        (exists p1,
           Home.activePage s1 = Some p1
           /\ generatedImage p1 = Some v
           /\ versions p1 = versions p)
        /\ Home.handleSaveVersion s1 s1 = s1).
Proof.
  intros Hp s1. subst s1. unfold Home.handleRestoreVersion. rewrite Hp. split.
  - intros ->. reflexivity.
  - intros v Hv Hne. rewrite Hv. destruct v as [|c d]; [congruence|].
    pose proof (update_active_page s p
                  (Home.only_generatedImage (Some (String c d))) Hp) as Hp1.
    split.
    + eexists. split; [exact Hp1|]. split; reflexivity.
    + unfold Home.handleSaveVersion. rewrite Hp1.
      cbn [spread_page generatedImage versions default
           Home.only_generatedImage upd_generatedImage upd_versions].
      unfold Datatypes.id.
      assert (Hin : Home.versions_include (versions p) (String c d) = true).
      { apply versions_include_In.
        unfold js_get in Hv. destruct (decide (0 <= versionIndex)); [|discriminate].
        apply list_elem_of_In. eapply list_elem_of_lookup_2. exact Hv. }
      rewrite Hin. reflexivity.
Qed.

Lemma restore_then_save_witness :
  (Home.activePage ex_home_drawn = Some ex_drawn
   /\ js_get (versions ex_drawn) 0 = Some "data:image/png;base64,BBBB")
  /\ Home.handleSaveVersion
       (Home.handleRestoreVersion ex_home_drawn 0 ex_home_drawn)
       (Home.handleRestoreVersion ex_home_drawn 0 ex_home_drawn) =
     Home.handleRestoreVersion ex_home_drawn 0 ex_home_drawn.
Proof.
  split; [split; reflexivity|].
  apply (proj2 (restore_then_save ex_home_drawn 0 ex_drawn eq_refl)
           "data:image/png;base64,BBBB"); [reflexivity | discriminate].
Defined.

(** X8. Deleting a version takes the version at that index, if there is one,
    out of the list and never touches the current image, not even when
    the deleted version is the current image. *)
Theorem delete_version_keeps_image (s : Home.HomeState) (indexToDelete : Z) (p : Page) :
  Home.activePage s = Some p ->
  let s' := store_of (Home.handleDeleteVersion s indexToDelete s) in
  exists p',
    Home.activePage s' = Some p'
    /\ generatedImage p' = generatedImage p
    /\ removed_at indexToDelete (versions p) (versions p').
Proof.
  intros Hp s'. subst s'. unfold Home.handleDeleteVersion. rewrite Hp.
  cbn [store_of]. eexists. split; [apply (update_active_page s p _ Hp)|].
  split; [reflexivity | apply filter_index_ne_removed_at].
Qed.

Lemma delete_version_keeps_image_witness :
  Home.activePage ex_home_drawn = Some ex_drawn
  /\ exists p',
       Home.activePage
         (store_of (Home.handleDeleteVersion ex_home_drawn 0 ex_home_drawn)) =
         Some p'
       /\ generatedImage p' = generatedImage ex_drawn
       /\ removed_at 0 (versions ex_drawn) (versions p').
Proof.
  split; [reflexivity|].
  exact (delete_version_keeps_image ex_home_drawn 0 ex_drawn eq_refl).
Defined.

Lemma map_at_fixed {A : Type} (f : A -> A) (l : list A) (k : Z) :
  (forall x, js_get l k = Some x -> f x = x) -> map_at k f l = l.
Proof.
  intros Hf. apply list_eq. intros i. unfold map_at.
  rewrite list_lookup_imap. destruct (l !! i) as [x|] eqn:Hx; [|reflexivity].
  cbn. destruct (decide (Z.of_nat i = k)) as [Hk|Hk].
  - rewrite bool_decide_eq_true_2 by exact Hk. f_equal. apply Hf.
    unfold js_get. destruct (decide (0 <= k)); [|lia].
    subst k. rewrite Nat2Z.id. exact Hx.
  - rewrite bool_decide_eq_false_2 by exact Hk. reflexivity.
Qed.

Lemma map_at_map_at {A : Type} (f g : A -> A) (l : list A) (k : Z) :
  map_at k g (map_at k f l) = map_at k (fun x => g (f x)) l.
Proof.
  apply list_eq. intros i. unfold map_at. rewrite !list_lookup_imap.
  destruct (l !! i) as [x|]; [|reflexivity]. cbn.
  destruct (bool_decide (Z.of_nat i = k)); reflexivity.
Qed.

Lemma array_includes_In (l : list string) (x : string) :
  Home.array_includes l x = true <-> In x l.
Proof.
  unfold Home.array_includes. rewrite existsb_exists. split.
  - intros [y [Hin Heq]]. apply String.eqb_eq in Heq. now subst.
  - intros Hin. exists x. split; [exact Hin | apply String.eqb_refl].
Qed.

Lemma array_includes_not_In (l : list string) (x : string) :
  Home.array_includes l x = false <-> ~ In x l.
Proof.
  rewrite <- array_includes_In. destruct (Home.array_includes l x); split;
    congruence.
Qed.

Lemma filter_ne_absent (l : list string) (x : string) :
  ~ In x l -> List.filter (fun id0 => negb (String.eqb id0 x)) l = l.
Proof.
  intros Hnin. apply forallb_filter_id, forallb_forall. intros y Hy.
  apply negb_true_iff, String.eqb_neq. intros ->. contradiction.
Qed.

(** X9. A page picked in the context selector joins the context list at its
    end, and the list goes on naming no page twice, nor the page itself,
    nor the master page. *)
Theorem add_context_keeps_list_ok (s : Home.HomeState) (p q : Page) :
  Home.activePage s = Some p ->
  In q (Home.context_options s p) ->
  context_ok p ->
  id q <> EmptyString ->
  exists p',
    Home.handleAddContext s (id q) s =
      Returned (Home.updateActivePage s
                  (Home.only_contextPageIds (contextPageIds p ++ [id q])) s)
    /\ Home.activePage (store_of (Home.handleAddContext s (id q) s)) = Some p'
    /\ contextPageIds p' = contextPageIds p ++ [id q]
    /\ id p' = id p
    /\ context_ok p'.
Proof.
  intros Hp Hq [Hnd [Hself Hmaster]] Hne.
  unfold Home.context_options in Hq. apply filter_In in Hq as [_ Hq].
  apply andb_true_iff in Hq as [Hq Hnew]. apply andb_true_iff in Hq as [Hq1 Hq2].
  apply negb_true_iff in Hq1, Hq2, Hnew.
  apply String.eqb_neq in Hq1, Hq2.
  assert (Hrun : Home.handleAddContext s (id q) s =
                 Returned (Home.updateActivePage s
                   (Home.only_contextPageIds (contextPageIds p ++ [id q])) s)).
  { unfold Home.handleAddContext. destruct (id q) as [|c d] eqn:Hid; [congruence|].
    cbn [truthy negb]. rewrite Hp, Hnew. reflexivity. }
  eexists. split; [exact Hrun|]. rewrite Hrun. cbn [store_of].
  split; [apply (update_active_page s p _ Hp)|].
  split; [reflexivity|]. split; [reflexivity|].
  apply array_includes_not_In in Hnew.
  unfold context_ok.
  cbn [spread_page contextPageIds id default Home.only_contextPageIds
       upd_contextPageIds]. unfold Datatypes.id.
  split; [|split].
  - apply NoDup_app. split; [exact Hnd|]. split; [|apply NoDup_singleton].
    intros x Hx Hx'. apply list_elem_of_In in Hx, Hx'.
    destruct Hx' as [<-|[]]. contradiction.
  - rewrite in_app_iff. cbn [In]. intros [H|[H|[]]]; [contradiction | congruence].
  - rewrite in_app_iff. cbn [In]. intros [H|[H|[]]]; [contradiction | congruence].
Qed.

Lemma add_context_keeps_list_ok_witness :
  (Home.activePage ex_home_ideas = Some ex_ideas
   /\ In ex_notes (Home.context_options ex_home_ideas ex_ideas)
   /\ context_ok ex_ideas
   /\ id ex_notes <> EmptyString)
  /\ exists p',
       Home.activePage
         (store_of (Home.handleAddContext ex_home_ideas (id ex_notes) ex_home_ideas)) =
         Some p'
       /\ contextPageIds p' = ["page-2"].
Proof.
  assert (Hopt : In ex_notes (Home.context_options ex_home_ideas ex_ideas))
    by (left; reflexivity).
  assert (Hok : context_ok ex_ideas).
  { split; [apply NoDup_nil_2 | split; intros []]. }
  assert (Hid : id ex_notes <> EmptyString) by discriminate.
  split; [split; [reflexivity | split; [exact Hopt | split; [exact Hok | exact Hid]]]|].
  destruct (add_context_keeps_list_ok ex_home_ideas ex_ideas ex_notes
              eq_refl Hopt Hok Hid) as [p' [_ [H1 [H2 _]]]].
  exists p'. split; [exact H1 | exact H2].
Defined.

(** X10. Removing a context page takes every occurrence of its id out of the
    list and leaves the other ids in their order; removing a page right
    after adding it gives back the state as it was. *)
Theorem remove_context_undoes_add (s : Home.HomeState) (p : Page) (pageId : string) :
  Home.activePage s = Some p ->
  (exists p1,
     Home.activePage (store_of (Home.handleRemoveContext s pageId s)) = Some p1
     /\ contextPageIds p1 =
          List.filter (fun id0 => negb (String.eqb id0 pageId)) (contextPageIds p)
     /\ ~ In pageId (contextPageIds p1))
  /\ (pageId <> EmptyString ->
      ~ In pageId (contextPageIds p) ->
      let s1 := store_of (Home.handleAddContext s pageId s) in
      store_of (Home.handleRemoveContext s1 pageId s1) = s).
Proof.
  intros Hp. split.
  - unfold Home.handleRemoveContext. rewrite Hp. cbn [store_of].
    eexists. split; [apply (update_active_page s p _ Hp)|].
    split; [reflexivity|].
    cbn [spread_page contextPageIds default Home.only_contextPageIds
         upd_contextPageIds]. unfold Datatypes.id.
    rewrite filter_In. intros [_ H]. rewrite String.eqb_refl in H. discriminate.
  - intros Hne Hnin s1. subst s1.
    assert (Hadd : Home.handleAddContext s pageId s =
                   Returned (Home.updateActivePage s
                     (Home.only_contextPageIds (contextPageIds p ++ [pageId])) s)).
    { unfold Home.handleAddContext. destruct pageId as [|c d]; [congruence|].
      cbn [truthy negb]. rewrite Hp.
      rewrite (proj2 (array_includes_not_In _ _) Hnin). reflexivity. }
    rewrite Hadd. cbn [store_of].
    unfold Home.handleRemoveContext.
    rewrite (update_active_page s p _ Hp). cbn [store_of].
    cbn [spread_page contextPageIds default Home.only_contextPageIds
         upd_contextPageIds]. unfold Datatypes.id.
    rewrite List.filter_app, (filter_ne_absent _ _ Hnin). cbn [List.filter].
    rewrite String.eqb_refl. cbn [negb]. rewrite app_nil_r.
    unfold Home.updateActivePage, Home.setPages.
    cbn [Home.pages Home.activePageIndex Home.isLoading Home.showErrorModal
         Home.errorMessage Home.selectedModel Home.focusedItems].
    rewrite map_at_map_at, map_at_fixed.
    + destruct s; reflexivity.
    + intros x Hx. unfold Home.activePage in Hp. rewrite Hp in Hx.
      injection Hx as <-. destruct p; reflexivity.
Qed.

Lemma remove_context_undoes_add_witness :
  (Home.activePage ex_home_ideas = Some ex_ideas
   /\ "page-2" <> EmptyString
   /\ ~ In "page-2" (contextPageIds ex_ideas))
  /\ store_of
       (Home.handleRemoveContext
          (store_of (Home.handleAddContext ex_home_ideas "page-2" ex_home_ideas))
          "page-2"
          (store_of (Home.handleAddContext ex_home_ideas "page-2" ex_home_ideas))) =
     ex_home_ideas.
Proof.
  assert (Hne : "page-2" <> EmptyString) by discriminate.
  assert (Hnin : ~ In "page-2" (contextPageIds ex_ideas)) by (intros []).
  split; [split; [reflexivity | split; [exact Hne | exact Hnin]]|].
  exact (proj2 (remove_context_undoes_add ex_home_ideas ex_ideas "page-2" eq_refl)
           Hne Hnin).
Defined.

Lemma js_get_snoc {A : Type} (l : list A) (x : A) :
  js_get (l ++ [x]) (Z.of_nat (length l)) = Some x.
Proof.
  unfold js_get. destruct (decide (0 <= Z.of_nat (length l))); [|lia].
  rewrite Nat2Z.id. rewrite lookup_app_r by lia.
  rewrite Nat.sub_diag. reflexivity.
Qed.

Lemma page_id_not_master (suffix : string) :
  String.eqb ("page-" +:+ suffix) "master" = false.
Proof. reflexivity. Qed.

Lemma truthy_false (s : string) : truthy s = false <-> s = EmptyString.
Proof. destruct s; cbn; split; congruence. Qed.

Lemma truthy_true (s : string) : truthy s = true <-> s <> EmptyString.
Proof. destruct s; cbn; split; congruence. Qed.

(** X11. Adding a page. A name that trims to nothing adds nothing.  Otherwise
    the page, whose id starts with "page-" and so is not the master id,
    goes to the end of the document and becomes the active page, the
    dialog closes and its field is emptied; the focus sets stay as they
    were, now read against the new page. *)
Theorem add_page_selects_it
    (trim : string -> string) (now : Z) (r : Home.HomeForm) :
  (trim (Home.newPageName r) = EmptyString ->
   Home.handleAddNewPage trim now r r = r)
  /\ (trim (Home.newPageName r) <> EmptyString ->
      let w' := Home.handleAddNewPage trim now r r in
      let newPage :=
        createNewPage ("page-" +:+ stringify_number now)
          (trim (Home.newPageName r)) in
      Home.pages (Home.home w') = Home.pages (Home.home r) ++ [newPage]
      /\ Home.activePage (Home.home w') = Some newPage
      /\ String.eqb (id newPage) "master" = false
      /\ Home.focusedItems (Home.home w') = Home.focusedItems (Home.home r)
      /\ Home.newPageName w' = EmptyString
      /\ Home.isPageModalOpen w' = false
      /\ Home.prompt w' = Home.prompt r).
Proof.
  split.
  - intros Hblank. unfold Home.handleAddNewPage. rewrite Hblank. reflexivity.
  - intros Hname w' newPage. subst w'. unfold Home.handleAddNewPage.
    apply truthy_true in Hname. rewrite Hname. cbn [negb]. cbv zeta.
    cbn [Home.setIsPageModalOpen Home.setNewPageName Home.with_home Home.home
         Home.setActivePageIndex Home.setPages Home.pages Home.activePageIndex
         Home.focusedItems Home.newPageName Home.isPageModalOpen Home.prompt].
    split; [reflexivity|]. split.
    + unfold Home.activePage. cbn [Home.pages Home.activePageIndex].
      apply js_get_snoc.
    + split; [apply page_id_not_master|]. repeat split.
Qed.

Lemma add_page_selects_it_witness :
  ex_same (Home.newPageName ex_form) <> EmptyString
  /\ Home.activePage (Home.home (Home.handleAddNewPage ex_same 1700000000000 ex_form ex_form)) =
     Some (createNewPage "page-1700000000000" "Plans").
Proof.
  assert (H : ex_same (Home.newPageName ex_form) <> EmptyString) by discriminate.
  split; [exact H|].
  exact (proj1 (proj2 (proj2 (add_page_selects_it ex_same 1700000000000 ex_form) H))).
Defined.

Lemma grown_nothing (p : Page) : grown p p [] [].
Proof. unfold grown. rewrite !app_nil_r. destruct p; reflexivity. Qed.

Lemma filter_truthy_nonempty (l : list string) :
  Forall (fun s => s <> EmptyString) (List.filter truthy l).
Proof.
  apply Forall_forall. intros x Hx. apply list_elem_of_In in Hx.
  apply filter_In in Hx as [_ Hx]. apply truthy_true, Hx.
Qed.

(** X12. Submitting the prompt field never adds an empty keyword or an empty
    instruction.  On the master page, or with a text that trims to
    nothing, it changes nothing at all.  Otherwise it empties the field
    and only the active page can change: it gains at the end of its lists
    either keywords or at most one instruction, none of them empty. *)
Theorem prompt_submit_adds_nonempty
    (trim toLowerCase : string -> string) (r : Home.HomeForm) (p : Page) :
  Home.activePage (Home.home r) = Some p ->
  exists w' p' added_keywords added_instructions,
    Home.handlePromptSubmit trim toLowerCase r r = Returned w'
    /\ Home.activePage (Home.home w') = Some p'
    /\ grown p p' added_keywords added_instructions
    /\ Forall (fun s => s <> EmptyString) added_keywords
    /\ Forall (fun s => s <> EmptyString) added_instructions
    /\ (added_keywords = [] \/ added_instructions = [])
    /\ (length added_instructions <= 1)%nat
    /\ (forall j, j <> Home.activePageIndex (Home.home r) ->
        js_get (Home.pages (Home.home w')) j = js_get (Home.pages (Home.home r)) j)
    /\ (String.eqb (id p) "master" = true \/ trim (Home.prompt r) = EmptyString ->
        w' = r)
    /\ (String.eqb (id p) "master" = false ->
        trim (Home.prompt r) <> EmptyString ->
        Home.prompt w' = EmptyString).
Proof.
  intros Hp. unfold Home.handlePromptSubmit. rewrite Hp.
  destruct (String.eqb (id p) "master") eqn:Hm.
  { exists r, p, [], []. split; [reflexivity|]. split; [exact Hp|].
    split; [apply grown_nothing|]. repeat split; auto; congruence. }
  destruct (truthy (trim (Home.prompt r))) eqn:Hv; cbn [negb].
  2:{ exists r, p, [], []. split; [reflexivity|]. split; [exact Hp|].
      split; [apply grown_nothing|]. apply truthy_false in Hv.
      repeat split; auto; congruence. }
  apply truthy_true in Hv. cbv zeta.
  destruct (String.prefix "i:" (toLowerCase (trim (Home.prompt r)))).
  - destruct (truthy (trim (Home.substring_from 2 (trim (Home.prompt r))))) eqn:Hi.
    + eexists _, _, [], [_]. split; [reflexivity|].
      cbn [Home.setPrompt Home.with_home Home.home].
      split; [apply (update_active_page _ p _ Hp)|].
      split; [unfold grown; rewrite app_nil_r; reflexivity|].
      split; [constructor|].
      split; [constructor; [apply truthy_true, Hi | constructor]|].
      split; [left; reflexivity|]. split; [cbn; lia|].
      split; [intros j Hj; apply js_get_map_at_other, Hj|].
      split; [intros [H|H]; congruence | reflexivity].
    + exists (Home.setPrompt EmptyString r), p, [], [].
      split; [reflexivity|]. split; [exact Hp|].
      split; [apply grown_nothing|].
      repeat split; auto. intros [H|H]; congruence.
  - destruct (nonempty (List.filter truthy
                (map trim (Home.split ";" (trim (Home.prompt r)))))) eqn:Hk.
    + eexists _, _,
        (List.filter truthy (map trim (Home.split ";" (trim (Home.prompt r))))), [].
      split; [reflexivity|].
      cbn [Home.setPrompt Home.with_home Home.home].
      split; [apply (update_active_page _ p _ Hp)|].
      split; [unfold grown; rewrite app_nil_r; reflexivity|].
      split; [apply filter_truthy_nonempty|].
      split; [constructor|].
      split; [right; reflexivity|]. split; [cbn; lia|].
      split; [intros j Hj; apply js_get_map_at_other, Hj|].
      split; [intros [H|H]; congruence | reflexivity].
    + exists (Home.setPrompt EmptyString r), p, [], [].
      split; [reflexivity|]. split; [exact Hp|].
      split; [apply grown_nothing|].
      repeat split; auto. intros [H|H]; congruence.
Qed.

Lemma prompt_submit_adds_nonempty_witness :
  Home.activePage (Home.home ex_form) = Some ex_ideas
  /\ exists p',
       Home.activePage
         (Home.home (store_of (Home.handlePromptSubmit ex_same ex_same ex_form ex_form))) =
         Some p'
       /\ keywords p' = ["Brain"; "Light"; "Sun"; "Moon"].
Proof.
  split; [reflexivity|].
  destruct (prompt_submit_adds_nonempty ex_same ex_same ex_form ex_ideas eq_refl)
    as [w' [p' [ks [ins [Hrun [Hp' _]]]]]].
  exists p'. rewrite Hrun. cbn [store_of]. split; [exact Hp'|].
  vm_compute in Hrun. injection Hrun as <-. vm_compute in Hp'.
  injection Hp' as <-. reflexivity.
Defined.

(** ** More on the prompt *)

Lemma fold_context_step (pages : list Page) (ids : list string) (acc : string) :
  fold_left (context_step pages) ids acc =
    acc +:+ concat_strings (map context_entry (resolve_context pages ids)).
Proof.
  revert acc. induction ids as [|pageId ids IH]; intros acc.
  - cbn. now rewrite append_nil_r.
  - cbn [fold_left]. rewrite IH. unfold context_step, resolve_context.
    cbn [omap list_omap].
    destruct (List.find (fun p => String.eqb (id p) pageId) pages) as [cp|].
    + cbn [map concat_strings fold_right]. apply append_assoc.
    + reflexivity.
Qed.

Lemma resolve_context_missing (pages : list Page) (ids : list string) :
  Forall (fun pageId =>
            List.find (fun p => String.eqb (id p) pageId) pages = None) ids ->
  resolve_context pages ids = [].
Proof.
  induction 1 as [|pageId ids Hnone _ IH]; [reflexivity|].
  unfold resolve_context in *. cbn [omap list_omap]. rewrite Hnone. exact IH.
Qed.

(** X13. The context clause is its opening sentence followed by one entry for
    each id of the list that designates a page, in the order of the list;
    an id that designates no page, such as the id of a deleted page, adds
    nothing.  The opening sentence is there as soon as the list is not
    empty: when no id designates a page the prompt of a regular page still
    holds it, with no entry after it. *)
Theorem context_clause_skips_missing_pages
    (pages : list Page) (activePage : Page) (mode : Mode)
    (focusedItems : FocusedItems) :
  context_clause pages activePage =
    context_header
    +:+ concat_strings
          (map context_entry (resolve_context pages (contextPageIds activePage)))
  /\ (String.eqb (id activePage) "master" = false ->
      contextPageIds activePage <> [] ->
      Forall (fun pageId =>
                List.find (fun p => String.eqb (id p) pageId) pages = None)
        (contextPageIds activePage) ->
      context_clause pages activePage = context_header
      /\ is_substring context_header
           (composePrompt pages activePage mode focusedItems)).
Proof.
  split; [apply fold_context_step|].
  intros Hm Hne Hall.
  assert (Hc : context_clause pages activePage = context_header).
  { unfold context_clause. rewrite fold_context_step.
    rewrite (resolve_context_missing _ _ Hall). cbn. apply append_nil_r. }
  split; [exact Hc|].
  rewrite page_prompt_layout by exact Hm. unfold layout.
  assert (Hn : nonempty (contextPageIds activePage) = true)
    by (destruct (contextPageIds activePage); [congruence | reflexivity]).
  rewrite Hn, Hc. cbn [when].
  do 3 apply is_substring_app_r. apply is_substring_app_l, is_substring_refl.
Qed.

Lemma context_clause_skips_missing_pages_witness :
  (String.eqb (id ex_orphan) "master" = false
   /\ contextPageIds ex_orphan <> [])
  /\ context_clause ex_pages ex_orphan = context_header.
Proof.
  assert (Hne : contextPageIds ex_orphan <> []) by discriminate.
  split; [split; [reflexivity | exact Hne]|].
  apply (proj2 (context_clause_skips_missing_pages ex_pages ex_orphan evolve no_focus)
           eq_refl Hne).
  repeat constructor.
Defined.

(** ** The dashboard *)

Lemma insert_by_lastModified_perm (a : Project) (l : list Project) :
  Permutation (insert_by_lastModified a l) (a :: l).
Proof.
  induction l as [|b l IH]; [reflexivity|].
  cbn [insert_by_lastModified].
  destruct (Z.leb (lastModified b - lastModified a) 0); [reflexivity|].
  rewrite IH. apply perm_swap.
Qed.

Lemma insert_by_lastModified_sorted (a : Project) (l : list Project) :
  StronglySorted (fun x y => lastModified y <= lastModified x) l ->
  StronglySorted (fun x y => lastModified y <= lastModified x)
    (insert_by_lastModified a l).
Proof.
  induction 1 as [|b l Hs IH Hb]; [repeat constructor|].
  cbn [insert_by_lastModified].
  destruct (Z.leb_spec (lastModified b - lastModified a) 0) as [Hle|Hgt].
  - constructor; [constructor; assumption|].
    constructor; [lia|]. eapply Forall_impl; [exact Hb|].
    cbn. intros y Hy. lia.
  - constructor; [exact IH|].
    rewrite insert_by_lastModified_perm. constructor; [lia | exact Hb].
Qed.

Lemma insert_by_lastModified_stable (t : Z) (a : Project) (l : list Project) :
  List.filter (fun p => Z.eqb (lastModified p) t) (insert_by_lastModified a l) =
  List.filter (fun p => Z.eqb (lastModified p) t) (a :: l).
Proof.
  induction l as [|b l IH]; [reflexivity|].
  cbn [insert_by_lastModified].
  destruct (Z.leb_spec (lastModified b - lastModified a) 0) as [Hle|Hgt];
    [reflexivity|].
  cbn [List.filter] in *. rewrite IH.
  destruct (Z.eqb_spec (lastModified a) t), (Z.eqb_spec (lastModified b) t);
    try reflexivity. lia.
Qed.

(** X14. The dashboard shows every project once, the last modified first, and
    projects modified at the same instant in the order they are stored. *)
Theorem dashboard_order (projects0 : list Project) :
  Permutation (sortedProjects projects0) projects0
  /\ StronglySorted (fun x y => lastModified y <= lastModified x)
       (sortedProjects projects0)
  /\ forall t,
       List.filter (fun p => Z.eqb (lastModified p) t) (sortedProjects projects0) =
       List.filter (fun p => Z.eqb (lastModified p) t) projects0.
Proof.
  induction projects0 as [|a l [IHp [IHs IHt]]].
  - split; [reflexivity|]. split; [constructor | reflexivity].
  - cbn [sortedProjects fold_right]. fold (sortedProjects l). split; [|split].
    + rewrite insert_by_lastModified_perm. now constructor.
    + apply insert_by_lastModified_sorted, IHs.
    + intros t. rewrite insert_by_lastModified_stable.
      cbn [List.filter]. rewrite IHt. reflexivity.
Qed.

Lemma findIndex_from_found {A : Type} (f : A -> bool) (l : list A) (n : nat) :
  (exists x, In x l /\ f x = true) ->
  exists k x,
    findIndex_from f n l = Z.of_nat (n + k)
    /\ l !! k = Some x /\ f x = true
    /\ forall j y, (j < k)%nat -> l !! j = Some y -> f y = false.
Proof.
  revert n. induction l as [|a l IH]; intros n [x [Hin Hx]]; [destruct Hin|].
  cbn [findIndex_from]. destruct (f a) eqn:Ha.
  - exists 0%nat, a. rewrite Nat.add_0_r. repeat split; auto.
    intros j y Hj. lia.
  - destruct Hin as [->|Hin]; [congruence|].
    destruct (IH (S n) (ex_intro _ x (conj Hin Hx))) as [k [y [Hk [Hy [Hfy Hfirst]]]]].
    exists (S k), y. split; [rewrite Hk; f_equal; lia|].
    split; [exact Hy|]. split; [exact Hfy|].
    intros j z Hj Hz. destruct j as [|j]; [cbn in Hz; congruence|].
    apply (Hfirst j z); [lia | exact Hz].
Qed.

(** X15. The card of a project opens the first stored project that has its id.
    With ids all different this is the project of the card: selecting it
    loads its pages into a fresh history.  With two projects of one id,
    the card of either opens the first of them. *)
Theorem card_opens_first_with_id (st : AppState) (project : Project) :
  In project (projects st) ->
  let index := originalIndex (projects st) project in
  exists opened,
    js_get (projects st) index = Some opened
    /\ project_id opened = project_id project
    /\ (forall j other,
          0 <= j < index -> js_get (projects st) j = Some other ->
          project_id other <> project_id project)
    /\ (NoDup (map project_id (projects st)) -> opened = project)
    /\ editor (appReducer st (SELECT_PROJECT index)) =
         {| past := [];
            present :=
              {| pages := map restore_page (project_pages opened);
                 activePageIndex := default 0 (project_activePageIndex opened) |};
            future := [] |}.
Proof.
  intros Hin index.
  destruct (findIndex_from_found
              (fun p => String.eqb (project_id p) (project_id project))
              (projects st) 0) as [k [opened [Hk [Hlook [Hid Hfirst]]]]].
  { exists project. split; [exact Hin | apply String.eqb_refl]. }
  assert (Hindex : index = Z.of_nat k) by (unfold index, originalIndex, findIndex; rewrite Hk; f_equal).
  assert (Hget : js_get (projects st) index = Some opened).
  { rewrite Hindex. unfold js_get. destruct (decide (0 <= Z.of_nat k)); [|lia].
    rewrite Nat2Z.id. exact Hlook. }
  apply String.eqb_eq in Hid.
  exists opened. split; [exact Hget|]. split; [exact Hid|]. split; [|split].
  - intros j other Hj Hother. unfold js_get in Hother.
    destruct (decide (0 <= j)); [|lia].
    apply String.eqb_neq. apply (Hfirst (Z.to_nat j) other); [lia | exact Hother].
  - intros Hnd. apply list_elem_of_In, list_elem_of_lookup in Hin as [k' Hk'].
    assert (k = k').
    { apply (NoDup_lookup _ k k' (project_id project) Hnd).
      - rewrite list_lookup_fmap, Hlook. cbn. f_equal. exact Hid.
      - rewrite list_lookup_fmap, Hk'. reflexivity. }
    subst k'. congruence.
  - cbn [appReducer]. rewrite Hget. reflexivity.
Qed.

Lemma card_opens_first_with_id_witness :
  In (ex_project "3" 1700000000200) (projects ex_dashboard)
  /\ exists opened,
       js_get (projects ex_dashboard)
         (originalIndex (projects ex_dashboard) (ex_project "3" 1700000000200)) =
         Some opened
       /\ project_id opened = "project-3".
Proof.
  assert (Hin : In (ex_project "3" 1700000000200) (projects ex_dashboard))
    by (right; right; left; reflexivity).
  split; [exact Hin|].
  destruct (card_opens_first_with_id ex_dashboard _ Hin) as [opened [H1 [H2 _]]].
  exists opened. split; [exact H1 | exact H2].
Defined.


Lemma export_restore_page (p : StoredPage) : export_page (restore_page p) = p.
Proof. destruct p; reflexivity. Qed.



(** X17. Deleting a project from the dashboard.  An index that designates no
    project makes the handler fail before anything changes; a refusal of
    the confirmation changes nothing; a confirmed deletion takes out
    the project at that index alone, the others keeping their order, and
    leaves the edit history and the active project index as they are. *)
Theorem delete_project_removes_one
    (confirm : string -> bool) (st : AppState) (index : Z) :
  let st' := store_of (handleDeleteProject confirm st index st) in
  (js_get (projects st) index = None ->
   handleDeleteProject confirm st index st = Raised st)
  /\ (forall project,
        js_get (projects st) index = Some project ->
        (confirm (confirm_delete_project_text (project_name project)) = false ->
         st' = st)
        /\ (confirm (confirm_delete_project_text (project_name project)) = true ->
            projects st' = delete (Z.to_nat index) (projects st)
            /\ removed_at index (projects st) (projects st')
            /\ editor st' = editor st
            /\ activeProjectIndex st' = activeProjectIndex st)).
Proof.
  intros st'. subst st'. unfold handleDeleteProject. split.
  - intros ->. reflexivity.
  - intros project Hproject. rewrite Hproject. split.
    + intros ->. reflexivity.
    + intros ->. cbn [negb store_of appReducer projects editor activeProjectIndex].
      split; [apply filter_index_ne_delete, (js_get_Some _ _ _ Hproject)|].
      split; [apply filter_index_ne_removed_at|]. split; reflexivity.
Qed.

Lemma delete_project_removes_one_witness :
  js_get (projects ex_dashboard) 1 = Some (ex_project "2" 1700000000300)
  /\ projects (store_of (handleDeleteProject ex_confirm ex_dashboard 1 ex_dashboard)) =
     [ex_project "1" 1700000000100; ex_project "3" 1700000000200].
Proof.
  split; [reflexivity|].
  rewrite (proj1 (proj2 (proj2 (delete_project_removes_one ex_confirm ex_dashboard 1)
                           (ex_project "2" 1700000000300) eq_refl) eq_refl)).
  reflexivity.
Defined.

(** ** Where a generated image lands *)

Lemma editor_after_set_loading (st : AppState) (b : bool) (m : option string) :
  editor (appReducer st (SET_LOADING b m)) = editor st.
Proof. reflexivity. Qed.

(** X18. The reducer-based editor writes the generated image into the pages of
    the render that started the generation.  Whatever pages the store
    holds when the answer arrives, the commit, when it takes effect, makes
    [present] hold the pages of that render with the image on the page
    that was active then; the pages the store held go to [past], the
    active index of the store is kept and [future] is emptied.  When the
    commit takes no effect the history is left as it is. *)
Theorem generated_image_commits_render_pages
    (parseError : string -> string) (blank_png : Z -> Z -> string)
    (r : Render) (random : nat) (context2d : bool) (mode : Mode) (w w1 : Store)
    (request : Request) (resume : BackendResult -> Store -> Store)
    (response : GenerateContentResponse) (c : ascii) (d : string) :
  Editor.generateMindMap parseError blank_png r random context2d mode w =
    Awaiting w1 request resume ->
  imageData_of response = Some (String c d) ->
  forall w',
    let final := resume (Resolved response) w' in
    let newPages :=
      map_at (render_activePageIndex r)
        (fun page =>
           spread_page page
             (Home.only_generatedImage
                (Some ("data:image/png;base64," +:+ String c d))))
        (render_pages r) in
    focus final = focus w'
    /\ isLoading (app final) = false
    /\ if commit_changes (app w')
            {| upd_pages := Some newPages; upd_activePageIndex := None |}
       then editor (app final) =
              {| past := past (editor (app w')) ++ [present (editor (app w'))];
                 present :=
                   {| pages := newPages;
                      activePageIndex :=
                        activePageIndex (present (editor (app w'))) |};
                 future := [] |}
       else editor (app final) = editor (app w').
Proof.
  intros Hrun Himage w'. unfold Editor.generateMindMap in Hrun.
  destruct (Editor.activePage r) as [p|]; [|discriminate].
  destruct (negb (String.eqb (id p) "master") && Nat.eqb (length (keywords p)) 0);
    [discriminate|].
  cbv zeta in Hrun. split_drawing_data; [|discriminate].
  injection Hrun as _ _ <-. cbv zeta. rewrite Himage.
  split; [reflexivity|]. split; [reflexivity|].
  unfold updatePage, dispatch, Home.only_generatedImage. cbn [app].
  rewrite editor_after_set_loading.
  match goal with
  | |- context [commit_changes ?st ?pl] => destruct (commit_changes st pl) eqn:Hc
  end.
  - rewrite (commit_effective _ _ Hc). reflexivity.
  - rewrite (commit_idle _ _ Hc). reflexivity.
Qed.

Lemma generated_image_commits_render_pages_witness :
  imageData_of ex_image_response = Some "QUJD"
  /\ exists w1 request resume,
       Editor.generateMindMap ex_parseError ex_blank_png ex_render_ideas 0 true
         rethink ex_store_ideas = Awaiting w1 request resume
       /\ isLoading (app (resume (Resolved ex_image_response) w1)) = false.
Proof.
  split; [reflexivity|]. do 3 eexists. split; [reflexivity|].
  exact (proj1 (proj2 (generated_image_commits_render_pages ex_parseError
                         ex_blank_png ex_render_ideas 0%nat true rethink
                         ex_store_ideas _ _ _ ex_image_response
                         "Q" "UJD" eq_refl eq_refl _))).
Defined.

(** X19. The [useState]-based editor writes the generated image into the pages
    the store holds when the answer arrives, at the index that was active
    in the render that started the generation: every other page, the
    active index and the focus of the store are kept. *)
Theorem generated_image_updates_store_pages
    (parseError : string -> string) (blank_png : Z -> Z -> string)
    (null_context_message : string) (r : Home.HomeState) (canvas : option Canvas)
    (context2d : bool) (mode : Mode) (w w1 : Home.HomeState) (request : Request)
    (resume : BackendResult -> Home.HomeState -> Home.HomeState)
    (response : GenerateContentResponse) (c : ascii) (d : string) :
  Home.generateMindMap parseError blank_png null_context_message r canvas
    context2d mode w = Awaiting w1 request resume ->
  imageData_of response = Some (String c d) ->
  forall w',
    let final := resume (Resolved response) w' in
    Home.pages final =
      map_at (Home.activePageIndex r)
        (fun page =>
           spread_page page
             (Home.only_generatedImage
                (Some ("data:image/png;base64," +:+ String c d))))
        (Home.pages w')
    /\ (forall j, j <> Home.activePageIndex r ->
        js_get (Home.pages final) j = js_get (Home.pages w') j)
    /\ Home.activePageIndex final = Home.activePageIndex w'
    /\ Home.focusedItems final = Home.focusedItems w'
    /\ Home.errorMessage final = Home.errorMessage w'
    /\ Home.isLoading final = false.
Proof.
  intros Hrun Himage w'. unfold Home.generateMindMap in Hrun.
  destruct (Home.activePage r) as [p|]; [|discriminate].
  destruct (negb (String.eqb (id p) "master") && Nat.eqb (length (keywords p)) 0);
    [discriminate|].
  cbv zeta in Hrun. split_drawing_data; [|discriminate].
  injection Hrun as _ _ <-. cbv zeta. rewrite Himage.
  split; [reflexivity|]. split; [|repeat split].
  intros j Hj. cbn [Home.setIsLoading Home.setPages Home.pages].
  apply js_get_map_at_other, Hj.
Qed.

Lemma generated_image_updates_store_pages_witness :
  imageData_of ex_image_response = Some "QUJD"
  /\ exists w1 request resume,
       Home.generateMindMap ex_parseError ex_blank_png "null" ex_home_ideas
         ex_canvas true rethink ex_home_ideas = Awaiting w1 request resume
       /\ Home.activePageIndex (resume (Resolved ex_image_response) w1) =
            Home.activePageIndex w1.
Proof.
  split; [reflexivity|]. do 3 eexists. split; [reflexivity|].
  exact (proj1 (proj2 (proj2 (generated_image_updates_store_pages ex_parseError
                         ex_blank_png "null" ex_home_ideas ex_canvas true rethink
                         ex_home_ideas _ _ _ ex_image_response
                         "Q" "UJD" eq_refl eq_refl _)))).
Defined.

(** ** What JSON.stringify tells apart *)

Lemma unquote_quote_char (c : ascii) (r : string) :
  unquote_char (quote_char c +:+ r) = Some (c, r).
Proof.
  destruct c as [[] [] [] [] [] [] [] []]; reflexivity.
Qed.

Lemma unquote_char_dq (r : string) : unquote_char (dq +:+ r) = None.
Proof. reflexivity. Qed.

Lemma append_inv_head (s x y : string) : s +:+ x = s +:+ y -> x = y.
Proof.
  induction s as [|c s IH]; [auto|].
  rewrite !append_cons. intros H. injection H as H. auto.
Qed.

Lemma quote_body_inj (a b r1 r2 : string) :
  quote_body a +:+ dq +:+ r1 = quote_body b +:+ dq +:+ r2 -> a = b /\ r1 = r2.
Proof.
  revert b. induction a as [|c a IH]; intros [|c' b] H.
  - cbn [quote_body] in H. rewrite !append_nil_l in H.
    apply append_inv_head in H. auto.
  - cbn [quote_body] in H. rewrite append_nil_l, append_assoc in H.
    apply (f_equal unquote_char) in H.
    rewrite unquote_quote_char, unquote_char_dq in H. discriminate.
  - cbn [quote_body] in H. rewrite append_nil_l, append_assoc in H.
    apply (f_equal unquote_char) in H.
    rewrite unquote_quote_char, unquote_char_dq in H. discriminate.
  - cbn [quote_body] in H. rewrite !append_assoc in H.
    pose proof (f_equal unquote_char H) as Hc.
    rewrite !unquote_quote_char in Hc. injection Hc as -> Hr.
    destruct (IH b Hr) as [-> ->]. auto.
Qed.

Lemma stringify_string_delimiting : self_delimiting stringify_string.
Proof.
  intros a b r1 r2 H. unfold stringify_string in H.
  rewrite !append_assoc in H. apply append_inv_head in H.
  apply quote_body_inj in H. exact H.
Qed.

Lemma stringify_string_starts (s : string) :
  exists rest, stringify_string s = String (ascii_of_nat 34) rest.
Proof. eexists. reflexivity. Qed.

Lemma nullable_string_delimiting :
  self_delimiting (stringify_nullable stringify_string).
Proof.
  intros [a|] [b|] r1 r2 H; cbn [stringify_nullable] in H.
  - apply stringify_string_delimiting in H as [-> ->]. auto.
  - unfold stringify_string in H. rewrite !append_assoc in H.
    discriminate H.
  - unfold stringify_string in H. rewrite !append_assoc in H.
    discriminate H.
  - apply append_inv_head in H. auto.
Qed.

Lemma stringify_array_rest {A : Type} (enc : A -> string) (l : list A) (r : string) :
  stringify_array enc l +:+ r =
    "[" +:+ match l with
            | [] => "]" +:+ r
            | x :: l' => enc x +:+ array_rest enc l' r
            end.
Proof.
  unfold stringify_array. rewrite !append_assoc. f_equal.
  destruct l as [|x l]; [reflexivity|].
  revert x. induction l as [|y l IH]; intros x.
  - reflexivity.
  - cbn [map]. rewrite join_cons2. rewrite !append_assoc.
    cbn [array_rest]. f_equal. f_equal. apply IH.
Qed.

Lemma array_rest_inj {A : Type} (enc : A -> string) :
  self_delimiting enc ->
  forall l1 l2 r1 r2,
    array_rest enc l1 r1 = array_rest enc l2 r2 -> l1 = l2 /\ r1 = r2.
Proof.
  intros Henc. induction l1 as [|x l1 IH]; intros [|y l2] r1 r2 H;
    cbn [array_rest] in H.
  - apply append_inv_head in H. auto.
  - discriminate H.
  - discriminate H.
  - apply append_inv_head in H. apply Henc in H as [-> H].
    destruct (IH _ _ _ H) as [-> ->]. auto.
Qed.

Lemma stringify_array_delimiting {A : Type} (enc : A -> string) (first : ascii) :
  self_delimiting enc ->
  (forall x, exists rest, enc x = String first rest) ->
  first <> "]"%char ->
  self_delimiting (stringify_array enc).
Proof.
  intros Henc Hfirst Hne l1 l2 r1 r2 H.
  rewrite !stringify_array_rest in H. apply append_inv_head in H.
  destruct l1 as [|x l1], l2 as [|y l2].
  - apply append_inv_head in H. auto.
  - destruct (Hfirst y) as [rest Hy]. rewrite Hy in H.
    rewrite !append_cons in H. injection H as H _. congruence.
  - destruct (Hfirst x) as [rest Hx]. rewrite Hx in H.
    rewrite !append_cons in H. injection H as H _. congruence.
  - apply Henc in H as [-> H].
    destruct (array_rest_inj enc Henc _ _ _ _ H) as [-> ->]. auto.
Qed.

Lemma string_array_delimiting : self_delimiting (stringify_array stringify_string).
Proof.
  apply (stringify_array_delimiting _ (ascii_of_nat 34));
    [apply stringify_string_delimiting | apply stringify_string_starts |].
  discriminate.
Qed.

Lemma stringify_page_content (p : Page) :
  stringify_page p = stringify_content (page_content p).
Proof. destruct p as [? ? ? ? ? ? ? [[?|]]]; reflexivity. Qed.

Ltac peel H :=
  repeat match type of H with
  | ?s +:+ _ = ?s +:+ _ => apply append_inv_head in H
  | stringify_string _ +:+ _ = stringify_string _ +:+ _ =>
      let E := fresh "E" in
      apply stringify_string_delimiting in H as [E H]
  | stringify_array stringify_string _ +:+ _ =
    stringify_array stringify_string _ +:+ _ =>
      let E := fresh "E" in
      apply string_array_delimiting in H as [E H]
  | stringify_nullable stringify_string _ +:+ _ =
    stringify_nullable stringify_string _ +:+ _ =>
      let E := fresh "E" in
      apply nullable_string_delimiting in H as [E H]
  end.

Lemma stringify_content_delimiting : self_delimiting stringify_content.
Proof.
  intros [[i1 n1 k1 s1 g1 v1 c1] b1] [[i2 n2 k2 s2 g2 v2 c2] b2] r1 r2 H.
  unfold stringify_content, stringify_object, stringify_member in H.
  cbn [join String.concat fst snd stored_id stored_name stored_keywords
       stored_instructions stored_generatedImage stored_versions
       stored_contextPageIds] in H.
  rewrite !append_assoc in H. peel H. subst.
  destruct b1, b2; try discriminate H.
  - do 3 apply append_inv_head in H. auto.
  - do 3 apply append_inv_head in H. auto.
Qed.

Lemma stringify_content_starts (c : StoredPage * bool) :
  exists rest, stringify_content c = String "{"%char rest.
Proof. eexists. reflexivity. Qed.

Lemma content_array_delimiting :
  self_delimiting (stringify_array stringify_content).
Proof.
  apply (stringify_array_delimiting _ "{"%char);
    [apply stringify_content_delimiting | apply stringify_content_starts |].
  discriminate.
Qed.

Lemma stringify_pages_content (l : list Page) :
  stringify_array stringify_page l =
    stringify_array stringify_content (map page_content l).
Proof.
  unfold stringify_array. rewrite map_map.
  rewrite (map_ext _ _ stringify_page_content l). reflexivity.
Qed.

Lemma append_inv_tail_char (a b : string) (c : ascii) :
  a +:+ String c EmptyString = b +:+ String c EmptyString -> a = b.
Proof.
  revert b. induction a as [|x a IH]; intros [|y b] H.
  - reflexivity.
  - rewrite append_nil_l, append_cons in H. injection H as _ H.
    destruct b; discriminate H.
  - rewrite append_nil_l, append_cons in H. injection H as _ H.
    destruct a; discriminate H.
  - rewrite !append_cons in H. injection H as -> H. f_equal. auto.
Qed.

Lemma stringify_number_inj (z1 z2 : Z) :
  stringify_number z1 = stringify_number z2 -> z1 = z2.
Proof.
  unfold stringify_number. intros H.
  apply (f_equal NilZero.int_of_string) in H.
  rewrite !NilZero.isi in H.
  - injection H as H. apply DecimalZ.to_int_inj, H.
  - destruct z2; cbn; try discriminate.
    intros E. injection E as E. exact (Unsigned.to_uint_nonnil _ E).
  - destruct z2; cbn; try discriminate.
    intros E. injection E as E. exact (Unsigned.to_uint_nonnil _ E).
  - destruct z1; cbn; try discriminate.
    intros E. injection E as E. exact (Unsigned.to_uint_nonnil _ E).
  - destruct z1; cbn; try discriminate.
    intros E. injection E as E. exact (Unsigned.to_uint_nonnil _ E).
Qed.

Lemma JSON_stringify_content (s1 s2 : EditorState) :
  JSON_stringify s1 = JSON_stringify s2 <->
  map page_content (pages s1) = map page_content (pages s2)
  /\ activePageIndex s1 = activePageIndex s2.
Proof.
  split.
  - intros H. unfold JSON_stringify, stringify_object, stringify_member in H.
    cbn [join String.concat] in H. rewrite !stringify_pages_content in H.
    rewrite !append_assoc in H.
    do 3 apply append_inv_head in H.
    apply content_array_delimiting in H as [Hp H].
    do 3 apply append_inv_head in H.
    apply append_inv_tail_char, stringify_number_inj in H. auto.
  - intros [Hp Hi]. unfold JSON_stringify. rewrite !stringify_pages_content.
    rewrite Hp, Hi. reflexivity.
Qed.

(** ** The guard of a commit, exactly *)

Lemma commit_changes_content (st : AppState) (payload : PartialEditorState) :
  commit_changes st payload = false <->
  map page_content (pages (spread_state (present (editor st)) payload)) =
    map page_content (pages (present (editor st)))
  /\ activePageIndex (spread_state (present (editor st)) payload) =
       activePageIndex (present (editor st)).
Proof.
  unfold commit_changes. rewrite negb_false_iff, String.eqb_eq.
  rewrite JSON_stringify_content. split; intros [H1 H2]; split; congruence.
Qed.

(** X20. A commit is dropped exactly when the merged state says nothing new:
    the active index is the same and the pages have, one by one, the same
    id, name, keywords, instructions, image, versions and context ids, and
    agree on whether a decoded image is at hand.  So no edit of a page is
    ever dropped, and a payload that differs from [present] only in which
    decoded image a page holds is. *)
Theorem commit_dropped_iff_same_content
    (st : AppState) (payload : PartialEditorState) :
  appReducer st (UPDATE_EDITOR_STATE payload) = st <->
  map page_content (pages (spread_state (present (editor st)) payload)) =
    map page_content (pages (present (editor st)))
  /\ activePageIndex (spread_state (present (editor st)) payload) =
       activePageIndex (present (editor st)).
Proof.
  rewrite <- commit_changes_content. split.
  - intros Hsame. destruct (commit_changes st payload) eqn:Hc; [|reflexivity].
    rewrite (commit_effective st payload Hc) in Hsame.
    apply (f_equal (fun x => length (past (editor x)))) in Hsame.
    cbn [editor with_editor past] in Hsame. rewrite length_app in Hsame.
    cbn [length] in Hsame. lia.
  - apply commit_idle.
Qed.

Lemma generate_pause_and_resume
    (parseError : string -> string) (blank_png : Z -> Z -> string)
    (r : Render) (random : nat) (context2d : bool) (mode : Mode) (w w1 : Store)
    (request : Request) (resume : BackendResult -> Store -> Store)
    (response : GenerateContentResponse) (c : ascii) (d : string) :
  Editor.generateMindMap parseError blank_png r random context2d mode w =
    Awaiting w1 request resume ->
  imageData_of response = Some (String c d) ->
  w1 = Editor.setFocusedItems no_focus
         (dispatch (SET_LOADING true (loadingMessages !! random)) w)
  /\ (exists p,
        Editor.activePage r = Some p
        /\ text request = composePrompt (render_pages r) p mode (Editor.focusedItems r))
  /\ model request = Editor.selectedModel r
  /\ forall w',
       resume (Resolved response) w' =
         dispatch (SET_LOADING false None)
           (updatePage r
              (Home.only_generatedImage
                 (Some ("data:image/png;base64," +:+ String c d))) w').
Proof.
  intros Hrun Himage. unfold Editor.generateMindMap in Hrun.
  destruct (Editor.activePage r) as [p|]; [|discriminate].
  destruct (negb (String.eqb (id p) "master") && Nat.eqb (length (keywords p)) 0);
    [discriminate|].
  cbv zeta in Hrun. split_drawing_data; [|discriminate].
  injection Hrun as <- <- <-. split; [reflexivity|].
  split; [exists p; split; reflexivity|]. split; [reflexivity|].
  intros w'. cbv zeta. rewrite Himage. reflexivity.
Qed.

(** X21. A generation that succeeds, fired from the screen with no other event
    before the answer.  One request goes out, carrying the prompt composed
    from the rendered pages and the selected model.  If the image differs
    from the one the page has, the history gains exactly one step: the
    snapshot before goes to [past], [future] is emptied, the active page
    has the new image and nothing else about the pages or the active index
    changes; the busy flag is down, no error is reported and the focus
    sets are empty. *)
Theorem generation_success_commits_once
    (parseError : string -> string) (blank_png : Z -> Z -> string)
    (r : Render) (random : nat) (context2d : bool) (mode : Mode) (w w1 : Store)
    (request : Request) (resume : BackendResult -> Store -> Store)
    (backend : Request -> BackendResult)
    (response : GenerateContentResponse) (c : ascii) (d : string) (p : Page) :
  app w = Editor.state r ->
  Editor.activePage r = Some p ->
  Editor.generateMindMap parseError blank_png r random context2d mode w =
    Awaiting w1 request resume ->
  backend request = Resolved response ->
  imageData_of response = Some (String c d) ->
  generatedImage p <> Some ("data:image/png;base64," +:+ String c d) ->
  let run := Editor.generateMindMap parseError blank_png r random context2d mode w in
  let final := settle backend run in
  let before := present (editor (Editor.state r)) in
  network_calls run = [request]
  /\ text request = composePrompt (render_pages r) p mode (Editor.focusedItems r)
  /\ model request = Editor.selectedModel r
  /\ past (editor (app final)) = past (editor (Editor.state r)) ++ [before]
  /\ future (editor (app final)) = []
  /\ activePageIndex (present (editor (app final))) = activePageIndex before
  /\ js_get (pages (present (editor (app final)))) (activePageIndex before) =
       Some (spread_page p
               (Home.only_generatedImage
                  (Some ("data:image/png;base64," +:+ String c d))))
  /\ (forall j, j <> activePageIndex before ->
      js_get (pages (present (editor (app final)))) j = js_get (pages before) j)
  /\ isLoading (app final) = false
  /\ errorMessage (app final) = errorMessage (Editor.state r)
  /\ focus final = no_focus.
Proof.
  intros Hw Hp Hrun Hb Himage Hnew run final before.
  destruct (generate_pause_and_resume _ _ _ _ _ _ _ _ _ _ _ c d Hrun Himage)
    as [Hw1 [[p' [Hp' Htext]] [Hmodel Hresume]]].
  rewrite Hp in Hp'. injection Hp' as <-.
  subst final run. rewrite Hrun. cbn [settle network_calls]. rewrite Hb, Hresume.
  split; [reflexivity|]. split; [exact Htext|]. split; [exact Hmodel|].
  set (url := "data:image/png;base64," +:+ String c d) in *.
  set (newPages := map_at (render_activePageIndex r)
                     (fun page => spread_page page (Home.only_generatedImage (Some url)))
                     (render_pages r)).
  set (payload := {| upd_pages := Some newPages; upd_activePageIndex := None |}).
  assert (Heditor : editor (app w1) = editor (Editor.state r))
    by (rewrite Hw1; cbn [Editor.setFocusedItems app dispatch]; rewrite <- Hw; reflexivity).
  assert (Hget : js_get newPages (render_activePageIndex r) =
                 Some (spread_page p (Home.only_generatedImage (Some url))))
    by exact (js_get_map_at_same _ _ _ _ Hp).
  assert (Hc : commit_changes (app w1) payload = true).
  { destruct (commit_changes (app w1) payload) eqn:Hc; [reflexivity|].
    exfalso. apply commit_changes_content in Hc as [Hc _].
    rewrite Heditor in Hc. cbn [spread_state pages payload upd_pages default] in Hc.
    unfold Datatypes.id in Hc.
    unfold Editor.activePage, js_get in Hp, Hget.
    destruct (decide (0 <= render_activePageIndex r)); [|discriminate].
    apply (f_equal (fun l => l !! Z.to_nat (render_activePageIndex r))) in Hc.
    rewrite !list_lookup_fmap in Hc. unfold render_pages in Hp, Hget.
    fold (render_pages r) in Hget. unfold render_pages in Hget.
    rewrite Hget, Hp in Hc.
    apply (f_equal (fun o => match o with
                             | Some content0 => stored_generatedImage (fst content0)
                             | None => None
                             end)) in Hc.
    cbn in Hc. unfold Datatypes.id in Hc. congruence. }
  assert (Hfinal : editor (app (dispatch (SET_LOADING false None)
                                  (updatePage r (Home.only_generatedImage (Some url)) w1))) =
                   {| past := past (editor (Editor.state r)) ++ [before];
                      present := {| pages := newPages;
                                    activePageIndex := activePageIndex before |};
                      future := [] |}).
  { unfold updatePage, dispatch. cbn [app]. rewrite editor_after_set_loading.
    fold newPages. fold payload. rewrite (commit_effective _ _ Hc).
    cbn [editor with_editor]. rewrite Heditor. reflexivity. }
  rewrite Hfinal. cbn [past future present pages activePageIndex].
  split; [reflexivity|]. split; [reflexivity|]. split; [reflexivity|].
  split; [exact Hget|].
  split; [intros j Hj; apply js_get_map_at_other, Hj|].
  split; [reflexivity|]. split.
  - unfold updatePage, dispatch. cbn [app]. fold newPages. fold payload.
    rewrite (commit_effective _ _ Hc). rewrite Hw1.
    cbn [Editor.setFocusedItems app dispatch]. rewrite Hw. reflexivity.
  - rewrite Hw1. reflexivity.
Qed.

Lemma generation_success_commits_once_witness :
  (app ex_store_ideas = Editor.state ex_render_ideas
   /\ Editor.activePage ex_render_ideas = Some ex_ideas
   /\ imageData_of ex_image_response = Some "QUJD"
   /\ generatedImage ex_ideas <> Some ("data:image/png;base64," +:+ "QUJD"))
  /\ exists w1 request resume,
       Editor.generateMindMap ex_parseError ex_blank_png ex_render_ideas 0 true
         rethink ex_store_ideas = Awaiting w1 request resume
       /\ focus (settle (fun _ => Resolved ex_image_response)
                   (Editor.generateMindMap ex_parseError ex_blank_png
                      ex_render_ideas 0 true rethink ex_store_ideas)) = no_focus.
Proof.
  assert (Hnew : generatedImage ex_ideas <> Some ("data:image/png;base64," +:+ "QUJD"))
    by discriminate.
  split; [split; [reflexivity | split; [reflexivity | split; [reflexivity | exact Hnew]]]|].
  do 3 eexists. split; [reflexivity|].
  apply (generation_success_commits_once ex_parseError ex_blank_png
           ex_render_ideas 0%nat true rethink ex_store_ideas _ _ _
           (fun _ => Resolved ex_image_response) ex_image_response "Q" "UJD"
           ex_ideas eq_refl eq_refl eq_refl eq_refl eq_refl Hnew).
Defined.

(** ** The document stays well formed *)

Lemma lookup_map_at {A : Type} (f : A -> A) (l : list A) (k : Z) (i : nat) :
  map_at k f l !! i =
    (fun x => if bool_decide (Z.of_nat i = k) then f x else x) <$> l !! i.
Proof. unfold map_at. apply list_lookup_imap. Qed.

Lemma document_ok_map_at (f : Page -> Page) (l : list Page) (k : Z) :
  document_ok l ->
  (forall x, id (f x) = id x) ->
  (forall m, l !! 0%nat = Some m -> k = 0 ->
   keywords (f m) = [] /\ instructions (f m) = []) ->
  document_ok (map_at k f l).
Proof.
  intros [[m [Hm [Hid [Hk Hi]]]] Huniq] Hfid Hfm. split.
  - rewrite lookup_map_at, Hm. cbn.
    destruct (decide (Z.of_nat 0 = k)) as [Hk0|Hk0].
    + rewrite bool_decide_eq_true_2 by exact Hk0. exists (f m).
      split; [reflexivity|]. split; [rewrite Hfid; exact Hid|].
      apply (Hfm m Hm). lia.
    + rewrite bool_decide_eq_false_2 by exact Hk0. exists m. auto.
  - intros i q Hq Hidq. rewrite lookup_map_at in Hq.
    destruct (l !! i) as [x|] eqn:Hx; [|discriminate]. cbn in Hq.
    apply (Huniq i x Hx).
    destruct (bool_decide (Z.of_nat i = k)); injection Hq as <-; [|exact Hidq].
    rewrite Hfid in Hidq. exact Hidq.
Qed.

Lemma active_master_is_first (s : Home.HomeState) (p : Page) :
  well_formed s -> Home.activePage s = Some p -> id p = "master" ->
  Home.activePageIndex s = 0 /\ keywords p = [] /\ instructions p = [].
Proof.
  intros [[[m [Hm [_ [Hk Hi]]]] Huniq] Hrange] Hp Hid.
  unfold Home.activePage, js_get in Hp.
  destruct (decide (0 <= Home.activePageIndex s)); [|discriminate].
  pose proof (Huniq _ _ Hp Hid) as H0.
  rewrite H0 in Hp. rewrite Hm in Hp. injection Hp as <-.
  split; [lia | auto].
Qed.

(** An update of the active page that leaves a master page without
    keywords and instructions keeps the document well formed. *)
Lemma well_formed_update (s : Home.HomeState) (u : PartialPage) :
  well_formed s ->
  (forall p, Home.activePage s = Some p -> id p = "master" ->
   keywords p = [] -> instructions p = [] ->
   keywords (spread_page p u) = [] /\ instructions (spread_page p u) = []) ->
  well_formed (Home.updateActivePage s u s).
Proof.
  intros Hwf Hu. pose proof Hwf as [Hdoc Hrange].
  unfold well_formed, Home.updateActivePage, Home.setPages.
  cbn [Home.pages Home.activePageIndex]. split.
  - apply document_ok_map_at; [exact Hdoc | reflexivity |].
    intros m Hm Hk0. destruct Hdoc as [[m' [Hm' [Hid [Hk Hi]]]] _].
    rewrite Hm in Hm'. injection Hm' as <-.
    apply Hu; [|exact Hid | exact Hk | exact Hi].
    unfold Home.activePage, js_get. rewrite Hk0.
    destruct (decide (0 <= 0)); [exact Hm | lia].
  - rewrite map_at_length. exact Hrange.
Qed.

Lemma well_formed_cells (s s' : Home.HomeState) :
  Home.pages s' = Home.pages s ->
  Home.activePageIndex s' = Home.activePageIndex s ->
  well_formed s -> well_formed s'.
Proof. unfold well_formed. intros -> ->. auto. Qed.

Lemma well_formed_delete_page
    (confirm : string -> bool) (s : Home.HomeState) (index : Z) :
  well_formed s -> well_formed (store_of (Home.handleDeletePage confirm s index s)).
Proof.
  intros Hwf. pose proof Hwf as [[[m [Hm Hmaster]] Huniq] Hrange].
  destruct (Z.eq_dec index 0) as [H0|H0].
  { unfold Home.handleDeletePage. rewrite (proj2 (Z.eqb_eq _ _) H0). exact Hwf. }
  destruct (js_get (Home.pages s) index) as [page|] eqn:Hpage.
  2:{ unfold Home.handleDeletePage.
      rewrite (proj2 (Z.eqb_neq _ _) H0), Hpage. exact Hwf. }
  destruct (confirm (Home.confirm_delete_text (name page))) eqn:Hyes.
  2:{ unfold Home.handleDeletePage.
      rewrite (proj2 (Z.eqb_neq _ _) H0), Hpage, Hyes. exact Hwf. }
  pose proof (js_get_Some _ _ _ Hpage) as Hin.
  rewrite (delete_page_effect confirm s index page H0 Hpage Hyes).
  cbn [store_of]. unfold well_formed, Home.setPages.
  cbn [Home.pages Home.activePageIndex Home.setActivePageIndex].
  split; [split|].
  - exists m. rewrite list_lookup_delete_lt by lia. auto.
  - intros i q Hq Hid. rewrite list_lookup_delete in Hq.
    destruct (decide (i < Z.to_nat index)%nat) as [Hlt|Hge].
    + apply (Huniq i q Hq Hid).
    + pose proof (Huniq _ _ Hq Hid). lia.
  - rewrite length_delete by (apply lookup_lt_is_Some; lia).
    destruct (Z.eqb_spec index (Home.activePageIndex s)); [lia|].
    destruct (Z.ltb_spec index (Home.activePageIndex s)); lia.
Qed.

(** An update of the page at the index of another render keeps the
    document well formed when it keeps the id of the page, and leaves a
    master page without keywords and instructions. *)
Lemma well_formed_map_at (f : Page -> Page) (k : Z) (w : Home.HomeState) :
  well_formed w ->
  (forall x, id (f x) = id x) ->
  (k = 0 ->
   forall m, keywords m = [] -> instructions m = [] ->
   keywords (f m) = [] /\ instructions (f m) = []) ->
  well_formed (Home.setPages (map_at k f) w).
Proof.
  intros [Hdoc Hrange] Hid Hf. unfold well_formed, Home.setPages.
  cbn [Home.pages Home.activePageIndex]. split.
  - apply document_ok_map_at; [exact Hdoc | exact Hid |].
    intros m Hm Hk0. destruct Hdoc as [[m' [Hm' [_ [Hk Hi]]]] _].
    rewrite Hm in Hm'. injection Hm' as <-.
    apply Hf; [exact Hk0 | exact Hk | exact Hi].
  - rewrite map_at_length. exact Hrange.
Qed.

(** The rest of a generation keeps a well-formed document well formed,
    whatever render the generation was started from. *)
Lemma generation_task_ok
    (parseError : string -> string) (blank_png : Z -> Z -> string)
    (null_context_message : string) (r : Home.HomeState) (canvas : option Canvas)
    (context2d : bool) (mode : Mode) (w : Home.HomeState) :
  Forall task_ok
    (generation_task
       (Home.generateMindMap parseError blank_png null_context_message
          r canvas context2d mode w)).
Proof.
  unfold Home.generateMindMap.
  destruct (Home.activePage r) as [p|]; [|constructor].
  destruct (negb (String.eqb (id p) "master") && Nat.eqb (length (keywords p)) 0);
    [constructor|].
  cbv zeta. split_drawing_data; [|constructor].
  cbn [generation_task]. constructor; [|constructor].
  intros k [result ->] w' Hwf.
  destruct result as [response|message].
  - destruct (imageData_of response) as [[|c d]|];
      try (apply (well_formed_cells w'); [reflexivity | reflexivity | exact Hwf]).
    apply (well_formed_cells
             (Home.setPages
                (map_at (Home.activePageIndex r)
                   (fun page =>
                      spread_page page
                        (Home.only_generatedImage
                           (Some ("data:image/png;base64," +:+ String c d)))))
                w'));
      [reflexivity | reflexivity |].
    apply well_formed_map_at; [exact Hwf | reflexivity |].
    intros _ m Hk Hi. split; assumption.
  - apply (well_formed_cells w'); [reflexivity | reflexivity | exact Hwf].
Qed.

(** So does the rest of an image analysis started from a well-formed
    render: it was started on a page that is not the master page, hence
    at an index that is not the first. *)
Lemma analysis_task_ok
    (toLowerCase : string -> string) (r : Home.HomeState)
    (file : option Home.File) :
  well_formed r ->
  Forall task_ok (analysis_task (Home.handleImageInputChange toLowerCase r file)).
Proof.
  intros Hr. unfold Home.handleImageInputChange.
  destruct file as [file0|]; [|constructor].
  destruct (Home.activePage r) as [p|] eqn:Hp; [|constructor].
  destruct (String.eqb (id p) "master") eqn:Hm; [constructor|].
  apply String.eqb_neq in Hm.
  assert (Hindex : Home.activePageIndex r <> 0).
  { intros H0. destruct Hr as [[[m [Hm0 [Hid _]]] _] _].
    unfold Home.activePage, js_get in Hp. rewrite H0 in Hp.
    destruct (decide (0 <= 0)); [|lia].
    change (Z.to_nat 0) with 0%nat in Hp. rewrite Hm0 in Hp.
    injection Hp as <-. contradiction. }
  cbv zeta.
  match goal with
  | |- context [match ?m with Some _ => _ | None => Home.InputReturned end] =>
      destruct m as [mimeType1|]; [|constructor]
  end.
  cbn [analysis_task]. constructor; [|constructor].
  intros k [analysis ->] w' Hwf.
  destruct analysis as [extractedKeywords|]; [|exact Hwf].
  destruct (nonempty extractedKeywords); [|exact Hwf].
  unfold Home.updateActivePage.
  apply well_formed_map_at; [exact Hwf | reflexivity |].
  intros H0. contradiction.
Qed.

Lemma well_formed_event (s s' : Home.HomeState) :
  well_formed s -> home_event s s' -> well_formed s'.
Proof.
  intros Hwf Hev.
  destruct Hev as [index Hindex | confirm index | index | index | type index
                  | | index | index | pageId | pageId | | | value | index img].
  - destruct Hwf as [Hdoc _]. split; [exact Hdoc|].
    cbn [Home.setActivePageIndex Home.pages Home.activePageIndex]. lia.
  - apply well_formed_delete_page, Hwf.
  - unfold Home.handleDeleteKeyword.
    destruct (Home.activePage s) as [p|] eqn:Hp; [|exact Hwf]. cbn [store_of].
    apply well_formed_update; [exact Hwf|].
    intros p' Hp' _ Hk Hi. rewrite Hp in Hp'. injection Hp' as <-.
    cbn. unfold Datatypes.id. rewrite Hk. split; [reflexivity | exact Hi].
  - unfold Home.handleDeleteInstruction.
    destruct (Home.activePage s) as [p|] eqn:Hp; [|exact Hwf]. cbn [store_of].
    apply well_formed_update; [exact Hwf|].
    intros p' Hp' _ Hk Hi. rewrite Hp in Hp'. injection Hp' as <-.
    cbn. unfold Datatypes.id. rewrite Hi. split; [exact Hk | reflexivity].
  - apply (well_formed_cells s); [reflexivity | reflexivity | exact Hwf].
  - unfold Home.handleSaveVersion.
    destruct (Home.activePage s) as [p|]; [|exact Hwf].
    destruct (generatedImage p) as [[|c d]|]; try exact Hwf.
    destruct (Home.versions_include (versions p) (String c d)); [exact Hwf|].
    apply well_formed_update; [exact Hwf | intros; split; assumption].
  - unfold Home.handleRestoreVersion.
    destruct (Home.activePage s) as [p|]; [|exact Hwf].
    destruct (js_get (versions p) index) as [[|c d]|]; try exact Hwf.
    apply well_formed_update; [exact Hwf | intros; split; assumption].
  - unfold Home.handleDeleteVersion.
    destruct (Home.activePage s) as [p|]; [|exact Hwf]. cbn [store_of].
    apply well_formed_update; [exact Hwf | intros; split; assumption].
  - unfold Home.handleAddContext.
    destruct (truthy pageId); cbn [negb]; [|exact Hwf].
    destruct (Home.activePage s) as [p|]; [|exact Hwf].
    destruct (Home.array_includes (contextPageIds p) pageId); [exact Hwf|].
    cbn [store_of].
    apply well_formed_update; [exact Hwf | intros; split; assumption].
  - unfold Home.handleRemoveContext.
    destruct (Home.activePage s) as [p|]; [|exact Hwf]. cbn [store_of].
    apply well_formed_update; [exact Hwf | intros; split; assumption].
  - split; [split|].
    + eexists. cbn. split; [reflexivity|]. repeat split.
    + intros [|i] q Hq _; [reflexivity | discriminate].
    + cbn. lia.
  - apply (well_formed_cells s); [reflexivity | reflexivity | exact Hwf].
  - apply (well_formed_cells s); [reflexivity | reflexivity | exact Hwf].
  - apply well_formed_map_at; [exact Hwf | reflexivity |].
    intros _ m Hk Hi. split; assumption.
Qed.

Lemma well_formed_step
    (trim toLowerCase : string -> string) (s s' : Home.HomeForm) :
  well_formed (Home.home s) ->
  home_step trim toLowerCase s s' ->
  well_formed (Home.home s').
Proof.
  intros Hwf Hstep. destruct Hstep as [h Hev| | | | |].
  - cbn [Home.with_home Home.home].
    exact (well_formed_event _ _ Hwf Hev).
  - exact Hwf.
  - exact Hwf.
  - exact Hwf.
  - unfold Home.handleAddNewPage.
    destruct (truthy (trim (Home.newPageName s))); cbn [negb]; [|exact Hwf].
    cbv zeta.
    cbn [Home.setIsPageModalOpen Home.setNewPageName Home.with_home Home.home].
    destruct Hwf as [[[m [Hm Hmaster]] Huniq] Hrange].
    unfold well_formed, Home.setActivePageIndex, Home.setPages.
    cbn [Home.pages Home.activePageIndex]. split; [split|].
    + exists m. rewrite lookup_app_l; [auto|].
      apply lookup_lt_Some in Hm. exact Hm.
    + intros i q Hq Hid. apply lookup_app_Some in Hq as [Hq|[Hlen Hq]].
      * apply (Huniq i q Hq Hid).
      * apply list_lookup_singleton_Some in Hq as [_ <-].
        cbn [createNewPage id] in Hid.
        pose proof (page_id_not_master (stringify_number now)) as Hne.
        rewrite Hid in Hne. discriminate.
    + rewrite length_app. cbn [length]. lia.
  - unfold Home.handlePromptSubmit.
    destruct (Home.activePage (Home.home s)) as [p|] eqn:Hp; [|exact Hwf].
    destruct (String.eqb (id p) "master") eqn:Hm; [exact Hwf|].
    apply String.eqb_neq in Hm.
    destruct (truthy (trim (Home.prompt s))); cbn [negb]; [|exact Hwf].
    cbv zeta. cbn [store_of Home.setPrompt Home.home].
    destruct (String.prefix "i:" (toLowerCase (trim (Home.prompt s)))).
    + destruct (truthy (trim (Home.substring_from 2 (trim (Home.prompt s)))));
        [|exact Hwf].
      cbn [Home.with_home Home.home]. apply well_formed_update; [exact Hwf|].
      intros p' Hp' Hid' _ _. rewrite Hp in Hp'. injection Hp' as <-.
      contradiction.
    + destruct (nonempty (List.filter truthy
                  (map trim (Home.split ";" (trim (Home.prompt s))))));
        [|exact Hwf].
      cbn [Home.with_home Home.home]. apply well_formed_update; [exact Hwf|].
      intros p' Hp' Hid' _ _. rewrite Hp in Hp'. injection Hp' as <-.
      contradiction.
Qed.

(** The store at the pause of a generation has the pages and the active
    index of the store the generation was run on. *)
Lemma home_pause_cells
    (parseError : string -> string) (blank_png : Z -> Z -> string)
    (null_context_message : string) (r : Home.HomeState) (canvas : option Canvas)
    (context2d : bool) (mode : Mode) (w : Home.HomeState) :
  let run :=
    Home.generateMindMap parseError blank_png null_context_message
      r canvas context2d mode w in
  Home.pages (store_at_pause run) = Home.pages w
  /\ Home.activePageIndex (store_at_pause run) = Home.activePageIndex w.
Proof.
  intros run. subst run. unfold Home.generateMindMap.
  destruct (Home.activePage r) as [p|]; [|split; reflexivity].
  destruct (negb (String.eqb (id p) "master") && Nat.eqb (length (keywords p)) 0);
    [split; reflexivity|].
  cbv zeta. split_drawing_data; split; reflexivity.
Qed.

Lemma screen_ok_step
    (trim toLowerCase parseError : string -> string) (blank_png : Z -> Z -> string)
    (null_context_message : string) (s s' : HomeScreen) :
  screen_ok s ->
  screen_step trim toLowerCase parseError blank_png null_context_message s s' ->
  screen_ok s'.
Proof.
  intros [Hwf Htasks] Hstep.
  destruct Hstep as [f Hf | canvas context2d mode run Hrun | file run Hrun
                    | before after task k Hin Hk].
  - split; [|exact Htasks]. cbn [cells].
    exact (well_formed_step _ _ _ _ Hwf Hf).
  - subst run. split; cbn [cells in_flight Home.with_home Home.home].
    + destruct (home_pause_cells parseError blank_png null_context_message
                  (Home.home (cells s)) canvas context2d mode
                  (Home.home (cells s))) as [Hpages Hindex].
      exact (well_formed_cells _ _ Hpages Hindex Hwf).
    + apply Forall_app. split; [exact Htasks | apply generation_task_ok].
  - subst run. split; cbn [cells in_flight]; [exact Hwf|].
    apply Forall_app. split; [exact Htasks|].
    apply analysis_task_ok, Hwf.
  - rewrite Hin in Htasks. apply Forall_app in Htasks as [Hbefore Hrest].
    apply Forall_cons in Hrest as [Htask Hafter].
    split; cbn [cells in_flight Home.with_home Home.home].
    + exact (Htask k Hk _ Hwf).
    + apply Forall_app. split; assumption.
Qed.

Lemma screen_ok_reach
    (trim toLowerCase parseError : string -> string) (blank_png : Z -> Z -> string)
    (null_context_message : string) (s0 s : HomeScreen) :
  rtc (screen_step trim toLowerCase parseError blank_png null_context_message)
    s0 s ->
  screen_ok s0 -> screen_ok s.
Proof.
  induction 1 as [|x y z Hstep _ IH]; [auto|].
  intros Hok. apply IH. exact (screen_ok_step _ _ _ _ _ _ _ Hok Hstep).
Qed.

(** X22. Whatever happens on the screen of the [useState]-based editor,
    from its first render on, the document stays well formed: the first
    page is the master page, without keywords or instructions, no other
    page has the master id, and the active index designates a page.  This
    holds in every state of every path of the screen: any handler fired
    at any moment, also while requests are in flight, and any answer to a
    generation or to an image analysis coming at any later moment, the
    rest of the handler then running on a store that other events have
    changed.  Hence there always is an active page, and no handler fails
    for want of one. *)
Theorem home_document_stays_well_formed
    (trim toLowerCase parseError : string -> string) (blank_png : Z -> Z -> string)
    (null_context_message : string) (s : HomeScreen) :
  rtc (screen_step trim toLowerCase parseError blank_png null_context_message)
    initial_screen s ->
  well_formed (Home.home (cells s))
  /\ Forall task_ok (in_flight s)
  /\ (exists p, Home.activePage (Home.home (cells s)) = Some p)
  /\ (exists s',
        Home.handlePromptSubmit trim toLowerCase (cells s) (cells s) = Returned s')
  /\ (forall canvas context2d mode w,
        Home.generateMindMap parseError blank_png null_context_message
          (Home.home (cells s)) canvas context2d mode (Home.home (cells s))
        <> Threw w)
  /\ (forall file,
        Home.handleImageInputChange toLowerCase (Home.home (cells s)) file
        <> Home.InputThrew).
Proof.
  intros Hreach.
  assert (Hok : screen_ok s).
  { apply (screen_ok_reach _ _ _ _ _ _ _ Hreach).
    split; [|constructor]. split; [split|].
    - eexists. cbn. split; [reflexivity|]. repeat split.
    - intros [|i] q Hq _; [reflexivity | discriminate].
    - cbn. lia. }
  destruct Hok as [Hwf Htasks].
  split; [exact Hwf|]. split; [exact Htasks|].
  assert (Hactive : exists p, Home.activePage (Home.home (cells s)) = Some p).
  { destruct Hwf as [_ Hrange]. unfold Home.activePage, js_get.
    destruct (decide (0 <= Home.activePageIndex (Home.home (cells s)))); [|lia].
    apply lookup_lt_is_Some. lia. }
  split; [exact Hactive|]. destruct Hactive as [p Hp]. split; [|split].
  - unfold Home.handlePromptSubmit. rewrite Hp.
    destruct (String.eqb (id p) "master"); [eexists; reflexivity|].
    destruct (truthy (trim (Home.prompt (cells s)))); cbn [negb];
      eexists; reflexivity.
  - intros canvas context2d mode w. unfold Home.generateMindMap. rewrite Hp.
    destruct (negb (String.eqb (id p) "master") && Nat.eqb (length (keywords p)) 0);
      [discriminate|].
    cbv zeta. split_drawing_data; discriminate.
  - intros file. unfold Home.handleImageInputChange.
    destruct file as [file0|]; [|discriminate]. rewrite Hp.
    destruct (String.eqb (id p) "master"); [discriminate|]. cbv zeta.
    match goal with
    | |- context [match ?m with Some _ => _ | None => Home.InputReturned end] =>
        destruct m; discriminate
    end.
Qed.

Lemma home_document_stays_well_formed_witness :
  (rtc (screen_step ex_same ex_same ex_parseError ex_blank_png "null")
     initial_screen ex_clicked
   /\ Home.isLoading (Home.home (cells ex_clicked)) = true
   /\ length (in_flight ex_clicked) = 1%nat
   /\ focus_keywords (Home.focusedItems (Home.home (cells ex_clicked))) = [0])
  /\ well_formed (Home.home (cells ex_clicked)).
Proof.
  assert (H : rtc (screen_step ex_same ex_same ex_parseError ex_blank_png "null")
                initial_screen ex_clicked).
  { apply (rtc_l _ _ ex_typed).
    { exact (step_sync _ _ _ _ _ initial_screen _
               (step_type_page_name _ _ _ "Ideas")). }
    apply (rtc_l _ _ ex_added).
    { exact (step_sync _ _ _ _ _ ex_typed _
               (step_add_page _ _ _ 1700000000000)). }
    apply (rtc_l _ _ ex_prompted).
    { exact (step_sync _ _ _ _ _ ex_added _ (step_type_prompt _ _ _ "Sun")). }
    apply (rtc_l _ _ ex_submitted).
    { exact (step_sync _ _ _ _ _ ex_prompted _ (step_submit_prompt _ _ _)). }
    apply (rtc_l _ _ ex_generating).
    { exact (step_generate _ _ _ _ _ ex_submitted ex_canvas true rethink
               ex_run eq_refl). }
    apply (rtc_l _ _ ex_clicked).
    { exact (step_sync _ _ _ _ _ ex_generating _
               (step_event _ _ _ _
                  (event_toggle_focus _ Home.keyword 0))). }
    apply rtc_refl. }
  split; [split; [exact H | repeat split]|].
  exact (proj1 (home_document_stays_well_formed _ _ _ _ _ _ H)).
Defined.

(** ** Failures of a generation *)

Lemma or_else_nonempty (a b : string) : b <> EmptyString -> or_else a b <> EmptyString.
Proof. unfold or_else. destruct a; cbn; [auto | discriminate]. Qed.

Lemma unexpected_message_nonempty : unexpected_message <> EmptyString.
Proof. unfold unexpected_message. discriminate. Qed.

(** X23. When the backend call fails, the rest of the handler reports the
    message dug out of the error, or the generic message when that is
    empty, and so never an empty one; it lowers the busy flag and leaves
    the document and the focus of the store it resumes on as they are. *)
Theorem backend_error_keeps_document :
  (forall parseError blank_png r random context2d mode w w1 request resume,
     Editor.generateMindMap parseError blank_png r random context2d mode w =
       Awaiting w1 request resume ->
     forall message w',
       let final := resume (Rejected message) w' in
       editor (app final) = editor (app w')
       /\ errorMessage (app final) =
            Some (or_else (parseError message) unexpected_message)
       /\ errorMessage (app final) <> Some EmptyString
       /\ isLoading (app final) = false
       /\ focus final = focus w')
  /\ (forall parseError blank_png null_context_message r canvas context2d mode
        w w1 request resume,
        Home.generateMindMap parseError blank_png null_context_message r canvas
          context2d mode w = Awaiting w1 request resume ->
        forall message w',
          let final := resume (Rejected message) w' in
          Home.pages final = Home.pages w'
          /\ Home.activePageIndex final = Home.activePageIndex w'
          /\ Home.errorMessage final =
               or_else (parseError message) unexpected_message
          /\ Home.errorMessage final <> EmptyString
          /\ Home.showErrorModal final = true
          /\ Home.isLoading final = false
          /\ Home.focusedItems final = Home.focusedItems w').
Proof.
  split.
  - intros parseError blank_png r random context2d mode w w1 request resume Hrun
      message w'.
    unfold Editor.generateMindMap in Hrun.
    destruct (Editor.activePage r) as [p|]; [|discriminate].
    destruct (negb (String.eqb (id p) "master") && Nat.eqb (length (keywords p)) 0);
      [discriminate|].
    cbv zeta in Hrun. split_drawing_data; [|discriminate].
    injection Hrun as _ _ <-. cbv zeta.
    split; [reflexivity|]. split; [reflexivity|].
    split; [|split; reflexivity].
    intros H.
    change (Some (or_else (parseError message) unexpected_message) =
            Some EmptyString) in H.
    injection H as H.
    exact (or_else_nonempty _ _ unexpected_message_nonempty H).
  - intros parseError blank_png null_context_message r canvas context2d mode
      w w1 request resume Hrun message w'.
    unfold Home.generateMindMap in Hrun.
    destruct (Home.activePage r) as [p|]; [|discriminate].
    destruct (negb (String.eqb (id p) "master") && Nat.eqb (length (keywords p)) 0);
      [discriminate|].
    cbv zeta in Hrun. split_drawing_data; [|discriminate].
    injection Hrun as _ _ <-. cbv zeta.
    split; [reflexivity|]. split; [reflexivity|]. split; [reflexivity|].
    split; [|repeat split].
    change (or_else (parseError message) unexpected_message <> EmptyString).
    exact (or_else_nonempty _ _ unexpected_message_nonempty).
Qed.

Lemma backend_error_keeps_document_witness :
  exists w1 request resume,
    Editor.generateMindMap ex_parseError ex_blank_png ex_render_ideas 0 true
      rethink ex_store_ideas = Awaiting w1 request resume
    /\ errorMessage (app (resume (Rejected "quota exceeded") w1)) =
         Some "quota exceeded".
Proof.
  do 3 eexists. split; [reflexivity|].
  exact (proj1 (proj2 (proj1 backend_error_keeps_document ex_parseError
                         ex_blank_png ex_render_ideas 0%nat true rethink
                         ex_store_ideas _ _ _ eq_refl "quota exceeded" _))).
Defined.

(** X24. When the base image has to be drawn on a fresh canvas and no 2D
    context is to be had, the generation is over before its [await]: no
    request goes out and the document stays as it is, with the focus sets
    emptied and the busy flag down.  The reducer-based editor then reports
    nothing at all; the [useState]-based editor reports the error raised
    by the missing context. *)
Theorem missing_context_stops_generation :
  (forall parseError blank_png r random mode w p,
     Editor.activePage r = Some p ->
     String.eqb (id p) "master" = true \/ keywords p <> [] ->
     mode = rethink \/ generatedImage p = None
     \/ generatedImage p = Some EmptyString \/ Editor.canvas r = None ->
     let run := Editor.generateMindMap parseError blank_png r random false mode w in
     network_calls run = []
     /\ (exists w', run = Finished w')
     /\ editor (app (store_at_pause run)) = editor (app w)
     /\ errorMessage (app (store_at_pause run)) = errorMessage (app w)
     /\ isLoading (app (store_at_pause run)) = false
     /\ focus (store_at_pause run) = no_focus)
  /\ (forall parseError blank_png null_context_message r canvas mode w p,
        Home.activePage r = Some p ->
        String.eqb (id p) "master" = true \/ keywords p <> [] ->
        mode = rethink \/ generatedImage p = None
        \/ generatedImage p = Some EmptyString \/ canvas = None ->
        let run :=
          Home.generateMindMap parseError blank_png null_context_message
            r canvas false mode w in
        network_calls run = []
        /\ (exists w', run = Finished w')
        /\ Home.pages (store_at_pause run) = Home.pages w
        /\ Home.activePageIndex (store_at_pause run) = Home.activePageIndex w
        /\ Home.errorMessage (store_at_pause run) =
             or_else (parseError null_context_message) unexpected_message
        /\ Home.showErrorModal (store_at_pause run) = true
        /\ Home.isLoading (store_at_pause run) = false
        /\ Home.focusedItems (store_at_pause run) = no_focus).
Proof.
  split.
  - intros parseError blank_png r random mode w p Hp Hv Hfresh run. subst run.
    unfold Editor.generateMindMap. rewrite Hp, (validation_passes p Hv). cbv zeta.
    assert (Hd : match mode, generatedImage p, Editor.canvas r with
                 | evolve, Some (String _ _), Some c0 => Some (png_base64 c0)
                 | _, _, _ => @None string
                 end = None).
    { destruct Hfresh as [-> | [-> | [-> | ->]]]; [reflexivity | | |].
      - destruct mode; reflexivity.
      - destruct mode; reflexivity.
      - destruct mode; [|reflexivity]. destruct (generatedImage p) as [[|? ?]|]; reflexivity. }
    destruct mode, (generatedImage p) as [[|c0 d0]|], (Editor.canvas r) as [cv|];
      try discriminate Hd; cbn [network_calls store_at_pause];
      (split; [reflexivity|]; split; [eexists; reflexivity|]; repeat split).
  - intros parseError blank_png null_context_message r canvas mode w p Hp Hv
      Hfresh run. subst run.
    unfold Home.generateMindMap. rewrite Hp, (validation_passes p Hv). cbv zeta.
    assert (Hd : match mode, generatedImage p, canvas with
                 | evolve, Some (String _ _), Some c0 => Some (png_base64 c0)
                 | _, _, _ => @None string
                 end = None).
    { destruct Hfresh as [-> | [-> | [-> | ->]]]; [reflexivity | | |].
      - destruct mode; reflexivity.
      - destruct mode; reflexivity.
      - destruct mode; [|reflexivity]. destruct (generatedImage p) as [[|? ?]|]; reflexivity. }
    destruct mode, (generatedImage p) as [[|c0 d0]|], canvas as [cv|];
      try discriminate Hd; cbn [network_calls store_at_pause];
      (split; [reflexivity|]; split; [eexists; reflexivity|]; repeat split).
Qed.

Lemma missing_context_stops_generation_witness :
  (Editor.activePage ex_render_ideas = Some ex_ideas
   /\ (String.eqb (id ex_ideas) "master" = true \/ keywords ex_ideas <> []))
  /\ network_calls
       (Editor.generateMindMap ex_parseError ex_blank_png ex_render_ideas 0 false
          rethink ex_store_ideas) = [].
Proof.
  assert (Hv : String.eqb (id ex_ideas) "master" = true \/ keywords ex_ideas <> [])
    by (right; discriminate).
  split; [split; [reflexivity | exact Hv]|].
  exact (proj1 (proj1 missing_context_stops_generation ex_parseError ex_blank_png
                  ex_render_ideas 0%nat rethink ex_store_ideas ex_ideas eq_refl Hv
                  (or_introl eq_refl))).
Defined.

(** ** Creating a project *)



